(** * Marshalling layer of the Metview Python bindings (mpy/metview.py)

    A shallow embedding of the argument encoder, the tagged decoder and the
    Request entity of [mpy/metview.py].  The native engine behind the cffi
    handle [lib] is an external collaborator: it is an [Engine], a state type
    together with its answer to every foreign call, and every foreign call the
    host makes is recorded, with the engine's answer, in a log. *)

From Stdlib Require Import ZArith List String Ascii Bool Lia.
From Stdlib Require Import Floats.SpecFloat.
Import ListNotations.
Local Open Scope string_scope.
Local Open Scope Z_scope.

(** ** Host-side scalars *)

(** A Python [float] and a C [double]: the IEEE 754 binary64 values. *)
Definition pyfloat : Type := spec_float.

Definition prec : Z := 53.
Definition emax : Z := 1024.

(** A Python [str] is held as the byte string of its UTF-8 encoding, so
    [s.encode('utf-8')] hands the same bytes over. *)
Definition bytes : Type := string.

Definition str_encode (s : string) : bytes := s.

(** A cffi pointer is an address; address 0 is [ffi.NULL]. *)
Definition ptr : Type := Z.
Definition NULL : ptr := 0.

(** A [char *] returned by the engine: [None] is the NULL pointer, otherwise
    the bytes up to the terminating zero. *)
Definition cstr : Type := option bytes.

(** Well-formed UTF-8 byte sequences (Unicode, table 3-7). *)
Definition in_range (lo hi b : N) : bool := (N.leb lo b && N.leb b hi)%bool.

Definition cont (b : N) : bool := in_range 128 191 b.

Fixpoint utf8_wf (l : list N) : bool :=
  match l with
  | [] => true
  | b0 :: t0 =>
    if N.leb b0 127 then utf8_wf t0
    else match t0 with
    | [] => false
    | b1 :: t1 =>
      if in_range 194 223 b0 then cont b1 && utf8_wf t1
      else match t1 with
      | [] => false
      | b2 :: t2 =>
        if in_range 224 239 b0 then
          (if N.eqb b0 224 then in_range 160 191 b1
           else if N.eqb b0 237 then in_range 128 159 b1
           else cont b1) && cont b2 && utf8_wf t2
        else match t2 with
        | [] => false
        | b3 :: t3 =>
          if in_range 240 244 b0 then
            (if N.eqb b0 240 then in_range 144 191 b1
             else if N.eqb b0 244 then in_range 128 143 b1
             else cont b1) && cont b2 && cont b3 && utf8_wf t3
          else false
        end
      end
    end
  end%bool.

Definition byte_values (b : bytes) : list N :=
  map N_of_ascii (list_ascii_of_string b).

(** ** Exceptions and the host monad *)

(** [MultipleValues f a] is the [TypeError] the interpreter raises when the
    call of [f] is given a keyword argument called [a] although a positional
    argument already fills the parameter [a]; the others are raised by the
    code itself. *)
Inductive PyExn : Type :=
| TypeError (msg : string) (kind : string)
| MultipleValues (function : string) (argument : string)
| Exception (msg : string)
| OverflowError (msg : string)
| UnicodeDecodeError (codec : string)
| RuntimeError (msg : string).

(** What running a piece of host code gives: a value, a raised exception, or
    a recursion that did not finish within the depth allowed. *)
Inductive Outcome (A : Type) : Type :=
| Ok (a : A)
| Raise (e : PyExn)
| OutOfFuel.
Arguments Ok {A} a.
Arguments Raise {A} e.
Arguments OutOfFuel {A}.

(** [float(n)] for a Python [int]: round to nearest even, OverflowError when
    the result does not fit a double. *)
Definition float_of_int (n : Z) : Outcome pyfloat :=
  match binary_normalize prec emax n 0 false with
  | S754_infinity _ => Raise (OverflowError "int too large to convert to float")
  | x => Ok x
  end.

(** [bytes.decode('utf-8')] *)
Definition bytes_decode (b : bytes) : Outcome string :=
  if utf8_wf (byte_values b) then Ok b else Raise (UnicodeDecodeError "utf-8").

(** ** The foreign function table *)

(** The entry points of [lib] that the module calls, indexed by the type of
    what they return. *)
Inductive ffi : Type -> Type :=
| p_push_number (x : pyfloat) : ffi unit
| p_push_string (b : bytes) : ffi unit
| p_push_request (r : ptr) : ffi unit
| p_push_value (v : ptr) : ffi unit
| p_push_list (l : ptr) : ffi unit
| p_new_request (verb : bytes) : ffi ptr
| p_set_request_value_from_pop (r : ptr) (k : bytes) : ffi unit
| p_new_list (n : Z) : ffi ptr
| p_add_value_from_pop_to_list (l : ptr) (i : Z) : ffi unit
| p_call_function (name : bytes) (nargs : Z) : ffi unit
| p_result_as_value : ffi ptr
| p_value_type (v : ptr) : ffi Z
| p_value_as_number (v : ptr) : ffi pyfloat
| p_value_as_string (v : ptr) : ffi cstr
| p_value_as_request (v : ptr) : ffi ptr
| p_value_as_list (v : ptr) : ffi ptr
| p_list_count (l : ptr) : ffi Z
| p_list_element_as_value (l : ptr) (i : Z) : ffi ptr
| p_error_message (v : ptr) : ffi cstr
| p_data_path (v : ptr) : ffi cstr
| p_get_req_verb (r : ptr) : ffi cstr
| p_get_req_num_params (r : ptr) : ffi Z
| p_get_req_param (r : ptr) (i : Z) : ffi cstr
| p_get_req_value (r : ptr) (param : bytes) : ffi cstr.

(** An engine: its state and its answer to each foreign call. *)
Record Engine : Type := {
  eng_state : Type;
  eng_call : forall R : Type, ffi R -> eng_state -> R * eng_state
}.

(** One foreign call together with what the engine answered. *)
Inductive Event : Type :=
| Ev (R : Type) (c : ffi R) (r : R).
Arguments Ev {R} c r.


(** ** Host values *)

(** [class Value]: a pointer-backed value and its [val_pointer]. *)
Record FileBackedValue : Type := mkFileBacked {
  fb_val_pointer : ptr;
  url : string
}.

(** [class Request(dict, Value)] over a type [V] of values: the verb, the
    retained pointer ([None] when built from a mapping) and the entries of the
    dict in insertion order. *)
Record RequestOf (V : Type) : Type := mkRequest {
  verb : string;
  val_pointer : option ptr;
  items : list (string * V)
}.
Arguments mkRequest {V} verb val_pointer items.
Arguments verb {V} r.
Arguments val_pointer {V} r.
Arguments items {V} r.

#[local] Set Warnings "-register-all".
Inductive PyVal : Type :=
| PyFloat (x : pyfloat)
| PyInt (i : Z)
| PyBool (b : bool)
| PyStr (s : string)
| PyRequest (r : RequestOf PyVal)
| PyDict (d : list (string * PyVal))
| PyFieldset (f : FileBackedValue)
| PyBufr (f : FileBackedValue)
| PyGeopoints (f : FileBackedValue)
| PyNetCDF (f : FileBackedValue)
| PyList (l : list PyVal)
| PyTuple (l : list PyVal)
| PyNone
| PyOther (kind : string).
#[local] Set Warnings "register-all".

Definition Request : Type := RequestOf PyVal.
Definition dict : Type := list (string * PyVal).

(** [builtins.type(n)], by the name of the class. *)
Definition py_type (n : PyVal) : string :=
  match n with
  | PyFloat _ => "float"
  | PyInt _ => "int"
  | PyBool _ => "bool"
  | PyStr _ => "str"
  | PyRequest _ => "Request"
  | PyDict _ => "dict"
  | PyFieldset _ => "Fieldset"
  | PyBufr _ => "Bufr"
  | PyGeopoints _ => "Geopoints"
  | PyNetCDF _ => "NetCDF"
  | PyList _ => "list"
  | PyTuple _ => "tuple"
  | PyNone => "NoneType"
  | PyOther kind => kind
  end.


(** *** Dict operations *)

Fixpoint dict_get {V : Type} (k : string) (d : list (string * V)) : option V :=
  match d with
  | [] => None
  | (k', v) :: rest => if String.eqb k k' then Some v else dict_get k rest
  end.

(** [d[k] = v]: an existing key keeps its place, a new one goes last. *)
Fixpoint dict_set {V : Type} (k : string) (v : V) (d : list (string * V))
  : list (string * V) :=
  match d with
  | [] => [(k, v)]
  | (k', v') :: rest =>
    if String.eqb k k' then (k, v) :: rest else (k', v') :: dict_set k v rest
  end.

(** [d.update(src)] *)
Definition dict_update {V : Type} (d src : list (string * V))
  : list (string * V) :=
  fold_left (fun acc kv => dict_set (fst kv) (snd kv) acc) src d.

Definition len {A : Type} (l : list A) : Z := Z.of_nat (List.length l).

(** Python uses 0-based indexing, Metview uses 1-based indexing *)
Definition python_to_mv_index (pi : Z) : Z := pi + 1.

Definition conversion_dict (v : bool) : string := if v then "on" else "off".

(** [Request.to_metview_style]: translate Python classes into Metview ones
    where needed. *)
Definition to_metview_style (self : dict) : dict :=
  fold_left
    (fun d kv =>
       match snd kv with
       | PyBool v => dict_set (fst kv) (PyStr (conversion_dict v)) d
       | _ => d
       end)
    self self.

(** Nesting depth of a host value, the depth of the recursion of the
    encoder on it. *)
Fixpoint depth (n : PyVal) : nat :=
  match n with
  | PyRequest r =>
    S (fold_right (fun kv m => Nat.max (depth (snd kv)) m) O (items r))
  | PyDict d => S (fold_right (fun kv m => Nat.max (depth (snd kv)) m) O d)
  | PyList l | PyTuple l => S (fold_right (fun v m => Nat.max (depth v) m) O l)
  | _ => O
  end.

(** ** The host monad *)

Section Host.

Variable E : Engine.

(** The state host code runs in: the engine behind [lib] and the foreign
    calls made so far, oldest first. *)
Record HostState : Type := mkHost {
  log : list Event;
  eng : eng_state E
}.

Definition M (A : Type) : Type := HostState -> Outcome A * HostState.

Definition ret {A : Type} (a : A) : M A := fun st => (Ok a, st).

Definition bind {A B : Type} (m : M A) (k : A -> M B) : M B :=
  fun st =>
    match m st with
    | (Ok a, st') => k a st'
    | (Raise e, st') => (Raise e, st')
    | (OutOfFuel, st') => (OutOfFuel, st')
    end.

Definition raise {A : Type} (e : PyExn) : M A := fun st => (Raise e, st).

Definition out_of_fuel {A : Type} : M A := fun st => (OutOfFuel, st).

Definition lift {A : Type} (o : Outcome A) : M A := fun st => (o, st).

(** A call through [lib]: the engine answers and moves on, the log grows. *)
Definition call {R : Type} (c : ffi R) : M R :=
  fun st =>
    let (r, e') := eng_call E R c (eng st) in
    (Ok r, {| log := log st ++ [Ev c r]; eng := e' |}).

Notation "x <- m ;; k" := (bind m (fun x => k))
  (at level 61, m at next level, right associativity).
Notation "m ;;; k" := (bind m (fun _ => k))
  (at level 61, right associativity).

(** [for x in l: body(x)] *)
Fixpoint for_each {A : Type} (l : list A) (body : A -> M unit) : M unit :=
  match l with
  | [] => ret tt
  | x :: rest => body x ;;; for_each rest body
  end.

(** [for i, x in enumerate(l): body(i, x)], counting from [i]. *)
Fixpoint for_enumerate {A : Type} (i : Z) (l : list A)
  (body : Z -> A -> M unit) : M unit :=
  match l with
  | [] => ret tt
  | x :: rest => body i x ;;; for_enumerate (i + 1) rest body
  end.

(** [for x in l: acc = body(x, acc)] *)
Fixpoint for_acc {A S : Type} (l : list A) (body : A -> S -> M S) (acc : S)
  : M S :=
  match l with
  | [] => ret acc
  | x :: rest => acc' <- body x acc ;; for_acc rest body acc'
  end.

(** [for i in range(i, i + count): acc = body(i, acc)] *)
Fixpoint for_range {S : Type} (count : nat) (i : Z) (body : Z -> S -> M S)
  (acc : S) : M S :=
  match count with
  | O => ret acc
  | Datatypes.S count' =>
    acc' <- body i acc ;; for_range count' (i + 1) body acc'
  end.

(** ** Strings across the boundary *)

(** [ffi.string(s).decode('utf-8')] *)
Definition string_from_ffi (s : cstr) : M string :=
  match s with
  | None => raise (RuntimeError "cannot use string() on a NULL pointer")
  | Some b => lift (bytes_decode b)
  end.

Definition push_bytes (b : bytes) : M unit := call (p_push_string b).

Definition push_str (s : string) : M unit := push_bytes (str_encode s).

(** ** Request *)

(** What [Request(req)] is given: a plain dict, a Request, or a cdata
    pointer to an engine-side request. *)
Inductive RequestSource : Type :=
| SrcDict (d : dict)
| SrcRequest (r : Request)
| SrcHandle (req : ptr).

(** One turn of the loop of [Request.__init__] over the parameters of the
    engine-side request [req]: the mapping [self] with parameter [i] pulled
    in. *)
Definition pull_param (req : ptr) (i : Z) (self : dict) : M dict :=
  c <- call (p_get_req_param req i) ;;
  param <- string_from_ffi c ;;
  raw_val <- call (p_get_req_value req (str_encode param)) ;;
  match raw_val with
  | Some _ =>
    val <- string_from_ffi raw_val ;;
    ret (dict_set param (PyStr val) self)
  | None => ret self
  end.

(** [Request.__init__] *)
Definition Request_init (req : RequestSource) : M Request :=
  match req with
  | SrcDict d =>
    ret (mkRequest "UNKNOWN" None (to_metview_style (dict_update [] d)))
  | SrcRequest r =>
    ret (mkRequest (verb r) None (to_metview_style (dict_update [] (items r))))
  | SrcHandle req =>
    c <- call (p_get_req_verb req) ;;
    verb <- string_from_ffi c ;;
    n <- call (p_get_req_num_params req) ;;
    d <- for_range (Z.to_nat n) 0 (pull_param req) [] ;;
    ret (mkRequest verb (Some req) d)
  end.

(** Truth value of a retained pointer: [None] and [ffi.NULL] are false. *)
Definition truthy (p : option ptr) : bool :=
  match p with
  | Some a => negb (a =? NULL)
  | None => false
  end.

(** ** Argument encoder *)

Section Encoder.

(** The encoder that the bodies below call on nested values. *)
Variable push_arg : PyVal -> string -> M Z.

(** [Request.push] *)
Definition Request_push_body (self : Request) : M unit :=
  if truthy (val_pointer self) then
    (* [Value.push(self)] is the retained pointer *)
    match val_pointer self with
    | Some p => call (p_push_request p)
    | None => ret tt
    end
  else
    r <- call (p_new_request (str_encode (verb self))) ;;
    for_each (items self)
      (fun kv =>
         push_arg (snd kv) "NONAME" ;;;
         call (p_set_request_value_from_pop r (str_encode (fst kv)))) ;;;
    call (p_push_request r).

Definition push_list_body (lst : list PyVal) : M unit :=
  mlist <- call (p_new_list (len lst)) ;;
  for_enumerate 0 lst
    (fun i val =>
       push_arg val "NONE" ;;;
       call (p_add_value_from_pop_to_list mlist i)) ;;;
  call (p_push_list mlist).

Definition push_arg_body (n : PyVal) (name : string) : M Z :=
  let nargs := 1 in
  match n with
  | PyFloat x => call (p_push_number x)
  | PyInt i => x <- lift (float_of_int i) ;; call (p_push_number x)
  | PyBool b => x <- lift (float_of_int (Z.b2z b)) ;; call (p_push_number x)
  | PyStr s => push_str s
  | PyRequest r => Request_push_body r
  | PyDict d => r <- Request_init (SrcDict d) ;; Request_push_body r
  | PyFieldset f => call (p_push_value (fb_val_pointer f))
  | PyBufr f => call (p_push_value (fb_val_pointer f))
  | PyGeopoints f => call (p_push_value (fb_val_pointer f))
  | PyNetCDF f => call (p_push_value (fb_val_pointer f))
  | PyList l => push_list_body l
  | PyTuple l => push_list_body l
  | PyNone | PyOther _ =>
    raise (TypeError "Cannot push this type of argument to Metview: "
             (py_type n))
  end ;;;
  ret nargs.

End Encoder.

(** The encoder, by recursion on the nesting depth still allowed. *)
Fixpoint push_arg_rec (fuel : nat) : PyVal -> string -> M Z :=
  match fuel with
  | O => fun _ _ => out_of_fuel
  | S fuel' => push_arg_body (push_arg_rec fuel')
  end.

(** [push_arg]: the depth of the value is all the recursion needs. *)
Definition push_arg (n : PyVal) (name : string) : M Z :=
  push_arg_rec (S (depth n)) n name.

Definition Request_push (self : Request) : M unit :=
  Request_push_body push_arg self.

Definition push_list (lst : list PyVal) : M unit :=
  push_list_body push_arg lst.

Definition dict_to_pushed_args (d : Request) : M Z :=
  for_each (items d)
    (fun kv => push_str (fst kv) ;;; push_arg (snd kv) "NONE" ;;; ret tt) ;;;
  ret (2 * len (items d)).

(** The call [_call_function(name, *args, **kwargs)].  The first parameter
    of the function is called [name]: a keyword argument called name cannot
    be bound beside it, and the interpreter raises before the body runs. *)
Definition _call_function (name : string) (args : list PyVal) (kwargs : dict)
  : M unit :=
  match dict_get "name" kwargs with
  | Some _ => raise (MultipleValues "_call_function" "name")
  | None =>
    nargs <- for_acc args
               (fun n nargs =>
                  actual_n_args <- push_arg n name ;;
                  ret (nargs + actual_n_args))
               0 ;;
    let merged_dict := dict_update [] kwargs in
    nargs <- (if len merged_dict >? 0 then
                r <- Request_init (SrcDict merged_dict) ;;
                dn <- dict_to_pushed_args r ;;
                ret (nargs + dn)
              else ret nargs) ;;
    call (p_call_function (str_encode name) nargs)
  end.

(** ** Tagged decoder *)

(** [FileBackedValue.__init__]: ask Metview for the file relating to this
    data. *)
Definition FileBackedValue_init (val_pointer : ptr) : M FileBackedValue :=
  c <- call (p_data_path val_pointer) ;;
  url <- string_from_ffi c ;;
  ret (mkFileBacked val_pointer url).

Section Decoder.

(** The decoder that the bodies below call on nested values. *)
Variable value_from_metview : ptr -> M PyVal.

Definition list_from_metview_body (mlist : ptr) : M (list PyVal) :=
  n <- call (p_list_count mlist) ;;
  for_range (Z.to_nat n) 0
    (fun i result =>
       mval <- call (p_list_element_as_value mlist i) ;;
       v <- value_from_metview mval ;;
       ret (result ++ [v])%list)
    [].

Definition value_from_metview_body (val : ptr) : M PyVal :=
  rt <- call (p_value_type val) ;;
  if rt =? 0 then
    x <- call (p_value_as_number val) ;; ret (PyFloat x)
  else if rt =? 1 then
    c <- call (p_value_as_string val) ;;
    s <- string_from_ffi c ;; ret (PyStr s)
  else if rt =? 2 then
    f <- FileBackedValue_init val ;; ret (PyFieldset f)
  else if rt =? 3 then
    return_req <- call (p_value_as_request val) ;;
    r <- Request_init (SrcHandle return_req) ;; ret (PyRequest r)
  else if rt =? 4 then
    f <- FileBackedValue_init val ;; ret (PyBufr f)
  else if rt =? 5 then
    f <- FileBackedValue_init val ;; ret (PyGeopoints f)
  else if rt =? 6 then
    mlist <- call (p_value_as_list val) ;;
    l <- list_from_metview_body mlist ;; ret (PyList l)
  else if rt =? 7 then
    f <- FileBackedValue_init val ;; ret (PyNetCDF f)
  else if rt =? 8 then
    ret PyNone
  else if rt =? 9 then
    c <- call (p_error_message val) ;;
    err_msg <- string_from_ffi c ;;
    raise (Exception ("Metview error: " ++ err_msg))
  else
    raise (Exception "value_from_metview got an unhandled return type").

End Decoder.

(** The decoder, by recursion on the nesting depth still allowed: how deep
    a result is nested is for the engine to say. *)
Fixpoint value_from_metview (fuel : nat) : ptr -> M PyVal :=
  match fuel with
  | O => fun _ => out_of_fuel
  | S fuel' => value_from_metview_body (value_from_metview fuel')
  end.

Definition list_from_metview (fuel : nat) (mlist : ptr) : M (list PyVal) :=
  list_from_metview_body (value_from_metview fuel) mlist.

(** ** Named-function binding *)

(** [make(name)], the wrapped function applied to [args] and [kwargs]: it
    calls [_call_function(name, *args, **kwargs)], which raises when a
    keyword argument is called name.  [fuel] bounds the nesting of the
    result. *)
Definition make (fuel : nat) (name : string) (args : list PyVal)
  (kwargs : dict) : M PyVal :=
  _call_function name args kwargs ;;;
  val <- call p_result_as_value ;;
  value_from_metview fuel val.

Definition subset (fuel : nat) : list PyVal -> dict -> M PyVal :=
  make fuel "[]".


End Host.

Arguments log {E} h.
Arguments eng {E} h.
Arguments mkHost {E} log eng.

(** ** A reference engine

    The engine the comments of the module describe: a stack machine.  Values
    are pushed on an argument stack; a new request or list is allocated and
    then filled by popping the stack; a call consumes its arguments and
    leaves one tagged result.  The functions the engine knows are a
    parameter. *)

#[local] Set Warnings "-register-all".
Inductive MvValue : Type :=
| MvNumber (x : pyfloat)
| MvString (s : bytes)
| MvFieldset (path : cstr)
| MvRequest (verb : cstr) (params : list (bytes * MvValue))
| MvBufr (path : cstr)
| MvGeopoints (path : cstr)
| MvList (elems : list MvValue)
| MvNetCDF (path : cstr)
| MvNil
| MvError (msg : cstr)
| MvOther (tag : Z).
#[local] Set Warnings "register-all".

(** The wire tag of an engine value. *)
Definition tag_of (v : MvValue) : Z :=
  match v with
  | MvNumber _ => 0
  | MvString _ => 1
  | MvFieldset _ => 2
  | MvRequest _ _ => 3
  | MvBufr _ => 4
  | MvGeopoints _ => 5
  | MvList _ => 6
  | MvNetCDF _ => 7
  | MvNil => 8
  | MvError _ => 9
  | MvOther tag => tag
  end.

Record Machine : Type := mkMachine {
  heap : list MvValue;    (* address [a >= 1] holds the element [a - 1] *)
  stack : list MvValue;   (* the argument stack, top first *)
  result : MvValue        (* what the last call left *)
}.

Definition deref (m : Machine) (p : ptr) : MvValue :=
  if p <=? 0 then MvNil else nth (Z.to_nat (p - 1)) (heap m) MvNil.

Definition alloc (v : MvValue) (m : Machine) : ptr * Machine :=
  (len (heap m) + 1,
   {| heap := heap m ++ [v]; stack := stack m; result := result m |}).

Fixpoint list_set {A : Type} (i : nat) (x : A) (l : list A) : list A :=
  match l, i with
  | [], _ => []
  | _ :: rest, O => x :: rest
  | y :: rest, S i' => y :: list_set i' x rest
  end.

Definition store (p : ptr) (v : MvValue) (m : Machine) : Machine :=
  if p <=? 0 then m
  else {| heap := list_set (Z.to_nat (p - 1)) v (heap m);
          stack := stack m; result := result m |}.

Definition push (v : MvValue) (m : Machine) : Machine :=
  {| heap := heap m; stack := v :: stack m; result := result m |}.

Definition pop (m : Machine) : MvValue * Machine :=
  match stack m with
  | [] => (MvNil, m)
  | v :: rest => (v, {| heap := heap m; stack := rest; result := result m |})
  end.

Definition data_path (v : MvValue) : cstr :=
  match v with
  | MvFieldset path | MvBufr path | MvGeopoints path | MvNetCDF path => path
  | _ => None
  end.

Section Reference.

(** The engine's function table: a name and the arguments, first pushed
    first, give the result. *)
Variable functions : bytes -> list MvValue -> MvValue.

Definition machine_call (R : Type) (c : ffi R) : Machine -> R * Machine :=
  match c in ffi R return Machine -> R * Machine with
  | p_push_number x => fun m => (tt, push (MvNumber x) m)
  | p_push_string b => fun m => (tt, push (MvString b) m)
  | p_push_request r => fun m => (tt, push (deref m r) m)
  | p_push_value v => fun m => (tt, push (deref m v) m)
  | p_push_list l => fun m => (tt, push (deref m l) m)
  | p_new_request verb => fun m => alloc (MvRequest (Some verb) []) m
  | p_set_request_value_from_pop r k => fun m =>
    let (v, m') := pop m in
    match deref m' r with
    | MvRequest verb params =>
      (tt, store r (MvRequest verb (dict_set k v params)) m')
    | _ => (tt, m')
    end
  | p_new_list n => fun m => alloc (MvList (repeat MvNil (Z.to_nat n))) m
  | p_add_value_from_pop_to_list l i => fun m =>
    let (v, m') := pop m in
    match deref m' l with
    | MvList elems =>
      (tt, store l (MvList (list_set (Z.to_nat i) v elems)) m')
    | _ => (tt, m')
    end
  | p_call_function name nargs => fun m =>
    let n := Z.to_nat nargs in
    (tt, {| heap := heap m; stack := skipn n (stack m);
            result := functions name (rev (firstn n (stack m))) |})
  | p_result_as_value => fun m => alloc (result m) m
  | p_value_type v => fun m => (tag_of (deref m v), m)
  | p_value_as_number v => fun m =>
    (match deref m v with MvNumber x => x | _ => S754_zero false end, m)
  | p_value_as_string v => fun m =>
    (match deref m v with MvString s => Some s | _ => None end, m)
  | p_value_as_request v => fun m =>
    (match deref m v with MvRequest _ _ => v | _ => NULL end, m)
  | p_value_as_list v => fun m =>
    (match deref m v with MvList _ => v | _ => NULL end, m)
  | p_list_count l => fun m =>
    (match deref m l with MvList elems => len elems | _ => 0 end, m)
  | p_list_element_as_value l i => fun m =>
    match deref m l with
    | MvList elems => alloc (nth (Z.to_nat i) elems MvNil) m
    | _ => (NULL, m)
    end
  | p_error_message v => fun m =>
    (match deref m v with MvError msg => msg | _ => None end, m)
  | p_data_path v => fun m => (data_path (deref m v), m)
  | p_get_req_verb r => fun m =>
    (match deref m r with MvRequest verb _ => verb | _ => None end, m)
  | p_get_req_num_params r => fun m =>
    (match deref m r with MvRequest _ params => len params | _ => 0 end, m)
  | p_get_req_param r i => fun m =>
    (match deref m r with
     | MvRequest _ params =>
       match nth_error params (Z.to_nat i) with
       | Some (k, _) => Some k
       | None => None
       end
     | _ => None
     end, m)
  | p_get_req_value r param => fun m =>
    (match deref m r with
     | MvRequest _ params =>
       match dict_get param params with
       | Some (MvString s) => Some s
       | _ => None
       end
     | _ => None
     end, m)
  end.

Definition reference : Engine :=
  {| eng_state := Machine; eng_call := machine_call |}.

End Reference.

(** A function table that knows nothing: every call gives the empty value. *)
Definition no_functions (name : bytes) (args : list MvValue) : MvValue := MvNil.

Definition empty_machine : Machine :=
  {| heap := []; stack := []; result := MvNil |}.

Definition start (f : bytes -> list MvValue -> MvValue)
  : HostState (reference f) :=
  @mkHost (reference f) [] empty_machine.

(** The floats [1.0] and [2.0]. *)
Definition one : pyfloat := S754_finite false 4503599627370496 (-52).
Definition two : pyfloat := S754_finite false 4503599627370496 (-51).


(** * Definitions used to state the properties *)

(** The greatest depth among the values of a dict. *)
Definition max_depth (d : dict) : nat :=
  fold_right (fun kv m => Nat.max (depth (snd kv)) m) O d.

(** The float [0.0]. *)
Definition zero : pyfloat := S754_zero false.

(** The kinds the encoder has a branch for: float, int (and so bool), str,
    Request, dict, the four file-backed kinds, list and tuple. *)
Definition supported (n : PyVal) : bool :=
  match n with
  | PyNone | PyOther _ => false
  | _ => true
  end.

(** The mapping a Request is built from, when it is built from one. *)
Definition mapping_of (src : RequestSource) : option dict :=
  match src with
  | SrcDict d => Some d
  | SrcRequest r => Some (items r)
  | SrcHandle _ => None
  end.

(** What [to_metview_style] makes of one value. *)
Definition metview_value (v : PyVal) : PyVal :=
  match v with
  | PyBool b => PyStr (conversion_dict b)
  | _ => v
  end.

(** What [to_metview_style] makes of one entry. *)
Definition metview_item (kv : string * PyVal) : string * PyVal :=
  (fst kv, metview_value (snd kv)).

(** A value the encoder goes through without raising: every kind met has a
    branch and every int fits a double.  A Request that retains a handle is
    not looked into. *)
Fixpoint encodable (n : PyVal) : bool :=
  match n with
  | PyFloat _ | PyBool _ | PyStr _ => true
  | PyInt i => match float_of_int i with Ok _ => true | _ => false end
  | PyRequest r =>
    truthy (val_pointer r) || forallb (fun kv => encodable (snd kv)) (items r)
  | PyDict d => forallb (fun kv => encodable (snd kv)) d
  | PyFieldset _ | PyBufr _ | PyGeopoints _ | PyNetCDF _ => true
  | PyList l | PyTuple l => forallb encodable l
  | PyNone | PyOther _ => false
  end.

(** What the log says the engine reported about the request [req]: the
    parameter names by index, and the values by parameter name. *)
Definition param_answer (req : ptr) (e : Event) : list (Z * cstr) :=
  match e with
  | Ev c r =>
    match c in ffi R return R -> list (Z * cstr) with
    | p_get_req_param req' i =>
      fun name => if req' =? req then [(i, name)] else []
    | _ => fun _ => []
    end r
  end.

Definition value_answer (req : ptr) (e : Event) : list (bytes * cstr) :=
  match e with
  | Ev c r =>
    match c in ffi R return R -> list (bytes * cstr) with
    | p_get_req_value req' param =>
      fun raw => if req' =? req then [(param, raw)] else []
    | _ => fun _ => []
    end r
  end.

Definition params_reported (req : ptr) (evs : list Event) : list (Z * cstr) :=
  flat_map (param_answer req) evs.

Definition values_reported (req : ptr) (evs : list Event)
  : list (bytes * cstr) :=
  flat_map (value_answer req) evs.

(** [range(i, i + count)] *)
Fixpoint zrange (i : Z) (count : nat) : list Z :=
  match count with
  | O => []
  | S count' => i :: zrange (i + 1) count'
  end.

(** The mapping made of the values pulled, in the order they were pulled:
    a null value leaves the mapping as it is. *)
Definition pull (self : dict) (pv : bytes * cstr) : dict :=
  match snd pv with
  | Some raw => dict_set (fst pv) (PyStr raw) self
  | None => self
  end.

Definition pulled (vals : list (bytes * cstr)) (self : dict) : dict :=
  fold_left pull vals self.

(** Values made of numbers, strings and sequences only. *)
Fixpoint plain (n : PyVal) : bool :=
  match n with
  | PyFloat _ | PyBool _ => true
  | PyInt i => match float_of_int i with Ok _ => true | _ => false end
  | PyStr s => utf8_wf (byte_values s)
  | PyList l | PyTuple l => forallb plain l
  | _ => false
  end.

(** The float an int that fits a double is pushed as. *)
Definition number_of (i : Z) : pyfloat :=
  match float_of_int i with
  | Ok x => x
  | _ => zero
  end.

(** The engine value a plain host value is pushed as. *)
Fixpoint wire (n : PyVal) : MvValue :=
  match n with
  | PyFloat x => MvNumber x
  | PyInt i => MvNumber (number_of i)
  | PyBool b => MvNumber (number_of (Z.b2z b))
  | PyStr s => MvString (str_encode s)
  | PyList l | PyTuple l => MvList (map wire l)
  | _ => MvNil
  end.


(** Lists of floats, strings and lists: the values decoding gives back
    unchanged. *)
Fixpoint exact (n : PyVal) : bool :=
  match n with
  | PyFloat _ => true
  | PyStr s => utf8_wf (byte_values s)
  | PyList l => forallb exact l
  | _ => false
  end.

(** Nesting depth of an engine value, the depth of the recursion of the
    decoder on it. *)
Fixpoint mv_depth (v : MvValue) : nat :=
  match v with
  | MvList l => S (fold_right (fun v m => Nat.max (mv_depth v) m) O l)
  | _ => O
  end.

(** A [char *] that holds text: not null, well-formed UTF-8. *)
Definition text (c : cstr) : bool :=
  match c with
  | Some b => utf8_wf (byte_values b)
  | None => false
  end.

(** Engine values of the kinds the bindings know, with text where a string
    is expected. *)
Fixpoint wf_value (v : MvValue) : bool :=
  match v with
  | MvNumber _ | MvNil => true
  | MvString s => utf8_wf (byte_values s)
  | MvFieldset p | MvBufr p | MvGeopoints p | MvNetCDF p => text p
  | MvRequest verb params =>
    text verb &&
    forallb
      (fun kv =>
         utf8_wf (byte_values (fst kv)) &&
         match snd kv with
         | MvString s => utf8_wf (byte_values s)
         | _ => true
         end)
      params
  | MvList l => forallb wf_value l
  | MvError _ | MvOther _ => false
  end.

(** What the reference engine answers to [p_get_req_value]. *)
Definition req_value (params : list (bytes * MvValue)) (k : bytes) : cstr :=
  match dict_get k params with
  | Some (MvString s) => Some s
  | _ => None
  end.

(** The mapping of a Request pulled from engine-side parameters. *)
Definition request_items (params : list (bytes * MvValue)) : dict :=
  pulled (map (fun kv => (fst kv, req_value params (fst kv))) params) [].

(** The host value [pv] is what the engine value [v] decodes to, whatever
    the addresses the engine hands out. *)
Fixpoint decoded (v : MvValue) (pv : PyVal) : Prop :=
  match v, pv with
  | MvNumber x, PyFloat y => y = x
  | MvString s, PyStr t => t = s
  | MvFieldset path, PyFieldset f => path = Some (url f)
  | MvBufr path, PyBufr f => path = Some (url f)
  | MvGeopoints path, PyGeopoints f => path = Some (url f)
  | MvNetCDF path, PyNetCDF f => path = Some (url f)
  | MvRequest vb params, PyRequest r =>
    vb = Some (verb r) /\ val_pointer r <> None /\
    items r = request_items params
  | MvList vs, PyList pvs =>
    (fix all2 (vs : list MvValue) (pvs : list PyVal) : Prop :=
       match vs, pvs with
       | [], [] => True
       | v :: vs', p :: pvs' => decoded v p /\ all2 vs' pvs'
       | _, _ => False
       end) vs pvs
  | MvNil, PyNone => True
  | _, _ => False
  end.

(** An address that holds a cell. *)
Definition valid (m : Machine) (p : ptr) : Prop := 0 < p <= len (heap m).

(** The class of the host value each tag of the fixed set decodes to. *)
Definition host_kind (rt : Z) : string :=
  if rt =? 0 then "float"
  else if rt =? 1 then "str"
  else if rt =? 2 then "Fieldset"
  else if rt =? 3 then "Request"
  else if rt =? 4 then "Bufr"
  else if rt =? 5 then "Geopoints"
  else if rt =? 6 then "list"
  else if rt =? 7 then "NetCDF"
  else if rt =? 8 then "NoneType"
  else "".

(** The host code [m] returns or raises: its recursion finishes. *)
Definition finishes (E : Engine) {A : Type} (m : M E A) : Prop :=
  forall st, fst (m st) <> OutOfFuel.

(** The host code [m] only ever extends the log of foreign calls. *)
Definition grows (E : Engine) {A : Type} (m : M E A) : Prop :=
  forall st, exists evs, log (snd (m st)) = (log st ++ evs)%list.

(** What pushing the engine value [v] does to the reference machine: one
    more frame, the heap extended, the rest as before. *)
Definition pushes {functions : bytes -> list MvValue -> MvValue}
  (v : MvValue) (st st' : HostState (reference functions)) : Prop :=
  stack (eng st') = v :: stack (eng st) /\
  result (eng st') = result (eng st) /\
  exists hs, heap (eng st') = (heap (eng st) ++ hs)%list.

(** The foreign calls that build the argument stack: pushes, and the
    allocation and filling of engine-side requests and lists. *)
Definition encoder_call (e : Event) : bool :=
  match e with
  | Ev c _ =>
    match c with
    | p_push_number _ | p_push_string _ | p_push_request _ | p_push_value _
    | p_push_list _ | p_new_request _ | p_set_request_value_from_pop _ _
    | p_new_list _ | p_add_value_from_pop_to_list _ _ => true
    | _ => false
    end
  end.

(** The foreign calls that inspect an engine value. *)
Definition decoder_call (e : Event) : bool :=
  match e with
  | Ev c _ =>
    match c with
    | p_value_type _ | p_value_as_number _ | p_value_as_string _
    | p_value_as_request _ | p_value_as_list _ | p_list_count _
    | p_list_element_as_value _ _ | p_error_message _ | p_data_path _
    | p_get_req_verb _ | p_get_req_num_params _ | p_get_req_param _ _
    | p_get_req_value _ _ => true
    | _ => false
    end
  end.

(** The host code [m] extends the log with foreign calls that all satisfy
    [P]. *)
Definition emits (E : Engine) (P : Event -> bool) {A : Type} (m : M E A)
  : Prop :=
  forall st, exists evs,
    log (snd (m st)) = (log st ++ evs)%list /\ forallb P evs = true.

(** The state after the foreign call [c], which returns nothing. *)
Definition after {E : Engine} (c : ffi unit) (st : HostState E)
  : HostState E :=
  mkHost (log st ++ [Ev c tt]) (snd (eng_call E unit c (eng st))).

(** The host code [m] takes the engine from a state to a state related by
    [Rel]. *)
Definition steps (E : Engine) (Rel : eng_state E -> eng_state E -> Prop)
  {A : Type} (m : M E A) : Prop :=
  forall st, Rel (eng st) (eng (snd (m st))).

(** The reference machine with its argument stack and its last result as
    they were. *)
Definition same_stack (m m' : Machine) : Prop :=
  stack m' = stack m /\ result m' = result m.

(** A function table that knows one function: "+" adds two numbers, and
    anything else is an error the engine reports. *)
Definition arithmetic (name : bytes) (args : list MvValue) : MvValue :=
  match args with
  | [MvNumber x; MvNumber y] =>
    if String.eqb name "+" then MvNumber (SFadd prec emax x y)
    else MvError (Some "bad parameter")
  | _ => MvError (Some "bad parameter")
  end.

(** The file-backed host value of each file-backed tag: fieldset, bufr,
    geopoints, netcdf. *)
Definition file_backed (rt : Z) (f : FileBackedValue) : PyVal :=
  if rt =? 2 then PyFieldset f
  else if rt =? 4 then PyBufr f
  else if rt =? 5 then PyGeopoints f
  else PyNetCDF f.

(** The strings of a list are all different. *)
Fixpoint distinct (l : list string) : bool :=
  match l with
  | [] => true
  | k :: rest => negb (existsb (String.eqb k) rest) && distinct rest
  end.

(** Values made of numbers, strings, sequences, dicts and Requests built
    on the host side, the keys of each mapping being distinct. *)
Fixpoint structured (n : PyVal) : bool :=
  match n with
  | PyFloat _ | PyBool _ | PyStr _ => true
  | PyInt i => match float_of_int i with Ok _ => true | _ => false end
  | PyList l | PyTuple l => forallb structured l
  | PyDict d =>
    distinct (map fst d) && forallb (fun kv => structured (snd kv)) d
  | PyRequest r =>
    negb (truthy (val_pointer r)) && distinct (map fst (items r)) &&
    forallb (fun kv => structured (snd kv)) (items r)
  | _ => false
  end.

(** The engine value a structured host value is pushed as: a dict is a
    request with verb "UNKNOWN" whose bool values are "on" or "off", a
    Request is a request with its verb. *)
Fixpoint wire_value (n : PyVal) : MvValue :=
  match n with
  | PyFloat x => MvNumber x
  | PyInt i => MvNumber (number_of i)
  | PyBool b => MvNumber (number_of (Z.b2z b))
  | PyStr s => MvString (str_encode s)
  | PyList l | PyTuple l => MvList (map wire_value l)
  | PyDict d =>
    MvRequest (Some (str_encode "UNKNOWN"))
      (map (fun kv =>
              (str_encode (fst kv),
               match snd kv with
               | PyBool b => MvString (str_encode (conversion_dict b))
               | _ => wire_value (snd kv)
               end)) d)
  | PyRequest r =>
    MvRequest (Some (str_encode (verb r)))
      (map (fun kv => (str_encode (fst kv), wire_value (snd kv))) (items r))
  | _ => MvNil
  end.

(** The frames a call leaves for the engine function: the positional
    arguments, then each keyword argument as its name and its value. *)
Definition call_frames (args : list PyVal) (kwargs : dict) : list MvValue :=
  (map wire_value args ++
   flat_map (fun kv => [MvString (str_encode (fst kv));
                        wire_value (metview_value (snd kv))]) kwargs)%list.

(** A Request built on the host side whose verb, keys and values are all
    text, the keys distinct. *)
Definition textual (r : Request) : bool :=
  negb (truthy (val_pointer r)) &&
  utf8_wf (byte_values (str_encode (verb r))) &&
  distinct (map fst (items r)) &&
  forallb
    (fun kv =>
       utf8_wf (byte_values (str_encode (fst kv))) &&
       match snd kv with
       | PyStr s => utf8_wf (byte_values (str_encode s))
       | _ => false
       end)
    (items r).

(** A function table whose every function gives the list of the arguments
    it was applied to. *)
Definition arguments_given (name : bytes) (args : list MvValue) : MvValue :=
  MvList args.

(** A function table whose every function gives back its first argument. *)
Definition first_argument (name : bytes) (args : list MvValue) : MvValue :=
  nth 0 args MvNil.

(** [Fieldset.__getitem__], for an int index. *)
Definition Fieldset_getitem (E : Engine) (fuel : nat)
  (self : FileBackedValue) (index : Z) : M E PyVal :=
  subset E fuel [PyFieldset self; PyInt (python_to_mv_index index)] [].

(** ** The plotting front end *)

(** The attributes of the module's [plot] object. *)
Record Plot : Type := mkPlot {
  plot_to_jupyter : bool;
  jupyter_available : bool
}.

(** What the front end raises on its own, before it reaches the bindings. *)
Inductive LookupExn : Type :=
| AttributeError (kind : string) (attr : string)
| KeyError.

(** [d.pop(k)], as the mapping it leaves. *)
Fixpoint dict_pop {V : Type} (k : string) (d : list (string * V))
  : list (string * V) :=
  match d with
  | [] => []
  | (k', v) :: rest =>
    if String.eqb k k' then rest else (k', v) :: dict_pop k rest
  end.

(** [str.lower], as far as the lookup in [map_outputs] can tell: the
    letters A to Z are lowered and every other byte is kept (no letter
    outside ASCII lowers to a letter of "png" or "ps"). *)
Definition lower_ascii (c : ascii) : ascii :=
  let n := nat_of_ascii c in
  if (Nat.leb 65 n && Nat.leb n 90)%bool then ascii_of_nat (n + 32) else c.

Fixpoint lower (s : string) : string :=
  match s with
  | EmptyString => EmptyString
  | String c rest => String (lower_ascii c) (lower rest)
  end.

(** [map_outputs[t.lower()]] for a string [t], by the name of the engine
    function that makes the output definition; [None] stands for the
    KeyError of a key that is neither "png" nor "ps". *)
Definition output_function (t : string) : option string :=
  let key := lower t in
  if String.eqb key "png" then Some "png_output"
  else if String.eqb key "ps" then Some "ps_output"
  else None.

(** ['jupyter' == a] *)
Definition is_jupyter (a : PyVal) : bool :=
  match a with
  | PyStr s => String.eqb s "jupyter"
  | _ => false
  end.

Section Front.

Variable E : Engine.

(** The branch of [Plot.__call__] that plots the positional arguments to a
    temporary PNG file and gives the file back as an IPython image: it
    belongs to the notebook and is left open. *)
Variable jupyter_branch : list PyVal -> M E PyVal.

(** What [Plot.__call__] does, outside the notebook, with an 'output_type'
    that is an object of a class the module does not define, given by the
    name of the class: whether [lower] can be called on it, and what the
    lookup then finds, is for that class to say, and is left open. *)
Variable foreign_output_type :
  string -> list PyVal -> dict -> M E (LookupExn + PyVal).

(** The call [Plot.__call__(self, *args, **kwargs)].  The first parameter of
    the method is called [self]: a keyword argument called self cannot be
    bound beside it, and the interpreter raises before the body runs.  A
    number, bool, sequence, mapping, file-backed value or None has no
    [lower] method. *)
Definition Plot_call (fuel : nat) (self : Plot) (args : list PyVal)
  (kwargs : dict) : M E (LookupExn + PyVal) :=
  match dict_get "self" kwargs with
  | Some _ => raise E (MultipleValues "Plot.__call__" "self")
  | None =>
    if (plot_to_jupyter self && jupyter_available self)%bool then
      bind E (jupyter_branch args) (fun image => ret E (inr image))
    else
      match dict_get "output_type" kwargs with
      | Some (PyStr t) =>
        match output_function t with
        | Some output_function =>
          bind E
            (make E fuel output_function
               [PyDict (dict_pop "output_type" kwargs)] [])
            (fun out =>
               bind E (make E fuel "plot" (out :: args) [])
                 (fun r => ret E (inr r)))
        | None => ret E (inl KeyError)
        end
      | Some (PyOther kind) => foreign_output_type kind args kwargs
      | Some v => ret E (inl (AttributeError (py_type v) "lower"))
      | None => bind E (make E fuel "plot" args []) (fun r => ret E (inr r))
      end
  end.

(** The module's [plot] object, what was printed, and the engine. *)
Record Session : Type := mkSession {
  plot : Plot;
  stdout : list string;
  host : HostState E
}.

(** [setoutput], for the tuple [args] of its arguments. *)
Definition setoutput (fuel : nat) (args : list PyVal) (s : Session)
  : Outcome unit * Session :=
  if existsb is_jupyter args then
    if jupyter_available (plot s) then
      (Ok tt,
       mkSession (mkPlot true (jupyter_available (plot s)))
         (stdout s) (host s))
    else
      (Ok tt,
       mkSession (plot s)
         (stdout s ++
          ["setoutput('jupyter') was set, but we are not in a Jupyter environment"])
         (host s))
  else
    let plot' := mkPlot false (jupyter_available (plot s)) in
    match make E fuel "setoutput" args [] (host s) with
    | (Ok _, h) => (Ok tt, mkSession plot' (stdout s) h)
    | (Raise e, h) => (Raise e, mkSession plot' (stdout s) h)
    | (OutOfFuel, h) => (OutOfFuel, mkSession plot' (stdout s) h)
    end.

End Front.

Arguments plot {E} s.
Arguments stdout {E} s.
Arguments host {E} s.
Arguments mkSession {E} plot stdout host.

(** ** Notebook detection *)

(** [is_ipython_active], on the module's cache [ipython_active]: the answer
    and the cache it leaves.  [probe] is what [get_ipython() is not None]
    gives if it is asked, [None] when importing or calling it raises. *)
Definition is_ipython_active (probe : option bool)
  (ipython_active : option bool) : bool * option bool :=
  match ipython_active with
  | None =>
    let found := match probe with Some b => b | None => false end in
    (found, Some found)
  | Some b => (b, Some b)
  end.

(** The answers of successive calls, the environment giving one probe per
    call. *)
Fixpoint answers (probes : list (option bool)) (ipython_active : option bool)
  : list bool :=
  match probes with
  | [] => []
  | probe :: rest =>
    let (b, cache) := is_ipython_active probe ipython_active in
    b :: answers rest cache
  end.

(** ** Operators of the file-backed classes *)

(** The special methods, and the one named method, through which the
    file-backed classes call an engine function on [self] and [other]. *)
Inductive Method : Type :=
| __add__ | __sub__ | __mul__ | __truediv__ | __pow__
| __ge__ | __gt__ | __le__ | __lt__ | filter_.

(** The engine function behind each method [Fieldset] defines: [add],
    [sub], [prod], [div] and [power]. *)
Definition Fieldset_method (m : Method) : option string :=
  match m with
  | __add__ => Some "+"
  | __sub__ => Some "-"
  | __mul__ => Some "*"
  | __truediv__ => Some "/"
  | __pow__ => Some "^"
  | _ => None
  end.

(** The engine function behind each method [Geopoints] defines: [prod],
    [greater_equal_than], [greater_than], [lower_equal_than], [lower_than],
    [add] and [filter]. *)
Definition Geopoints_method (m : Method) : option string :=
  match m with
  | __mul__ => Some "*"
  | __ge__ => Some ">="
  | __gt__ => Some ">"
  | __le__ => Some "<="
  | __lt__ => Some "<"
  | __add__ => Some "+"
  | filter_ => Some "filter"
  | _ => None
  end.

(** The engine function behind each method [NetCDF] defines. *)
Definition NetCDF_method (m : Method) : option string :=
  match m with
  | __add__ => Some "+"
  | __sub__ => Some "-"
  | __mul__ => Some "*"
  | __truediv__ => Some "/"
  | __pow__ => Some "^"
  | _ => None
  end.

(** The engine function behind the method [m] of [self], when the class of
    [self] defines it: [Bufr] defines none. *)
Definition engine_function (self : PyVal) (m : Method) : option string :=
  match self with
  | PyFieldset _ => Fieldset_method m
  | PyGeopoints _ => Geopoints_method m
  | PyNetCDF _ => NetCDF_method m
  | _ => None
  end.

(** [self.m(other)]: the binding of the engine function applied to [self]
    and [other], in this order. *)
Definition call_method (E : Engine) (fuel : nat) (self : PyVal) (m : Method)
  (other : PyVal) : option (M E PyVal) :=
  match engine_function self m with
  | Some name => Some (make E fuel name [self; other] [])
  | None => None
  end.

(** The handle of a file-backed value. *)
Definition handle (n : PyVal) : option ptr :=
  match n with
  | PyFieldset f | PyBufr f | PyGeopoints f | PyNetCDF f =>
    Some (fb_val_pointer f)
  | _ => None
  end.

(** The frame an operand leaves on the stack of the machine [m]: the engine
    value at its handle when it is file-backed, its encoding otherwise. *)
Definition operand (m : Machine) (n : PyVal) : MvValue :=
  match handle n with
  | Some p => deref m p
  | None => wire_value n
  end.



(** Encoding each value of [its] and binding it under its key in the
    engine-side request [r], pair after pair, takes the host from [st] to
    [st']. *)
Fixpoint pairs_bound (E : Engine) (r : ptr) (its : dict)
  (st st' : HostState E) : Prop :=
  match its with
  | [] => st' = st
  | kv :: rest =>
    exists st1,
      push_arg E (snd kv) "NONAME" st = (Ok 1, st1) /\
      pairs_bound E r rest
        (after (p_set_request_value_from_pop r (str_encode (fst kv))) st1) st'
  end.

(** * Properties *)

(** ** Dicts *)

Lemma max_depth_In (d : dict) (kv : string * PyVal) :
  In kv d -> (depth (snd kv) <= max_depth d)%nat.
Proof.
  induction d as [|x d IH]; simpl; [tauto|].
  intros [->|H]; [lia|]. specialize (IH H). lia.
Qed.

Lemma dict_set_In {V : Type} (k0 : string) (v0 : V) (d : list (string * V))
  (kv : string * V) :
  In kv (dict_set k0 v0 d) -> kv = (k0, v0) \/ In kv d.
Proof.
  induction d as [|[k' v'] d IH]; simpl.
  - intros [<-|[]]; auto.
  - destruct (String.eqb k0 k'); simpl; intros [<-|H]; auto.
    destruct (IH H); auto.
Qed.

Lemma dict_update_In {V : Type} (src d : list (string * V))
  (kv : string * V) :
  In kv (dict_update d src) -> In kv d \/ In kv src.
Proof.
  unfold dict_update. revert d.
  induction src as [|[k v] src IH]; simpl; intros d H; auto.
  destruct (IH _ H) as [H1|H1]; auto.
  destruct (dict_set_In _ _ _ _ H1) as [->|H2]; auto.
Qed.

Lemma to_metview_style_In (d : dict) (kv : string * PyVal) :
  In kv (to_metview_style d) ->
  In kv d \/ exists v, snd kv = PyStr (conversion_dict v).
Proof.
  unfold to_metview_style. generalize d at 2 3 as acc. 
  induction d as [|[k v] d IH]; simpl; intros acc H; auto.
  destruct (IH _ H) as [H1|H1]; auto.
  destruct v; auto.
  destruct (dict_set_In _ _ _ _ H1) as [->|H2]; auto.
  right. exists b. reflexivity.
Qed.

Lemma Request_items_depth (d : dict) (kv : string * PyVal) :
  In kv (to_metview_style (dict_update [] d)) ->
  (depth (snd kv) <= max_depth d)%nat.
Proof.
  intros H. destruct (to_metview_style_In _ _ H) as [H1|[v H1]].
  - destruct (dict_update_In _ _ _ H1) as [[]|H2].
    now apply max_depth_In.
  - rewrite H1. simpl. lia.
Qed.

(** ** The monad *)

(** Decide the tag tests of a dispatch on a known tag. *)
Ltac eval_tags :=
  repeat match goal with
  | |- context [Z.eqb (Zpos ?a) ?b] =>
    let v := eval vm_compute in (Z.eqb (Zpos a) b) in
    change (Z.eqb (Zpos a) b) with v
  | |- context [Z.eqb Z0 ?b] =>
    let v := eval vm_compute in (Z.eqb Z0 b) in
    change (Z.eqb Z0 b) with v
  end; cbv iota.

Section HostFacts.

Variable E : Engine.

#[local] Abbreviation M := (M E).

Lemma bind_ext {A B : Type} (m m' : M A) (k k' : A -> M B) (st : HostState E) :
  m st = m' st ->
  (forall a st', k a st' = k' a st') ->
  bind E m k st = bind E m' k' st.
Proof.
  intros Hm Hk. unfold bind. rewrite Hm.
  destruct (m' st) as [[a| |] st']; auto.
Qed.

Lemma for_each_ext {A : Type} (l : list A) (body body' : A -> M unit) :
  (forall x st, In x l -> body x st = body' x st) ->
  forall st, for_each E l body st = for_each E l body' st.
Proof.
  induction l as [|x l IH]; simpl; intros H st; auto.
  apply bind_ext.
  - apply H. now left.
  - intros _ st'. apply IH. intros y st2 Hy. apply H. now right.
Qed.

Lemma for_enumerate_ext {A : Type} (l : list A) (body body' : Z -> A -> M unit) :
  (forall i x st, In x l -> body i x st = body' i x st) ->
  forall i st, for_enumerate E i l body st = for_enumerate E i l body' st.
Proof.
  induction l as [|x l IH]; simpl; intros H i st; auto.
  apply bind_ext.
  - apply H. now left.
  - intros _ st'. apply IH. intros j y st2 Hy. apply H. now right.
Qed.

(** ** The encoder does not depend on the depth it is allowed *)

Lemma Request_push_body_ext (g g' : PyVal -> string -> M Z) (r : Request) :
  (forall kv name st, In kv (items r) -> g (snd kv) name st = g' (snd kv) name st) ->
  forall st, Request_push_body E g r st = Request_push_body E g' r st.
Proof.
  intros H st. unfold Request_push_body.
  destruct (truthy (val_pointer r)); auto.
  apply bind_ext; auto. intros p st1.
  apply bind_ext; auto.
  apply for_each_ext. intros kv st2 Hin.
  apply bind_ext; auto.
Qed.

Lemma push_list_body_ext (g g' : PyVal -> string -> M Z) (l : list PyVal) :
  (forall v name st, In v l -> g v name st = g' v name st) ->
  forall st, push_list_body E g l st = push_list_body E g' l st.
Proof.
  intros H st. unfold push_list_body.
  apply bind_ext; auto. intros p st1.
  apply bind_ext; auto.
  apply for_enumerate_ext. intros i v st2 Hin.
  apply bind_ext; auto.
Qed.

Lemma list_depth_In (l : list PyVal) (v : PyVal) :
  In v l -> (depth v <= fold_right (fun v m => Nat.max (depth v) m) O l)%nat.
Proof.
  induction l as [|x l IH]; simpl; [tauto|].
  intros [->|H]; [lia|]. specialize (IH H). lia.
Qed.

Lemma push_arg_body_ext (g g' : PyVal -> string -> M Z) (n : PyVal) :
  (forall c name st, (depth c < depth n)%nat -> g c name st = g' c name st) ->
  forall name st, push_arg_body E g n name st = push_arg_body E g' n name st.
Proof.
  intros H name st. unfold push_arg_body.
  apply bind_ext; auto.
  destruct n; auto.
  - apply Request_push_body_ext. intros kv nm st' Hin. apply H.
    simpl. apply max_depth_In in Hin. unfold max_depth in Hin. lia.
  - simpl. apply Request_push_body_ext. simpl. intros kv nm st' Hin. apply H.
    apply Request_items_depth in Hin. unfold max_depth in Hin. simpl. lia.
  - apply push_list_body_ext. intros v nm st' Hin. apply H.
    apply list_depth_In in Hin. simpl. lia.
  - apply push_list_body_ext. intros v nm st' Hin. apply H.
    apply list_depth_In in Hin. simpl. lia.
Qed.

Lemma push_arg_rec_fuel (f1 : nat) :
  forall (f2 : nat) (n : PyVal) (name : string) (st : HostState E),
  (depth n < f1)%nat -> (depth n < f2)%nat ->
  push_arg_rec E f1 n name st = push_arg_rec E f2 n name st.
Proof.
  induction f1 as [|f1 IH]; intros f2 n name st H1 H2; [lia|].
  destruct f2 as [|f2]; [lia|]. simpl.
  apply push_arg_body_ext. intros c nm st' Hc. apply IH; lia.
Qed.

(** The equation of [push_arg], as the source has it. *)
Lemma push_arg_eq (n : PyVal) (name : string) (st : HostState E) :
  push_arg E n name st = push_arg_body E (push_arg E) n name st.
Proof.
  unfold push_arg at 1. simpl.
  apply push_arg_body_ext. intros c nm st' Hc.
  unfold push_arg. apply push_arg_rec_fuel; lia.
Qed.

(** ** Foreign calls only ever extend the log *)

Lemma call_run {R : Type} (c : ffi R) (st : HostState E) :
  call E c st =
  (Ok (fst (eng_call E R c (eng st))),
   mkHost (log st ++ [Ev c (fst (eng_call E R c (eng st)))])
          (snd (eng_call E R c (eng st)))).
Proof. unfold call. destruct (eng_call E R c (eng st)); reflexivity. Qed.

Lemma bind_call {R B : Type} (c : ffi R) (k : R -> M B) (st : HostState E) :
  bind E (call E c) k st =
  k (fst (eng_call E R c (eng st)))
    (mkHost (log st ++ [Ev c (fst (eng_call E R c (eng st)))])
            (snd (eng_call E R c (eng st)))).
Proof. unfold bind. now rewrite call_run. Qed.

Lemma bind_ret {A B : Type} (a : A) (k : A -> M B) (st : HostState E) :
  bind E (ret E a) k st = k a st.
Proof. reflexivity. Qed.

Lemma bind_lift_Ok {A B : Type} (a : A) (k : A -> M B) (st : HostState E) :
  bind E (lift E (Ok a)) k st = k a st.
Proof. reflexivity. Qed.

Lemma bind_Ok {A B : Type} (m : M A) (k : A -> M B) (st st' : HostState E)
  (a : A) :
  m st = (Ok a, st') -> bind E m k st = k a st'.
Proof. intros H. unfold bind. now rewrite H. Qed.

Lemma bind_OutOfFuel {A B : Type} (m : M A) (k : A -> M B)
  (st st' : HostState E) :
  m st = (OutOfFuel, st') -> bind E m k st = (OutOfFuel, st').
Proof. intros H. unfold bind. now rewrite H. Qed.

Lemma bind_assoc {A B C : Type} (m : M A) (k1 : A -> M B) (k2 : B -> M C)
  (st : HostState E) :
  bind E (bind E m k1) k2 st = bind E m (fun a => bind E (k1 a) k2) st.
Proof. unfold bind. destruct (m st) as [[a| |] st1]; reflexivity. Qed.

Lemma bind_Raise {A B : Type} (m : M A) (k : A -> M B) (st st' : HostState E)
  (e : PyExn) :
  m st = (Raise e, st') -> bind E m k st = (Raise e, st').
Proof. intros H. unfold bind. now rewrite H. Qed.

Lemma grows_ret {A : Type} (a : A) : grows E (ret E a).
Proof. intros st. exists []. simpl. now rewrite app_nil_r. Qed.

Lemma grows_lift {A : Type} (o : Outcome A) : grows E (lift E o).
Proof. intros st. exists []. simpl. now rewrite app_nil_r. Qed.

Lemma grows_raise {A : Type} (e : PyExn) : grows E (@raise E A e).
Proof. intros st. exists []. simpl. now rewrite app_nil_r. Qed.

Lemma grows_out_of_fuel {A : Type} : grows E (@out_of_fuel E A).
Proof. intros st. exists []. simpl. now rewrite app_nil_r. Qed.

Lemma grows_call {R : Type} (c : ffi R) : grows E (call E c).
Proof. intros st. rewrite call_run. simpl. eauto. Qed.

Lemma grows_bind {A B : Type} (m : M A) (k : A -> M B) :
  grows E m -> (forall a, grows E (k a)) -> grows E (bind E m k).
Proof.
  intros Hm Hk st. unfold bind. destruct (Hm st) as [evs Hevs].
  destruct (m st) as [[a| |] st1]; simpl in *; eauto.
  destruct (Hk a st1) as [evs' Hevs']. exists (evs ++ evs')%list.
  now rewrite Hevs', Hevs, app_assoc.
Qed.

Lemma grows_for_each {A : Type} (l : list A) (body : A -> M unit) :
  (forall x, grows E (body x)) -> grows E (for_each E l body).
Proof.
  intros H. induction l as [|x l IH]; simpl.
  - apply grows_ret.
  - apply grows_bind; auto.
Qed.

Lemma grows_for_enumerate {A : Type} (l : list A) (body : Z -> A -> M unit) :
  (forall i x, grows E (body i x)) ->
  forall i, grows E (for_enumerate E i l body).
Proof.
  intros H. induction l as [|x l IH]; simpl; intros i.
  - apply grows_ret.
  - apply grows_bind; auto.
Qed.

Lemma grows_for_range {S : Type} (body : Z -> S -> M S) (count : nat) :
  (forall i acc, grows E (body i acc)) ->
  forall i acc, grows E (for_range E count i body acc).
Proof.
  intros H. induction count as [|count IH]; simpl; intros i acc.
  - apply grows_ret.
  - apply grows_bind; auto.
Qed.

Lemma grows_for_acc {A S : Type} (l : list A) (body : A -> S -> M S) :
  (forall x acc, grows E (body x acc)) ->
  forall acc, grows E (for_acc E l body acc).
Proof.
  intros H. induction l as [|x l IH]; simpl; intros acc.
  - apply grows_ret.
  - apply grows_bind; auto.
Qed.

Lemma grows_string_from_ffi (s : cstr) : grows E (string_from_ffi E s).
Proof. destruct s; [apply grows_lift | apply grows_raise]. Qed.

Lemma grows_Request_init (req : RequestSource) : grows E (Request_init E req).
Proof.
  destruct req; simpl; try apply grows_ret.
  repeat (apply grows_bind; [|intros ?]);
    try apply grows_call; try apply grows_string_from_ffi; try apply grows_ret.
  apply grows_for_range. intros i acc.
  repeat (apply grows_bind; [|intros ?]);
    try apply grows_call; try apply grows_string_from_ffi.
  destruct a4; [|apply grows_ret].
  apply grows_bind; [apply grows_string_from_ffi|intros; apply grows_ret].
Qed.

Lemma grows_Request_push_body (g : PyVal -> string -> M Z) (r : Request) :
  (forall v name, grows E (g v name)) -> grows E (Request_push_body E g r).
Proof.
  intros H. unfold Request_push_body.
  destruct (truthy (val_pointer r)).
  - destruct (val_pointer r); [apply grows_call | apply grows_ret].
  - apply grows_bind; [apply grows_call | intros p].
    apply grows_bind; [|intros; apply grows_call].
    apply grows_for_each. intros kv.
    apply grows_bind; [apply H | intros; apply grows_call].
Qed.

Lemma grows_push_list_body (g : PyVal -> string -> M Z) (l : list PyVal) :
  (forall v name, grows E (g v name)) -> grows E (push_list_body E g l).
Proof.
  intros H. unfold push_list_body.
  apply grows_bind; [apply grows_call | intros p].
  apply grows_bind; [|intros; apply grows_call].
  apply grows_for_enumerate. intros i v.
  apply grows_bind; [apply H | intros; apply grows_call].
Qed.

Lemma grows_push_arg_body (g : PyVal -> string -> M Z) (n : PyVal)
  (name : string) :
  (forall v nm, grows E (g v nm)) -> grows E (push_arg_body E g n name).
Proof.
  intros H. unfold push_arg_body.
  apply grows_bind; [|intros; apply grows_ret].
  destruct n; try apply grows_call; try apply grows_raise;
    try (apply grows_bind; [apply grows_lift | intros; apply grows_call]).
  - now apply grows_Request_push_body.
  - apply grows_bind; [apply grows_Request_init | intros r].
    now apply grows_Request_push_body.
  - now apply grows_push_list_body.
  - now apply grows_push_list_body.
Qed.

Lemma grows_push_arg_rec (fuel : nat) :
  forall n name, grows E (push_arg_rec E fuel n name).
Proof.
  induction fuel as [|fuel IH]; intros n name; simpl.
  - apply grows_out_of_fuel.
  - now apply grows_push_arg_body.
Qed.

Lemma grows_push_arg (n : PyVal) (name : string) : grows E (push_arg E n name).
Proof. apply grows_push_arg_rec. Qed.

(** ** The encoder always finishes *)

Lemma finishes_ret {A : Type} (a : A) : finishes E (ret E a).
Proof. intros st. discriminate. Qed.

Lemma finishes_raise {A : Type} (e : PyExn) : finishes E (@raise E A e).
Proof. intros st. discriminate. Qed.

Lemma finishes_call {R : Type} (c : ffi R) : finishes E (call E c).
Proof. intros st. rewrite call_run. discriminate. Qed.

Lemma finishes_float_of_int (i : Z) : finishes E (lift E (float_of_int i)).
Proof.
  intros st. unfold lift, float_of_int. simpl.
  destruct (binary_normalize prec emax i 0 false); discriminate.
Qed.

Lemma finishes_bind {A B : Type} (m : M A) (k : A -> M B) :
  finishes E m -> (forall a, finishes E (k a)) -> finishes E (bind E m k).
Proof.
  intros Hm Hk st. unfold bind. specialize (Hm st).
  destruct (m st) as [[a| |] st1]; simpl in *;
    [apply Hk | discriminate | congruence].
Qed.

Lemma finishes_for_each {A : Type} (l : list A) (body : A -> M unit) :
  (forall x, In x l -> finishes E (body x)) -> finishes E (for_each E l body).
Proof.
  induction l as [|x l IH]; simpl; intros H.
  - apply finishes_ret.
  - apply finishes_bind; [apply H; now left|].
    intros _. apply IH. intros y Hy. apply H. now right.
Qed.

Lemma finishes_for_enumerate {A : Type} (l : list A)
  (body : Z -> A -> M unit) :
  (forall i x, In x l -> finishes E (body i x)) ->
  forall i, finishes E (for_enumerate E i l body).
Proof.
  induction l as [|x l IH]; simpl; intros H i.
  - apply finishes_ret.
  - apply finishes_bind; [apply H; now left|].
    intros _. apply IH. intros j y Hy. apply H. now right.
Qed.

Lemma finishes_push_arg_body (g : PyVal -> string -> M Z) (n : PyVal)
  (name : string) :
  (forall c nm, (depth c < depth n)%nat -> finishes E (g c nm)) ->
  finishes E (push_arg_body E g n name).
Proof.
  intros H. unfold push_arg_body.
  apply finishes_bind; [|intros; apply finishes_ret].
  assert (Hreq : forall r : Request,
            (forall kv, In kv (items r) -> (depth (snd kv) < depth n)%nat) ->
            finishes E (Request_push_body E g r)).
  { intros r Hr. unfold Request_push_body.
    destruct (truthy (val_pointer r)).
    - destruct (val_pointer r); [apply finishes_call|apply finishes_ret].
    - apply finishes_bind; [apply finishes_call|intros p].
      apply finishes_bind; [|intros; apply finishes_call].
      apply finishes_for_each. intros kv Hin.
      apply finishes_bind; [apply H; auto|intros; apply finishes_call]. }
  assert (Hlist : forall l : list PyVal,
            (forall v, In v l -> (depth v < depth n)%nat) ->
            finishes E (push_list_body E g l)).
  { intros l Hl. unfold push_list_body.
    apply finishes_bind; [apply finishes_call|intros p].
    apply finishes_bind; [|intros; apply finishes_call].
    apply finishes_for_enumerate. intros i v Hin.
    apply finishes_bind; [apply H; auto|intros; apply finishes_call]. }
  destruct n; try apply finishes_call; try apply finishes_raise;
    try (apply finishes_bind;
         [apply finishes_float_of_int|intros; apply finishes_call]).
  - apply Hreq. intros kv Hin. apply max_depth_In in Hin.
    unfold max_depth in Hin. simpl. lia.
  - intros st. simpl Request_init. rewrite bind_ret.
    apply Hreq. simpl. intros kv Hin. apply Request_items_depth in Hin.
    unfold max_depth in Hin. lia.
  - apply Hlist. intros v Hin. apply list_depth_In in Hin. simpl. lia.
  - apply Hlist. intros v Hin. apply list_depth_In in Hin. simpl. lia.
Qed.

Lemma finishes_push_arg_rec (fuel : nat) :
  forall n name, (depth n < fuel)%nat -> finishes E (push_arg_rec E fuel n name).
Proof.
  induction fuel as [|fuel IH]; intros n name Hn; [lia|]. simpl.
  apply finishes_push_arg_body. intros c nm Hc. apply IH. lia.
Qed.

(** [push_arg] returns or raises on every value: the depth of the value is
    fuel enough. *)
Lemma push_arg_finishes (n : PyVal) (name : string) :
  finishes E (push_arg E n name).
Proof. apply finishes_push_arg_rec. lia. Qed.

End HostFacts.

(** ** Encoder: scalars and unsupported kinds *)

(** C10: a Python bool given to the encoder is pushed as one numeric frame,
    True as 1.0 and False as 0.0, and the encoder returns an argument count
    of 1: no string frame is pushed and nothing is raised. *)
Theorem C10_bool_pushed_as_number (E : Engine) (b : bool) (name : string)
  (st : HostState E) :
  let x := if b then one else zero in
  push_arg E (PyBool b) name st =
  (Ok 1,
   mkHost (log st ++ [Ev (p_push_number x) tt])
          (snd (eng_call E unit (p_push_number x) (eng st)))).
Proof.
  intros x. rewrite push_arg_eq. unfold push_arg_body, bind, lift.
  replace (float_of_int (Z.b2z b)) with (Ok x)
    by (destruct b; vm_compute; reflexivity).
  rewrite call_run. simpl.
  destruct (fst (eng_call E unit (p_push_number x) (eng st))). reflexivity.
Qed.

(** C5: a value of a kind the encoder has no branch for makes it raise a
    TypeError that carries the type of the value, and nothing is pushed:
    the log and the engine are as before. *)
Theorem C5_unsupported_kind_raises (E : Engine) (n : PyVal) (name : string)
  (st : HostState E) :
  supported n = false ->
  push_arg E n name st =
  (Raise (TypeError "Cannot push this type of argument to Metview: "
            (py_type n)), st).
Proof.
  intros H. rewrite push_arg_eq.
  destruct n; simpl in H; try discriminate; reflexivity.
Qed.

Lemma C5_unsupported_kind_raises_witness :
  supported (PyOther "set") = false /\
  push_arg (reference no_functions) (PyOther "set") "count" (start no_functions) =
  (Raise (TypeError "Cannot push this type of argument to Metview: " "set"),
   start no_functions).
Proof.
  split; [reflexivity|].
  apply (C5_unsupported_kind_raises (reference no_functions) (PyOther "set")
           "count" (start no_functions)).
  reflexivity.
Defined.

(** ** Decoder: the error tag *)

(** C1 as stated fails: for the engine message "bad parameter" the exception
    raised carries "Metview error: bad parameter". *)
Lemma C1_counterexample :
  let st := @mkHost (reference no_functions) []
              (mkMachine [MvError (Some "bad parameter")] [] MvNil) in
  tag_of (deref (eng st) 1) = 9 /\
  fst (value_from_metview (reference no_functions) 1 1 st) =
    Raise (Exception "Metview error: bad parameter") /\
  fst (value_from_metview (reference no_functions) 1 1 st) <>
    Raise (Exception "bad parameter").
Proof.
  split; [reflexivity|]. split; [reflexivity|].
  vm_compute. discriminate.
Qed.

(** C1, amended: when the engine tags a result as an error, decoding raises
    and never returns a value; when the engine's message is a well-formed
    string, the exception raised carries "Metview error: " followed by
    exactly that message. *)
Theorem C1_error_tag_raises (E : Engine) (fuel : nat) (val : ptr)
  (st : HostState E) :
  fst (eng_call E Z (p_value_type val) (eng st)) = 9 ->
  let e1 := snd (eng_call E Z (p_value_type val) (eng st)) in
  let msg := fst (eng_call E cstr (p_error_message val) e1) in
  (exists e, fst (value_from_metview E (S fuel) val st) = Raise e) /\
  (forall m : bytes,
     msg = Some m -> utf8_wf (byte_values m) = true ->
     fst (value_from_metview E (S fuel) val st) =
     Raise (Exception ("Metview error: " ++ m))).
Proof.
  intros Htag e1 msg.
  change (value_from_metview E (S fuel))
    with (value_from_metview_body E (value_from_metview E fuel)).
  unfold value_from_metview_body.
  rewrite bind_call, Htag. eval_tags.
  rewrite bind_call. cbn [eng]. fold e1. fold msg.
  unfold string_from_ffi.
  destruct msg as [m|] eqn:Hmsg.
  - unfold bind, lift, bytes_decode, raise.
    destruct (utf8_wf (byte_values m)) eqn:Hwf; simpl.
    + split; [eauto|]. intros m' [= <-] _. reflexivity.
    + split; [eauto|]. intros m' [= <-] Hw. congruence.
  - unfold bind, raise. simpl. split; [eauto|]. discriminate.
Qed.

Lemma C1_error_tag_raises_witness :
  let st := @mkHost (reference no_functions) []
              (mkMachine [MvError (Some "bad parameter")] [] MvNil) in
  fst (value_from_metview (reference no_functions) 1 1 st) =
  Raise (Exception "Metview error: bad parameter").
Proof.
  intros st.
  apply (proj2 (C1_error_tag_raises (reference no_functions) 0 1 st eq_refl)
           "bad parameter"); reflexivity.
Defined.

(** ** Request built from a mapping *)

Lemma dict_set_fresh {V : Type} (k : string) (v : V) (d : list (string * V)) :
  ~ In k (map fst d) -> dict_set k v d = (d ++ [(k, v)])%list.
Proof.
  induction d as [|[k' v'] d IH]; simpl; intros H; auto.
  destruct (String.eqb_spec k k') as [->|Hne]; [tauto|].
  f_equal. apply IH. tauto.
Qed.

Lemma dict_set_app {V : Type} (k : string) (v v0 : V)
  (done rest : list (string * V)) :
  ~ In k (map fst done) ->
  dict_set k v (done ++ (k, v0) :: rest) = (done ++ (k, v) :: rest)%list.
Proof.
  induction done as [|[k' v'] done IH]; simpl; intros H.
  - now rewrite String.eqb_refl.
  - destruct (String.eqb_spec k k') as [->|Hne]; [tauto|].
    f_equal. apply IH. tauto.
Qed.

Lemma dict_update_distinct {V : Type} (src d : list (string * V)) :
  NoDup (map fst (d ++ src)) -> dict_update d src = (d ++ src)%list.
Proof.
  unfold dict_update. revert d.
  induction src as [|[k v] src IH]; simpl; intros d H.
  - now rewrite app_nil_r.
  - assert (Hk : ~ In k (map fst d)).
    { rewrite map_app in H. simpl in H. apply NoDup_remove_2 in H.
      intros Hin. apply H. apply in_or_app. now left. }
    rewrite (dict_set_fresh _ _ _ Hk), IH; rewrite <- app_assoc; auto.
Qed.

Lemma to_metview_style_distinct (d : dict) :
  NoDup (map fst d) -> to_metview_style d = map metview_item d.
Proof.
  unfold to_metview_style.
  enough (H : forall src done,
             NoDup (map fst (done ++ src)) ->
             fold_left
               (fun d kv =>
                  match snd kv with
                  | PyBool v => dict_set (fst kv) (PyStr (conversion_dict v)) d
                  | _ => d
                  end) src (done ++ src)%list
             = (done ++ map metview_item src)%list).
  { intros Hd. apply (H d []). exact Hd. }
  induction src as [|[k v] src IH]; intros done Hnd; simpl.
  - reflexivity.
  - assert (Hk : ~ In k (map fst done)).
    { rewrite map_app in Hnd. simpl in Hnd. apply NoDup_remove_2 in Hnd.
      intros Hin. apply Hnd. apply in_or_app. now left. }
    assert (Hstep :
              match v with
              | PyBool b =>
                dict_set k (PyStr (conversion_dict b)) (done ++ (k, v) :: src)%list
              | _ => (done ++ (k, v) :: src)%list
              end = ((done ++ [metview_item (k, v)]) ++ src)%list).
    { rewrite <- app_assoc. simpl.
      destruct v; try reflexivity. now apply dict_set_app. }
    rewrite Hstep, IH.
    + now rewrite <- app_assoc.
    + rewrite <- app_assoc. simpl.
      rewrite map_app in *. simpl in *. exact Hnd.
Qed.

Lemma dict_get_In {V : Type} (k : string) (v : V) (d : list (string * V)) :
  NoDup (map fst d) -> In (k, v) d -> dict_get k d = Some v.
Proof.
  induction d as [|[k' v'] d IH]; simpl; intros Hnd Hin; [tauto|].
  destruct Hin as [Heq|Hin].
  - injection Heq as -> ->. now rewrite String.eqb_refl.
  - inversion_clear Hnd as [|? ? Hk Hd].
    destruct (String.eqb_spec k k') as [->|Hne].
    + exfalso. apply Hk. apply (in_map fst) in Hin. exact Hin.
    + auto.
Qed.

(** C2: in a Request built from a mapping (a dict or another Request), a
    key the mapping binds to the boolean [b] is bound to the string "on" when
    [b] is true and "off" when it is false, and no value of the Request is a
    boolean any more. *)
Theorem C2_booleans_stored_on_off (E : Engine) (src : RequestSource)
  (d : dict) (k : string) (b : bool) (st : HostState E) :
  mapping_of src = Some d ->
  NoDup (map fst d) ->
  In (k, PyBool b) d ->
  exists r : Request,
    Request_init E src st = (Ok r, st) /\
    dict_get k (items r) = Some (PyStr (if b then "on" else "off")) /\
    (forall k' b', ~ In (k', PyBool b') (items r)).
Proof.
  intros Hsrc Hnd Hin.
  assert (Hitems : to_metview_style (dict_update [] d) = map metview_item d).
  { rewrite dict_update_distinct by exact Hnd. simpl.
    now apply to_metview_style_distinct. }
  assert (Hget : dict_get k (map metview_item d)
                 = Some (PyStr (if b then "on" else "off"))).
  { apply dict_get_In.
    - rewrite map_map. simpl. exact Hnd.
    - apply (in_map metview_item) in Hin. exact Hin. }
  assert (Hnob : forall k' b', ~ In (k', PyBool b') (map metview_item d)).
  { intros k' b' H. apply in_map_iff in H as [[k0 v0] [Heq _]].
    unfold metview_item in Heq. simpl in Heq. destruct v0; discriminate. }
  destruct src as [d0|r0|p]; simpl in Hsrc; try discriminate;
    injection Hsrc as <-; eexists; (split; [reflexivity|]); simpl;
    rewrite Hitems; auto.
Qed.

Lemma C2_booleans_stored_on_off_witness :
  exists r : Request,
    Request_init (reference no_functions)
      (SrcDict [("a", PyInt 1); ("grid", PyBool false); ("b", PyStr "x")])
      (start no_functions) = (Ok r, start no_functions) /\
    dict_get "grid" (items r) = Some (PyStr "off") /\
    (forall k' b', ~ In (k', PyBool b') (items r)).
Proof.
  apply (C2_booleans_stored_on_off (reference no_functions)
           (SrcDict [("a", PyInt 1); ("grid", PyBool false); ("b", PyStr "x")])
           [("a", PyInt 1); ("grid", PyBool false); ("b", PyStr "x")]
           "grid" false (start no_functions)).
  - reflexivity.
  - simpl. repeat constructor; simpl; intuition discriminate.
  - simpl. auto.
Defined.

(** ** Request.push *)

Section RequestPush.

Variable E : Engine.

Lemma unit_answer (c : ffi unit) (e : eng_state E) :
  fst (eng_call E unit c e) = tt.
Proof. now destruct (fst (eng_call E unit c e)). Qed.

End RequestPush.

(** ** Values the encoder accepts *)

Section EncoderFacts.

Variable E : Engine.

Lemma for_each_total {A : Type} (l : list A) (body : A -> M E unit) :
  (forall x st, In x l -> exists st', body x st = (Ok tt, st')) ->
  forall st, exists st', for_each E l body st = (Ok tt, st').
Proof.
  induction l as [|x l IH]; simpl; intros H st; [eexists; reflexivity|].
  destruct (H x st (or_introl eq_refl)) as [st1 H1].
  rewrite (bind_Ok E _ _ _ _ _ H1). apply IH. intros; apply H; now right.
Qed.

Lemma for_enumerate_total {A : Type} (l : list A) (body : Z -> A -> M E unit) :
  (forall i x st, In x l -> exists st', body i x st = (Ok tt, st')) ->
  forall i st, exists st', for_enumerate E i l body st = (Ok tt, st').
Proof.
  induction l as [|x l IH]; simpl; intros H i st; [eexists; reflexivity|].
  destruct (H i x st (or_introl eq_refl)) as [st1 H1].
  rewrite (bind_Ok E _ _ _ _ _ H1). apply IH. intros; apply H; now right.
Qed.

Lemma then_call_total {A : Type} (m : M E A) (c : ffi unit) (st : HostState E) :
  (exists a st', m st = (Ok a, st')) ->
  exists st', bind E m (fun _ => call E c) st = (Ok tt, st').
Proof.
  intros [a [st1 H1]]. rewrite (bind_Ok E _ _ _ _ _ H1).
  rewrite call_run, unit_answer. eexists; reflexivity.
Qed.

Lemma Request_push_body_total (g : PyVal -> string -> M E Z) (r : Request) :
  (truthy (val_pointer r) = false ->
   forall kv name st, In kv (items r) ->
     exists a st', g (snd kv) name st = (Ok a, st')) ->
  forall st, exists st', Request_push_body E g r st = (Ok tt, st').
Proof.
  intros H st. unfold Request_push_body.
  destruct (truthy (val_pointer r)) eqn:Ht.
  - destruct (val_pointer r); [|discriminate].
    rewrite call_run, unit_answer. eexists; reflexivity.
  - rewrite bind_call.
    match goal with |- context [for_each E ?l0 ?b ] =>
      destruct (for_each_total l0 b) with (st := mkHost
        (log st ++ [Ev (p_new_request (str_encode (verb r)))
           (fst (eng_call E ptr (p_new_request (str_encode (verb r))) (eng st)))])
        (snd (eng_call E ptr (p_new_request (str_encode (verb r))) (eng st))))
        as [st2 H2]
    end.
    { intros kv st' Hin. apply then_call_total. now apply H. }
    rewrite (bind_Ok E _ _ _ _ _ H2).
    rewrite call_run, unit_answer. eexists; reflexivity.
Qed.

Lemma push_list_body_total (g : PyVal -> string -> M E Z) (l : list PyVal) :
  (forall v name st, In v l -> exists a st', g v name st = (Ok a, st')) ->
  forall st, exists st', push_list_body E g l st = (Ok tt, st').
Proof.
  intros H st. unfold push_list_body. rewrite bind_call.
  match goal with |- context [for_enumerate E ?i0 ?l0 ?b ] =>
    destruct (for_enumerate_total l0 b) with (i := i0) (st := mkHost
      (log st ++ [Ev (p_new_list (len l))
         (fst (eng_call E ptr (p_new_list (len l)) (eng st)))])
      (snd (eng_call E ptr (p_new_list (len l)) (eng st))))
      as [st2 H2]
  end.
  { intros i v st' Hin. apply then_call_total. now apply H. }
  rewrite (bind_Ok E _ _ _ _ _ H2).
  rewrite call_run, unit_answer. eexists; reflexivity.
Qed.

Lemma encodable_items (d : dict) (kv : string * PyVal) :
  forallb (fun kv => encodable (snd kv)) d = true ->
  In kv (to_metview_style (dict_update [] d)) ->
  encodable (snd kv) = true.
Proof.
  intros Hd Hin. rewrite forallb_forall in Hd.
  destruct (to_metview_style_In _ _ Hin) as [H1|[v H1]].
  - destruct (dict_update_In _ _ _ H1) as [[]|H2]. now apply Hd.
  - now rewrite H1.
Qed.

(** The encoder returns, with an argument count of 1, on every value it
    accepts. *)
Lemma push_arg_total (k : nat) :
  forall (n : PyVal) (name : string) (st : HostState E),
  (depth n < k)%nat -> encodable n = true ->
  exists st', push_arg E n name st = (Ok 1, st').
Proof.
  induction k as [|k IH]; intros n name st Hk Hn; [lia|].
  rewrite push_arg_eq. unfold push_arg_body.
  enough (H : exists st',
             match n with
             | PyFloat x => call E (p_push_number x)
             | PyInt i =>
               bind E (lift E (float_of_int i))
                 (fun x => call E (p_push_number x))
             | PyBool b =>
               bind E (lift E (float_of_int (Z.b2z b)))
                 (fun x => call E (p_push_number x))
             | PyStr s => push_str E s
             | PyRequest r => Request_push_body E (push_arg E) r
             | PyDict d =>
               bind E (Request_init E (SrcDict d))
                 (fun r => Request_push_body E (push_arg E) r)
             | PyFieldset f | PyBufr f | PyGeopoints f | PyNetCDF f =>
               call E (p_push_value (fb_val_pointer f))
             | PyList l | PyTuple l => push_list_body E (push_arg E) l
             | PyNone | PyOther _ =>
               raise E (TypeError "Cannot push this type of argument to Metview: "
                          (py_type n))
             end st = (Ok tt, st')).
  { destruct H as [st' H]. rewrite (bind_Ok E _ _ _ _ _ H).
    eexists; reflexivity. }
  destruct n; simpl in Hn; try discriminate;
    try (rewrite call_run, unit_answer; eexists; reflexivity).
  - unfold bind, lift. destruct (float_of_int i); try discriminate.
    rewrite call_run, unit_answer; eexists; reflexivity.
  - unfold bind, lift.
    replace (float_of_int (Z.b2z b)) with (Ok (if b then one else zero))
      by (destruct b; vm_compute; reflexivity).
    rewrite call_run, unit_answer; eexists; reflexivity.
  - unfold push_str, push_bytes.
    rewrite call_run, unit_answer; eexists; reflexivity.
  - apply Request_push_body_total. intros Ht kv nm st0 Hin.
    rewrite Ht in Hn. simpl in Hn. rewrite forallb_forall in Hn.
    destruct (IH (snd kv) nm st0) as [st' H'].
    + apply max_depth_In in Hin. unfold max_depth in Hin. simpl in Hk. lia.
    + now apply Hn.
    + eauto.
  - simpl. unfold bind at 1. simpl.
    apply Request_push_body_total. simpl. intros _ kv nm st0 Hin.
    destruct (IH (snd kv) nm st0) as [st' H'].
    + apply Request_items_depth in Hin. unfold max_depth in Hin.
      simpl in Hk. lia.
    + now apply (encodable_items d).
    + eauto.
  - apply push_list_body_total. intros v nm st0 Hin.
    rewrite forallb_forall in Hn.
    destruct (IH v nm st0) as [st' H'].
    + apply list_depth_In in Hin. simpl in Hk. lia.
    + now apply Hn.
    + eauto.
  - apply push_list_body_total. intros v nm st0 Hin.
    rewrite forallb_forall in Hn.
    destruct (IH v nm st0) as [st' H'].
    + apply list_depth_In in Hin. simpl in Hk. lia.
    + now apply Hn.
    + eauto.
Qed.

(** Whenever the encoder returns, the argument count it returns is 1. *)
Lemma push_arg_returns_one (n : PyVal) (name : string) (st st' : HostState E)
  (a : Z) :
  push_arg E n name st = (Ok a, st') -> a = 1.
Proof.
  rewrite push_arg_eq. unfold push_arg_body, bind at 1.
  match goal with |- context [match ?m st with _ => _ end] =>
    destruct (m st) as [[[]| |] st1] end;
    unfold ret; intros H; inversion H; reflexivity.
Qed.

End EncoderFacts.

(** ** The named call *)

Section CallFacts.

Variable E : Engine.

Lemma args_loop_count (name : string) (args : list PyVal) :
  forall (nargs r : Z) (st st' : HostState E),
  for_acc E args
    (fun n nargs =>
       bind E (push_arg E n name) (fun a => ret E (nargs + a)))
    nargs st = (Ok r, st') ->
  r = nargs + len args.
Proof.
  unfold len.
  induction args as [|n args IH]; simpl for_acc; intros nargs r st st' H.
  - injection H as <- _. simpl. lia.
  - unfold bind at 1 in H. unfold bind at 1 in H.
    destruct (push_arg E n name st) as [[a| |] st1] eqn:Hn; try discriminate.
    apply push_arg_returns_one in Hn. subst a.
    unfold ret at 1 in H. apply IH in H. simpl List.length. lia.
Qed.


Lemma dict_to_pushed_args_count (d : Request) (st st' : HostState E) (dn : Z) :
  dict_to_pushed_args E d st = (Ok dn, st') -> dn = 2 * len (items d).
Proof.
  unfold dict_to_pushed_args, bind at 1.
  destruct (for_each E (items d) _ st) as [[[]| |] st1]; try discriminate.
  unfold ret. now intros [= <- _].
Qed.


Lemma grows_dict_to_pushed_args (d : Request) :
  grows E (dict_to_pushed_args E d).
Proof.
  unfold dict_to_pushed_args.
  apply grows_bind; [|intros; apply grows_ret].
  apply grows_for_each. intros kv.
  apply grows_bind; [apply grows_call|intros _].
  apply grows_bind; [apply grows_push_arg|intros; apply grows_ret].
Qed.

Lemma grows_args_loop (name : string) (args : list PyVal) (nargs : Z) :
  grows E
    (for_acc E args
       (fun n nargs =>
          bind E (push_arg E n name) (fun a => ret E (nargs + a)))
       nargs).
Proof.
  apply grows_for_acc. intros n acc.
  apply grows_bind; [apply grows_push_arg|intros; apply grows_ret].
Qed.

End CallFacts.

(** ** Request subscript *)

Lemma push_arg_int (E : Engine) (i : Z) (x : pyfloat) (name : string)
  (st : HostState E) :
  float_of_int i = Ok x ->
  push_arg E (PyInt i) name st =
  (Ok 1,
   mkHost (log st ++ [Ev (p_push_number x) tt])
          (snd (eng_call E unit (p_push_number x) (eng st)))).
Proof.
  intros H. rewrite push_arg_eq. unfold push_arg_body, bind, lift.
  rewrite H, call_run, unit_answer. reflexivity.
Qed.

Lemma call_function_two (E : Engine) (name : string) (a b : PyVal)
  (st st1 st2 : HostState E) :
  push_arg E a name st = (Ok 1, st1) ->
  push_arg E b name st1 = (Ok 1, st2) ->
  _call_function E name [a; b] [] st =
  (Ok tt,
   mkHost (log st2 ++ [Ev (p_call_function (str_encode name) 2) tt])
          (snd (eng_call E unit (p_call_function (str_encode name) 2)
                  (eng st2)))).
Proof.
  intros Ha Hb. unfold _call_function. cbn [dict_get]. simpl for_acc.
  rewrite !bind_assoc, (bind_Ok E _ _ _ _ _ Ha), bind_ret.
  rewrite !bind_assoc, (bind_Ok E _ _ _ _ _ Hb), !bind_ret.
  simpl. rewrite bind_ret, call_run, unit_answer. reflexivity.
Qed.



(** ** Request built from an engine handle *)

Lemma dict_get_set {V : Type} (k k' : string) (v : V) (d : list (string * V)) :
  dict_get k (dict_set k' v d) =
  if String.eqb k k' then Some v else dict_get k d.
Proof.
  induction d as [|[k0 v0] d IH]; simpl.
  - reflexivity.
  - destruct (String.eqb_spec k' k0) as [->|Hne]; simpl.
    + destruct (String.eqb k k0); reflexivity.
    + rewrite IH. destruct (String.eqb_spec k k0) as [->|Hne'].
      * destruct (String.eqb_spec k0 k'); congruence.
      * reflexivity.
Qed.

Lemma pulled_keeps (vals : list (bytes * cstr)) :
  forall (self : dict) (k : string),
  (exists s, dict_get k self = Some (PyStr s)) ->
  exists s, dict_get k (pulled vals self) = Some (PyStr s).
Proof.
  induction vals as [|[p [raw|]] vals IH]; simpl; intros self k H; auto.
  apply IH. unfold pull. simpl. rewrite dict_get_set.
  destruct (String.eqb k p); eauto.
Qed.

Lemma pulled_In (vals : list (bytes * cstr)) :
  forall (self : dict) (param raw : bytes),
  In (param, Some raw) vals ->
  exists s, dict_get param (pulled vals self) = Some (PyStr s).
Proof.
  induction vals as [|pv vals IH]; simpl; intros self param raw H; [tauto|].
  destruct H as [->|H].
  - apply pulled_keeps. unfold pull. simpl. rewrite dict_get_set.
    rewrite String.eqb_refl. eauto.
  - eapply IH. exact H.
Qed.

Section HandleFacts.

Variable E : Engine.

Lemma string_from_ffi_Ok (c : cstr) (s : string) (st st' : HostState E) :
  string_from_ffi E c st = (Ok s, st') -> c = Some s /\ st' = st.
Proof.
  destruct c as [b|]; simpl; [|discriminate].
  unfold lift, bytes_decode. destruct (utf8_wf (byte_values b)); [|discriminate].
  intros [= <- <-]. auto.
Qed.

Lemma pull_param_Ok (req : ptr) (i : Z) (self d : dict) (st st' : HostState E) :
  pull_param E req i self st = (Ok d, st') ->
  exists (param : bytes) (raw : cstr),
    log st' = (log st ++ [Ev (p_get_req_param req i) (Some param);
                          Ev (p_get_req_value req param) raw])%list /\
    d = pull self (param, raw).
Proof.
  unfold pull_param. rewrite bind_call.
  set (c := fst (eng_call E cstr (p_get_req_param req i) (eng st))).
  set (st1 := mkHost _ _).
  destruct (string_from_ffi E c st1) as [[param| |] st2] eqn:Hc;
    [ rewrite (bind_Ok E _ _ _ _ _ Hc)
    | rewrite (bind_Raise E _ _ _ _ _ Hc); discriminate
    | rewrite (bind_OutOfFuel E _ _ _ _ Hc); discriminate ].
  apply string_from_ffi_Ok in Hc as [Hc ->].
  rewrite bind_call.
  set (raw := fst (eng_call E cstr (p_get_req_value req (str_encode param))
                     (eng st1))).
  set (st3 := mkHost _ _).
  assert (Hlog : log st3 =
                 (log st ++ [Ev (p_get_req_param req i) (Some param);
                             Ev (p_get_req_value req param) raw])%list).
  { unfold st3, st1. cbn [log]. rewrite Hc, <- app_assoc. reflexivity. }
  destruct raw as [b|] eqn:Hraw.
  - destruct (string_from_ffi E (Some b) st3) as [[val| |] st4] eqn:Hv;
      [ rewrite (bind_Ok E _ _ _ _ _ Hv)
      | rewrite (bind_Raise E _ _ _ _ _ Hv); discriminate
      | rewrite (bind_OutOfFuel E _ _ _ _ Hv); discriminate ].
    apply string_from_ffi_Ok in Hv as [[= ->] ->].
    unfold ret. intros [= <- <-]. exists param, (Some val). auto.
  - unfold ret. intros [= <- <-]. exists param, None. auto.
Qed.

Lemma pull_loop_Ok (req : ptr) (count : nat) :
  forall (i : Z) (self d : dict) (st st' : HostState E),
  for_range E count i (pull_param E req) self st = (Ok d, st') ->
  exists evs,
    log st' = (log st ++ evs)%list /\
    map fst (params_reported req evs) = zrange i count /\
    map snd (params_reported req evs) =
      map (fun pv => Some (fst pv)) (values_reported req evs) /\
    d = pulled (values_reported req evs) self.
Proof.
  induction count as [|count IH]; simpl; intros i self d st st' H.
  - injection H as <- <-. exists []. rewrite app_nil_r. auto.
  - destruct (pull_param E req i self st) as [[d1| |] st1] eqn:H1;
      [ rewrite (bind_Ok E _ _ _ _ _ H1) in H
      | rewrite (bind_Raise E _ _ _ _ _ H1) in H; discriminate
      | rewrite (bind_OutOfFuel E _ _ _ _ H1) in H; discriminate ].
    apply pull_param_Ok in H1 as [param [raw [Hlog1 ->]]].
    apply IH in H as [evs [Hlog [Hidx [Hnames ->]]]].
    exists ([Ev (p_get_req_param req i) (Some param);
             Ev (p_get_req_value req param) raw] ++ evs)%list.
    split; [now rewrite Hlog, Hlog1, <- app_assoc|].
    unfold params_reported, values_reported in *.
    rewrite !flat_map_app. simpl. rewrite Z.eqb_refl. simpl.
    rewrite Hidx, Hnames. auto.
Qed.

End HandleFacts.

(** C9 as stated fails: a parameter the engine reports with a null value
    gets no entry in the mapping. *)
Lemma C9_counterexample :
  let E := reference no_functions in
  let st := @mkHost E []
              (mkMachine
                 [MvRequest (Some "RETRIEVE")
                    [("PARAM", MvString "t"); ("GRID", MvNil)]] [] MvNil) in
  exists (r : Request) (st' : HostState E),
    Request_init E (SrcHandle 1) st = (Ok r, st') /\
    In (Ev (p_get_req_param 1 1) (Some "GRID")) (log st') /\
    dict_get "GRID" (items r) = None.
Proof.
  intros E st. eexists. eexists. split; [vm_compute; reflexivity|].
  split; [|reflexivity].
  simpl. tauto.
Qed.

(** C9, amended: when a Request is built from an engine handle, the verb
    and then, for every index below the number of parameters the engine
    gives, the parameter name and its value are asked of the engine during
    construction; the handle is retained; the mapping holds exactly the
    values pulled that are not null, so it has an entry for every parameter
    reported with a non-null value. *)
Theorem C9_handle_request_pulled_eagerly (E : Engine) (req : ptr)
  (r : Request) (st st' : HostState E) :
  Request_init E (SrcHandle req) st = (Ok r, st') ->
  exists (n : Z) (evs : list Event),
    log st' =
      (log st ++ Ev (p_get_req_verb req) (Some (verb r)) ::
                 Ev (p_get_req_num_params req) n :: evs)%list /\
    val_pointer r = Some req /\
    map fst (params_reported req evs) = zrange 0 (Z.to_nat n) /\
    map snd (params_reported req evs) =
      map (fun pv => Some (fst pv)) (values_reported req evs) /\
    items r = pulled (values_reported req evs) [] /\
    (forall param raw : bytes,
       In (param, Some raw) (values_reported req evs) ->
       exists s, dict_get param (items r) = Some (PyStr s)).
Proof.
  simpl. rewrite bind_call.
  set (c := fst (eng_call E cstr (p_get_req_verb req) (eng st))).
  set (st1 := mkHost _ _).
  destruct (string_from_ffi E c st1) as [[vb| |] st2] eqn:Hc;
    [ rewrite (bind_Ok E _ _ _ _ _ Hc)
    | rewrite (bind_Raise E _ _ _ _ _ Hc); discriminate
    | rewrite (bind_OutOfFuel E _ _ _ _ Hc); discriminate ].
  apply string_from_ffi_Ok in Hc as [Hc ->].
  rewrite bind_call.
  set (n := fst (eng_call E Z (p_get_req_num_params req) (eng st1))).
  set (st3 := mkHost _ _).
  destruct (for_range E (Z.to_nat n) 0 (pull_param E req) [] st3)
    as [[d| |] st4] eqn:Hloop;
    [ rewrite (bind_Ok E _ _ _ _ _ Hloop)
    | rewrite (bind_Raise E _ _ _ _ _ Hloop); discriminate
    | rewrite (bind_OutOfFuel E _ _ _ _ Hloop); discriminate ].
  unfold ret. intros [= <- <-].
  apply pull_loop_Ok in Hloop as [evs [Hlog [Hidx [Hnames ->]]]].
  exists n, evs. cbn [verb val_pointer items].
  repeat split; auto.
  - rewrite Hlog. unfold st3, st1. cbn [log]. rewrite Hc.
    rewrite <- !app_assoc. reflexivity.
  - intros param raw Hin. eapply pulled_In. exact Hin.
Qed.

Lemma C9_handle_request_pulled_eagerly_witness :
  let E := reference no_functions in
  let st := @mkHost E []
              (mkMachine
                 [MvRequest (Some "RETRIEVE")
                    [("PARAM", MvString "t"); ("GRID", MvNil)]] [] MvNil) in
  exists (n : Z) (evs : list Event),
    log (snd (Request_init E (SrcHandle 1) st)) =
      (Ev (p_get_req_verb 1) (Some "RETRIEVE") ::
       Ev (p_get_req_num_params 1) n :: evs)%list /\
    dict_get "PARAM"
      (pulled (values_reported 1 evs) []) = Some (PyStr "t").
Proof.
  intros E st.
  destruct (C9_handle_request_pulled_eagerly E 1
              (mkRequest "RETRIEVE" (Some 1) [("PARAM", PyStr "t")])
              st (snd (Request_init E (SrcHandle 1) st)) eq_refl)
    as [n [evs [Hlog [_ [_ [_ [Hitems _]]]]]]].
  exists n, evs. split; [exact Hlog|].
  rewrite <- Hitems. reflexivity.
Defined.

(** ** Encoding on the reference engine *)

Lemma list_set_middle {A : Type} (done : list A) (x y : A) (tl : list A) :
  list_set (List.length done) x (done ++ y :: tl) = (done ++ x :: tl)%list.
Proof. induction done as [|d done IH]; simpl; [reflexivity|now rewrite IH]. Qed.

Lemma address_index {A : Type} (h : list A) :
  Z.to_nat (len h + 1 - 1) = List.length h.
Proof. unfold len. lia. Qed.

Lemma address_positive {A : Type} (h : list A) : (len h + 1 <=? 0) = false.
Proof. unfold len. apply Z.leb_gt. lia. Qed.

Lemma deref_middle (m : Machine) (h0 hs : list MvValue) (c : MvValue) :
  heap m = (h0 ++ c :: hs)%list -> deref m (len h0 + 1) = c.
Proof.
  intros H. unfold deref. rewrite address_positive, address_index, H.
  apply nth_middle.
Qed.

Lemma store_middle (m : Machine) (h0 hs : list MvValue) (c c' : MvValue) :
  heap m = (h0 ++ c :: hs)%list ->
  store (len h0 + 1) c' m = mkMachine (h0 ++ c' :: hs) (stack m) (result m).
Proof.
  intros H. unfold store. rewrite address_positive, address_index, H.
  now rewrite list_set_middle.
Qed.

Section ReferenceEncoder.

Variable functions : bytes -> list MvValue -> MvValue.

#[local] Abbreviation R := (reference functions).

(** The loop of [push_list] over the elements still to add. *)
Lemma push_list_loop (g : PyVal -> string -> M R Z) (h0 : list MvValue)
  (rest : list PyVal) :
  (forall v name st, In v rest ->
     exists st', g v name st = (Ok 1, st') /\ pushes (wire v) st st') ->
  forall (done : list MvValue) (hs : list MvValue) (st : HostState R),
  heap (eng st) =
    (h0 ++ MvList (done ++ repeat MvNil (List.length rest)) :: hs)%list ->
  exists (st' : HostState R) (hs' : list MvValue),
    for_enumerate R (len done) rest
      (fun i val =>
         bind R (g val "NONE")
           (fun _ => call R (p_add_value_from_pop_to_list (len h0 + 1) i)))
      st = (Ok tt, st') /\
    heap (eng st') = (h0 ++ MvList (done ++ map wire rest) :: hs')%list /\
    stack (eng st') = stack (eng st) /\
    result (eng st') = result (eng st).
Proof.
  induction rest as [|v rest IH]; intros Hg done hs st Hheap.
  - exists st, hs. simpl in *. auto.
  - destruct (Hg v "NONE" st (or_introl eq_refl))
      as [st1 [Hrun [Hstack [Hres [hs1 Hheap1]]]]].
    simpl for_enumerate.
    rewrite bind_assoc, (bind_Ok R _ _ _ _ _ Hrun), bind_call.
    cbn [eng_call reference machine_call fst snd eng].
    unfold pop. rewrite Hstack.
    rewrite Hheap in Hheap1. rewrite <- app_assoc in Hheap1.
    simpl in Hheap1.
    set (m1 := mkMachine (heap (eng st1)) (stack (eng st)) (result (eng st1))).
    rewrite (deref_middle m1 h0 (hs ++ hs1) _ Hheap1).
    cbn [fst snd].
    rewrite (store_middle m1 h0 (hs ++ hs1) _ _ Hheap1).
    subst m1.
    cbn [stack result].
    replace (Z.to_nat (len done)) with (List.length done)
      by (unfold len; lia).
    rewrite list_set_middle.
    match goal with |- context [for_enumerate R _ rest ?b ?s] =>
      destruct (IH (fun v name st H => Hg v name st (or_intror H))
                  (done ++ [wire v])%list (hs ++ hs1)%list s)
        as [st' [hs' [Hloop [Hh [Hs Hr]]]]]
    end.
    { cbn [eng heap]. rewrite <- app_assoc. reflexivity. }
    exists st', hs'.
    replace (len done + 1) with (len (done ++ [wire v]))
      by (unfold len; rewrite length_app; simpl; lia).
    rewrite Hloop. rewrite <- app_assoc in Hh. simpl in Hh.
    cbn [eng stack result] in Hs, Hr. rewrite Hres in Hr. auto.
Qed.

Lemma push_list_plain (g : PyVal -> string -> M R Z) (l : list PyVal)
  (st : HostState R) :
  (forall v name st, In v l ->
     exists st', g v name st = (Ok 1, st') /\ pushes (wire v) st st') ->
  exists st',
    push_list_body R g l st = (Ok tt, st') /\
    pushes (MvList (map wire l)) st st'.
Proof.
  intros Hg. unfold push_list_body. rewrite bind_call.
  cbn [eng_call reference machine_call alloc fst snd].
  match goal with |- context [bind R (for_enumerate R _ l ?b) _ ?s] =>
    destruct (push_list_loop g (heap (eng st)) l Hg [] [] s)
      as [st1 [hs1 [Hloop [Hh [Hs Hr]]]]]
  end.
  { cbn [eng heap]. simpl. unfold len. now rewrite Nat2Z.id. }
  change (len (@nil MvValue)) with 0 in Hloop.
  rewrite (bind_Ok R _ _ _ _ _ Hloop).
  rewrite call_run. cbn [eng_call reference machine_call fst snd eng].
  eexists. split; [reflexivity|].
  simpl in Hh. unfold pushes. cbn [eng stack result heap push].
  rewrite (deref_middle _ _ _ _ Hh), Hs, Hr, Hh. cbn [eng stack result].
  repeat split. eexists. reflexivity.
Qed.

(** Pushing a plain value leaves its engine value on top of the stack. *)
Lemma push_plain (k : nat) :
  forall (n : PyVal) (name : string) (st : HostState R),
  (depth n < k)%nat -> plain n = true ->
  exists st', push_arg R n name st = (Ok 1, st') /\ pushes (wire n) st st'.
Proof.
  induction k as [|k IH]; intros n name st Hk Hn; [lia|].
  rewrite push_arg_eq. unfold push_arg_body.
  assert (Hnum : forall x,
            exists st',
              bind R (call R (p_push_number x)) (fun _ => ret R 1) st
              = (Ok 1, st') /\ pushes (MvNumber x) st st').
  { intros x. rewrite bind_call. eexists. split; [reflexivity|].
    unfold pushes. simpl. repeat split. exists []. now rewrite app_nil_r. }
  assert (Hlist : forall l,
            (forall v, In v l -> (depth v < k)%nat /\ plain v = true) ->
            exists st',
              bind R (push_list_body R (push_arg R) l) (fun _ => ret R 1) st
              = (Ok 1, st') /\ pushes (MvList (map wire l)) st st').
  { intros l Hl.
    destruct (push_list_plain (push_arg R) l st) as [st' [Hrun Hp]].
    - intros v nm st0 Hin. destruct (Hl v Hin). now apply IH.
    - rewrite (bind_Ok R _ _ _ _ _ Hrun). exists st'.
      split; [reflexivity|exact Hp]. }
  destruct n; simpl in Hn; try discriminate.
  - apply Hnum.
  - unfold number_of, wire. unfold number_of.
    destruct (float_of_int i) eqn:Hi; try discriminate.
    rewrite bind_assoc, bind_lift_Ok. apply Hnum.
  - unfold wire, number_of.
    replace (float_of_int (Z.b2z b)) with (Ok (if b then one else zero))
      by (destruct b; vm_compute; reflexivity).
    rewrite bind_assoc, bind_lift_Ok. apply Hnum.
  - unfold push_str, push_bytes. rewrite bind_call. eexists.
    split; [reflexivity|].
    unfold pushes. simpl. repeat split. exists []. now rewrite app_nil_r.
  - apply Hlist. intros v Hin. rewrite forallb_forall in Hn. split; auto.
    apply list_depth_In in Hin. simpl in Hk. lia.
  - apply Hlist. intros v Hin. rewrite forallb_forall in Hn. split; auto.
    apply list_depth_In in Hin. simpl in Hk. lia.
Qed.

End ReferenceEncoder.

(** ** Decoding on the reference engine *)

Lemma decoded_list (vs : list MvValue) (pvs : list PyVal) :
  decoded (MvList vs) (PyList pvs) <-> Forall2 decoded vs pvs.
Proof.
  revert pvs. induction vs as [|v vs IH]; intros [|p pvs]; simpl.
  - split; auto.
  - split; [tauto|]. intros H. inversion H.
  - split; [tauto|]. intros H. inversion H.
  - split.
    + intros [H1 H2]. constructor; auto. now apply IH.
    + intros H. inversion_clear H. split; auto. now apply IH.
Qed.

Lemma mv_depth_In (l : list MvValue) (v : MvValue) :
  In v l ->
  (mv_depth v <= fold_right (fun v m => Nat.max (mv_depth v) m) O l)%nat.
Proof.
  induction l as [|x l IH]; simpl; [tauto|].
  intros [->|H]; [lia|]. specialize (IH H). lia.
Qed.

Lemma deref_extends (m m' : Machine) (hs : list MvValue) (p : ptr) :
  heap m' = (heap m ++ hs)%list -> valid m p -> deref m' p = deref m p.
Proof.
  unfold valid, deref, len. intros H Hp.
  destruct (Z.leb_spec p 0) as [Hle|Hgt]; [lia|].
  rewrite H. apply app_nth1. lia.
Qed.

Lemma valid_extends (m m' : Machine) (hs : list MvValue) (p : ptr) :
  heap m' = (heap m ++ hs)%list -> valid m p -> valid m' p.
Proof.
  unfold valid, len. intros H Hp. rewrite H, length_app. lia.
Qed.

Lemma dict_get_Some_In {V : Type} (k : string) (v : V) (d : list (string * V)) :
  dict_get k d = Some v -> In (k, v) d.
Proof.
  induction d as [|[k' v'] d IH]; simpl; [discriminate|].
  destruct (String.eqb_spec k k') as [->|Hne].
  - intros [= ->]. now left.
  - intros H. right. auto.
Qed.

Section ReferenceDecoder.

Variable functions : bytes -> list MvValue -> MvValue.

#[local] Abbreviation R := (reference functions).

Lemma string_from_ffi_text (c : bytes) (st : HostState R) :
  utf8_wf (byte_values c) = true ->
  string_from_ffi R (Some c) st = (Ok c, st).
Proof.
  intros H. unfold string_from_ffi, lift, bytes_decode. now rewrite H.
Qed.

(** The loop of [Request.__init__] over the parameters still to pull. *)
Lemma pull_loop_reference (p : ptr) (vb : cstr)
  (params : list (bytes * MvValue)) :
  forallb
    (fun kv =>
       utf8_wf (byte_values (fst kv)) &&
       match snd kv with
       | MvString s => utf8_wf (byte_values s)
       | _ => true
       end) params = true ->
  forall (rest done : list (bytes * MvValue)) (self : dict)
    (st : HostState R),
  params = (done ++ rest)%list ->
  deref (eng st) p = MvRequest vb params ->
  exists st',
    for_range R (List.length rest) (len done) (pull_param R p) self st =
    (Ok (pulled (map (fun kv => (fst kv, req_value params (fst kv))) rest)
           self), st') /\
    eng st' = eng st.
Proof.
  intros Hwf. rewrite forallb_forall in Hwf.
  induction rest as [|[k v] rest IH]; intros done self st Hparams Hderef.
  - exists st. split; reflexivity.
  - simpl for_range. unfold pull_param at 1.
    rewrite !bind_assoc, bind_call.
    cbn [eng_call reference machine_call fst snd eng].
    rewrite Hderef.
    replace (Z.to_nat (len done)) with (List.length done)
      by (unfold len; lia).
    assert (Hnth : nth_error params (List.length done) = Some (k, v)).
    { rewrite Hparams, nth_error_app2, Nat.sub_diag by lia. reflexivity. }
    rewrite Hnth.
    assert (Hin : In (k, v) params).
    { rewrite Hparams. apply in_or_app. right. now left. }
    destruct (andb_prop _ _ (Hwf _ Hin)) as [Hk _]. simpl in Hk.
    rewrite !bind_assoc, (bind_Ok R _ _ _ _ _ (string_from_ffi_text k _ Hk)).
    rewrite !bind_assoc, bind_call.
    cbn [eng_call reference machine_call fst snd eng].
    rewrite Hderef. unfold str_encode. fold (req_value params k).
    set (st2 := mkHost _ _).
    assert (Hstep :
              exists st3,
                bind R
                  match req_value params k with
                  | Some _ =>
                    bind R (string_from_ffi R (req_value params k))
                      (fun val => ret R (dict_set k (PyStr val) self))
                  | None => ret R self
                  end
                  (fun acc' =>
                     for_range R (List.length rest) (len done + 1)
                       (pull_param R p) acc') st2
                = for_range R (List.length rest) (len done + 1)
                    (pull_param R p) (pull self (k, req_value params k)) st3
                /\ eng st3 = eng st).
    { exists st2. split; [|reflexivity].
      unfold pull. cbn [fst snd]. unfold req_value.
      destruct (dict_get k params) as [[]|] eqn:Hget; try reflexivity.
      apply dict_get_Some_In in Hget.
      destruct (andb_prop _ _ (Hwf _ Hget)) as [_ Hs]. simpl in Hs.
      rewrite bind_assoc,
        (bind_Ok R _ _ _ _ _ (string_from_ffi_text s _ Hs)).
      reflexivity. }
    destruct Hstep as [st3 [Hrun Heng]].
    destruct (IH (done ++ [(k, v)])%list (pull self (k, req_value params k))
                st3) as [st' [Hloop Heng']].
    { rewrite Hparams, <- app_assoc. reflexivity. }
    { rewrite Heng. exact Hderef. }
    exists st'. split; [|congruence].
    etransitivity; [exact Hrun|].
    replace (len done + 1) with (len (done ++ [(k, v)]))
      by (unfold len; rewrite length_app; simpl; lia).
    rewrite Hloop. reflexivity.
Qed.

Lemma Request_init_reference (p : ptr) (vb : bytes)
  (params : list (bytes * MvValue)) (st : HostState R) :
  wf_value (MvRequest (Some vb) params) = true ->
  deref (eng st) p = MvRequest (Some vb) params ->
  exists st',
    Request_init R (SrcHandle p) st =
    (Ok (mkRequest vb (Some p) (request_items params)), st') /\
    eng st' = eng st.
Proof.
  simpl. intros [Hvb Hparams]%andb_prop Hderef.
  rewrite bind_call. cbn [eng_call reference machine_call fst snd eng].
  rewrite Hderef.
  rewrite (bind_Ok R _ _ _ _ _ (string_from_ffi_text vb _ Hvb)).
  rewrite bind_call. cbn [eng_call reference machine_call fst snd eng].
  rewrite Hderef.
  replace (Z.to_nat (len params)) with (List.length params)
    by (unfold len; lia).
  match goal with |- context [bind R (for_range R _ _ _ _) _ ?s] =>
    destruct (pull_loop_reference p (Some vb) params Hparams params [] [] s
                eq_refl Hderef) as [st' [Hloop Heng]]
  end.
  change (len (@nil (bytes * MvValue))) with 0 in Hloop.
  rewrite (bind_Ok R _ _ _ _ _ Hloop).
  exists st'. split; [reflexivity|exact Heng].
Qed.

(** The loop of [list_from_metview] over the elements still to decode. *)
Lemma list_loop_reference (g : ptr -> M R PyVal) (p : ptr)
  (elems : list MvValue) :
  (forall (v : MvValue) (q : ptr) (st : HostState R),
     In v elems -> valid (eng st) q -> deref (eng st) q = v ->
     exists pv st',
       g q st = (Ok pv, st') /\ decoded v pv /\
       exists hs, heap (eng st') = (heap (eng st) ++ hs)%list) ->
  forall (rest done : list MvValue) (acc : list PyVal) (st : HostState R),
  elems = (done ++ rest)%list ->
  valid (eng st) p ->
  deref (eng st) p = MvList elems ->
  exists pvs st',
    for_range R (List.length rest) (len done)
      (fun i result =>
         bind R (call R (p_list_element_as_value p i)) (fun mval =>
         bind R (g mval) (fun v => ret R (result ++ [v])%list)))
      acc st = (Ok (acc ++ pvs)%list, st') /\
    Forall2 decoded rest pvs /\
    exists hs, heap (eng st') = (heap (eng st) ++ hs)%list.
Proof.
  intros Hg.
  induction rest as [|v rest IH]; intros done acc st Helems Hvalid Hderef.
  - exists [], st. simpl. rewrite !app_nil_r. repeat split; auto.
    exists []. now rewrite app_nil_r.
  - simpl for_range. rewrite bind_assoc, bind_call.
    cbn [eng_call reference machine_call fst snd eng].
    rewrite Hderef. unfold alloc. cbn [fst snd].
    replace (Z.to_nat (len done)) with (List.length done)
      by (unfold len; lia).
    replace (nth (List.length done) elems MvNil) with v
      by (rewrite Helems; symmetry; apply nth_middle).
    set (st1 := mkHost _ _).
    destruct (Hg v (len (heap (eng st)) + 1) st1)
      as [pv [st2 [Hrun [Hdec [hs2 Hheap2]]]]].
    { rewrite Helems. apply in_or_app. right. now left. }
    { unfold valid, st1, len. cbn [eng heap]. rewrite length_app. simpl. lia. }
    { apply (deref_middle _ (heap (eng st)) [] v). reflexivity. }
    rewrite bind_assoc, (bind_Ok R _ _ _ _ _ Hrun), bind_ret.
    assert (Hext : heap (eng st2) = (heap (eng st) ++ v :: hs2)%list).
    { rewrite Hheap2. unfold st1. cbn [eng heap]. now rewrite <- app_assoc. }
    destruct (IH (done ++ [v])%list (acc ++ [pv])%list st2)
      as [pvs [st' [Hloop [Hall [hs Hheap]]]]].
    { rewrite Helems, <- app_assoc. reflexivity. }
    { eapply valid_extends; eauto. }
    { rewrite (deref_extends _ _ _ _ Hext Hvalid). exact Hderef. }
    exists (pv :: pvs), st'.
    replace (len done + 1) with (len (done ++ [v]))
      by (unfold len; rewrite length_app; simpl; lia).
    rewrite Hloop. rewrite <- app_assoc. simpl.
    repeat split; auto.
    exists (v :: hs2 ++ hs)%list. rewrite Hheap, Hext, <- app_assoc.
    reflexivity.
Qed.

(** Decoding a well-formed engine value returns, given the depth of the
    value as fuel, the host value it stands for. *)
Lemma decode_reference (fuel : nat) :
  forall (v : MvValue) (p : ptr) (st : HostState R),
  (mv_depth v < fuel)%nat -> wf_value v = true ->
  valid (eng st) p -> deref (eng st) p = v ->
  exists pv st',
    value_from_metview R fuel p st = (Ok pv, st') /\ decoded v pv /\
    exists hs, heap (eng st') = (heap (eng st) ++ hs)%list.
Proof.
  induction fuel as [|fuel IH]; intros v p st Hd Hwf Hvalid Hderef; [lia|].
  change (value_from_metview R (S fuel))
    with (value_from_metview_body R (value_from_metview R fuel)).
  unfold value_from_metview_body. rewrite bind_call.
  cbn [eng_call reference machine_call fst snd eng].
  rewrite Hderef.
  assert (Hfile : forall path,
            data_path v = path -> text path = true ->
            forall st0, eng st0 = eng st ->
            exists f st',
              FileBackedValue_init R p st0 = (Ok f, st') /\
              path = Some (url f) /\ eng st' = eng st).
  { intros path Hpath Htext st0 Heng. unfold FileBackedValue_init.
    rewrite bind_call. cbn [eng_call reference machine_call fst snd eng].
    rewrite Heng, Hderef, Hpath.
    destruct path as [b|]; [|discriminate]. simpl in Htext.
    rewrite (bind_Ok R _ _ _ _ _ (string_from_ffi_text b _ Htext)).
    eexists. eexists. split; [reflexivity|]. simpl. auto. }
  destruct v; simpl in Hwf; try discriminate; cbn [tag_of]; eval_tags.
  - rewrite bind_call. cbn [eng_call reference machine_call fst snd eng].
    rewrite Hderef. eexists. eexists. split; [reflexivity|].
    simpl. split; auto. exists []. now rewrite app_nil_r.
  - rewrite bind_call. cbn [eng_call reference machine_call fst snd eng].
    rewrite Hderef.
    rewrite (bind_Ok R _ _ _ _ _ (string_from_ffi_text s _ Hwf)).
    eexists. eexists. split; [reflexivity|].
    simpl. split; auto. exists []. now rewrite app_nil_r.
  - match goal with |- context [bind R (FileBackedValue_init R p) _ ?s] =>
      destruct (Hfile path eq_refl Hwf s eq_refl) as [f [st' [Hrun [Hp He]]]]
    end.
    rewrite (bind_Ok R _ _ _ _ _ Hrun). exists (PyFieldset f), st'.
    split; [reflexivity|]. split; [exact Hp|].
    exists []. now rewrite He, app_nil_r.
  - rewrite bind_call. cbn [eng_call reference machine_call fst snd eng].
    rewrite Hderef.
    apply andb_prop in Hwf as Hwf'. destruct Hwf' as [Hvb _].
    destruct verb0 as [vb|]; [|discriminate].
    match goal with |- context [bind R (Request_init R _) _ ?s] =>
      destruct (Request_init_reference p vb params s Hwf Hderef)
        as [st' [Hrun He]]
    end.
    rewrite (bind_Ok R _ _ _ _ _ Hrun). eexists. exists st'.
    split; [reflexivity|]. split.
    + simpl. repeat split. discriminate.
    + exists []. now rewrite He, app_nil_r.
  - match goal with |- context [bind R (FileBackedValue_init R p) _ ?s] =>
      destruct (Hfile path eq_refl Hwf s eq_refl) as [f [st' [Hrun [Hp He]]]]
    end.
    rewrite (bind_Ok R _ _ _ _ _ Hrun). exists (PyBufr f), st'.
    split; [reflexivity|]. split; [exact Hp|].
    exists []. now rewrite He, app_nil_r.
  - match goal with |- context [bind R (FileBackedValue_init R p) _ ?s] =>
      destruct (Hfile path eq_refl Hwf s eq_refl) as [f [st' [Hrun [Hp He]]]]
    end.
    rewrite (bind_Ok R _ _ _ _ _ Hrun). exists (PyGeopoints f), st'.
    split; [reflexivity|]. split; [exact Hp|].
    exists []. now rewrite He, app_nil_r.
  - rewrite bind_call. cbn [eng_call reference machine_call fst snd eng].
    rewrite Hderef. unfold list_from_metview_body.
    rewrite !bind_assoc, bind_call.
    cbn [eng_call reference machine_call fst snd eng].
    rewrite Hderef.
    replace (Z.to_nat (len elems)) with (List.length elems)
      by (unfold len; lia).
    rewrite forallb_forall in Hwf.
    match goal with |- context [bind R (for_range R _ _ _ _) _ ?s] =>
      destruct (list_loop_reference (value_from_metview R fuel) p elems)
        with (rest := elems) (done := @nil MvValue) (acc := @nil PyVal)
             (st := s)
        as [pvs [st' [Hloop [Hall [hs Hheap]]]]]
    end; auto.
    { intros v q st0 Hin Hq Hdq. apply IH; auto.
      apply mv_depth_In in Hin. simpl in Hd. lia. }
    change (len (@nil MvValue)) with 0 in Hloop.
    rewrite (bind_Ok R _ _ _ _ _ Hloop). simpl app.
    exists (PyList pvs), st'. split; [reflexivity|].
    split; [now apply decoded_list|]. exists hs. exact Hheap.
  - match goal with |- context [bind R (FileBackedValue_init R p) _ ?s] =>
      destruct (Hfile path eq_refl Hwf s eq_refl) as [f [st' [Hrun [Hp He]]]]
    end.
    rewrite (bind_Ok R _ _ _ _ _ Hrun). exists (PyNetCDF f), st'.
    split; [reflexivity|]. split; [exact Hp|].
    exists []. now rewrite He, app_nil_r.
  - eexists. eexists. split; [reflexivity|]. simpl. split; auto.
    exists []. now rewrite app_nil_r.
Qed.

End ReferenceDecoder.

(** ** Plain values through the engine and back *)








(** ** The tag dispatch *)

Lemma bind_inv_Ok (E : Engine) {A B : Type} (m : M E A) (k : A -> M E B)
  (st st' : HostState E) (b : B) :
  bind E m k st = (Ok b, st') ->
  exists a st1, m st = (Ok a, st1) /\ k a st1 = (Ok b, st').
Proof.
  unfold bind. destruct (m st) as [[a| |] st1]; try discriminate. eauto.
Qed.

Ltac bind_inv H :=
  repeat (apply bind_inv_Ok in H; destruct H as [? [? [_ H]]]);
  first [discriminate H | unfold ret in H; injection H as <- _].

Ltac tag_case H rt k :=
  let Heq := fresh "Heq" in
  let Hne := fresh "Hne" in
  destruct (Z.eqb_spec rt k) as [Heq|Hne];
  [ subst rt; cbv iota in H; bind_inv H; (split; [lia|reflexivity])
  | cbv iota in H |- * ].

(** A value that decoding returns has the class of its tag, and the tag is
    one of 0 to 8. *)
Lemma decoded_kind (E : Engine) (fuel : nat) (val : ptr) (st st' : HostState E)
  (pv : PyVal) :
  value_from_metview E (S fuel) val st = (Ok pv, st') ->
  let rt := fst (eng_call E Z (p_value_type val) (eng st)) in
  0 <= rt <= 8 /\ py_type pv = host_kind rt.
Proof.
  change (value_from_metview E (S fuel))
    with (value_from_metview_body E (value_from_metview E fuel)).
  unfold value_from_metview_body. rewrite bind_call.
  intros H. cbv zeta.
  set (rt := fst (eng_call E Z (p_value_type val) (eng st))) in *.
  clearbody rt. unfold host_kind.
  tag_case H rt 0. tag_case H rt 1. tag_case H rt 2. tag_case H rt 3.
  tag_case H rt 4. tag_case H rt 5. tag_case H rt 6. tag_case H rt 7.
  tag_case H rt 8. tag_case H rt 9.
  discriminate H.
Qed.

(** Outside the fixed tag set decoding raises, having asked the engine for
    the tag only. *)
Lemma unhandled_tag (E : Engine) (fuel : nat) (val : ptr) (st : HostState E) :
  let rt := fst (eng_call E Z (p_value_type val) (eng st)) in
  ~ 0 <= rt <= 9 ->
  value_from_metview E (S fuel) val st =
  (Raise (Exception "value_from_metview got an unhandled return type"),
   mkHost (log st ++ [Ev (p_value_type val) rt])
          (snd (eng_call E Z (p_value_type val) (eng st)))).
Proof.
  intros rt Hrt.
  change (value_from_metview E (S fuel))
    with (value_from_metview_body E (value_from_metview E fuel)).
  unfold value_from_metview_body. rewrite bind_call. fold rt.
  repeat match goal with
  | |- context [Z.eqb rt ?k] =>
    replace (Z.eqb rt k) with false by (symmetry; apply Z.eqb_neq; lia)
  end.
  reflexivity.
Qed.

(** With the error tag decoding raises. *)
Lemma error_tag (E : Engine) (fuel : nat) (val : ptr) (st : HostState E) :
  fst (eng_call E Z (p_value_type val) (eng st)) = 9 ->
  exists e, fst (value_from_metview E (S fuel) val st) = Raise e.
Proof.
  intros Htag.
  change (value_from_metview E (S fuel))
    with (value_from_metview_body E (value_from_metview E fuel)).
  unfold value_from_metview_body.
  rewrite bind_call, Htag. eval_tags.
  rewrite bind_call. cbn [eng].
  destruct (fst (eng_call E cstr (p_error_message val) _)) as [m|].
  - unfold string_from_ffi, bind, lift, bytes_decode, raise.
    destruct (utf8_wf (byte_values m)); simpl; eauto.
  - unfold bind, raise. simpl. eauto.
Qed.

(** A list with an element of an unknown tag does not decode. *)
Example malformed_list_fails :
  fst (value_from_metview (reference no_functions) 3 1
         (@mkHost (reference no_functions) []
            (mkMachine [MvList [MvNumber one; MvOther 42; MvNumber two]]
               [] MvNil))) =
  Raise (Exception "value_from_metview got an unhandled return type").
Proof. reflexivity. Qed.

(** C7: decoding dispatches on the fixed tag set.  A value that decoding
    returns has the class of its tag, which is one of number, string,
    fieldset, request, bufr, geopoints, list, netcdf and none; with the error
    tag decoding raises; with a tag outside the set decoding raises the
    unhandled-return-type error and returns nothing; and on the reference
    engine every well-formed value of the fixed kinds decodes, with its depth
    as fuel, to the host value it stands for. *)
Theorem C7_decoder_total_on_tags :
  (forall (E : Engine) (fuel : nat) (val : ptr) (st : HostState E),
     let rt := fst (eng_call E Z (p_value_type val) (eng st)) in
     (forall pv st',
        value_from_metview E (S fuel) val st = (Ok pv, st') ->
        0 <= rt <= 8 /\ py_type pv = host_kind rt) /\
     (rt = 9 ->
      exists e, fst (value_from_metview E (S fuel) val st) = Raise e) /\
     (~ 0 <= rt <= 9 ->
      value_from_metview E (S fuel) val st =
      (Raise (Exception "value_from_metview got an unhandled return type"),
       mkHost (log st ++ [Ev (p_value_type val) rt])
              (snd (eng_call E Z (p_value_type val) (eng st)))))) /\
  (forall (functions : bytes -> list MvValue -> MvValue) (v : MvValue)
     (p : ptr) (st : HostState (reference functions)),
     wf_value v = true ->
     valid (eng st) p ->
     deref (eng st) p = v ->
     exists pv st',
       value_from_metview (reference functions) (S (mv_depth v)) p st =
       (Ok pv, st') /\
       decoded v pv).
Proof.
  split.
  - intros E fuel val st rt. split; [|split].
    + intros pv st' H. exact (decoded_kind E fuel val st st' pv H).
    + intros H. now apply error_tag.
    + intros H. now apply unhandled_tag.
  - intros functions v p st Hwf Hvalid Hderef.
    destruct (decode_reference functions (S (mv_depth v)) v p st)
      as [pv [st' [Hrun [Hdec _]]]]; auto.
    exists pv, st'. auto.
Qed.

Lemma C7_decoder_total_on_tags_witness :
  let E := reference no_functions in
  let v := MvList [MvNumber one; MvString "t";
                   MvRequest (Some "RETRIEVE") [("PARAM", MvString "t")];
                   MvGeopoints (Some "/tmp/a.gpt"); MvNil] in
  (exists pv st',
     value_from_metview E 2 1 (@mkHost E [] (mkMachine [v] [] MvNil)) =
     (Ok pv, st') /\ decoded v pv) /\
  value_from_metview E 1 1 (@mkHost E [] (mkMachine [MvOther 42] [] MvNil)) =
  (Raise (Exception "value_from_metview got an unhandled return type"),
   @mkHost E [Ev (p_value_type 1) 42] (mkMachine [MvOther 42] [] MvNil)).
Proof.
  intros E v. split.
  - apply (proj2 C7_decoder_total_on_tags no_functions v 1
             (@mkHost E [] (mkMachine [v] [] MvNil))).
    + reflexivity.
    + unfold valid, len. simpl. lia.
    + reflexivity.
  - apply (proj2 (proj2 (proj1 C7_decoder_total_on_tags E O 1
             (@mkHost E [] (mkMachine [MvOther 42] [] MvNil))))).
    simpl. lia.
Defined.

(** * Further properties *)

(** ** The mapping of a Request *)

Lemma dict_set_keys_In {V : Type} (k k' : string) (v : V)
  (d : list (string * V)) :
  In k' (map fst (dict_set k v d)) <-> k' = k \/ In k' (map fst d).
Proof.
  induction d as [|[k0 v0] d IH]; simpl.
  - intuition.
  - destruct (String.eqb_spec k k0) as [->|Hne]; simpl.
    + intuition.
    + rewrite IH. intuition.
Qed.

Lemma dict_set_distinct {V : Type} (k : string) (v : V)
  (d : list (string * V)) :
  NoDup (map fst d) -> NoDup (map fst (dict_set k v d)).
Proof.
  induction d as [|[k0 v0] d IH]; simpl; intros H.
  - repeat constructor. simpl. tauto.
  - inversion_clear H as [|? ? Hk Hd].
    destruct (String.eqb_spec k k0) as [->|Hne]; simpl.
    + now constructor.
    + constructor; auto. rewrite dict_set_keys_In. intuition.
Qed.

Lemma dict_update_keeps_distinct {V : Type} (src d : list (string * V)) :
  NoDup (map fst d) -> NoDup (map fst (dict_update d src)).
Proof.
  unfold dict_update. revert d.
  induction src as [|[k v] src IH]; simpl; intros d H; auto.
  apply IH. now apply dict_set_distinct.
Qed.

Lemma to_metview_style_keeps_distinct (d : dict) :
  NoDup (map fst d) -> NoDup (map fst (to_metview_style d)).
Proof.
  unfold to_metview_style. generalize d at 2 as src.
  intros src. revert d.
  induction src as [|[k v] src IH]; simpl; intros d H; auto.
  apply IH. destruct v; auto. now apply dict_set_distinct.
Qed.

Lemma pulled_keeps_distinct (vals : list (bytes * cstr)) :
  forall self : dict,
  NoDup (map fst self) -> NoDup (map fst (pulled vals self)).
Proof.
  induction vals as [|[p [raw|]] vals IH]; simpl; intros self H; auto.
  apply IH. unfold pull. simpl. now apply dict_set_distinct.
Qed.

(** What building a Request from a handle returns, when it returns. *)
Lemma Request_init_handle_Ok (E : Engine) (req : ptr) (r : Request)
  (st st' : HostState E) :
  Request_init E (SrcHandle req) st = (Ok r, st') ->
  val_pointer r = Some req /\
  fst (eng_call E cstr (p_get_req_verb req) (eng st)) = Some (verb r) /\
  exists evs,
    log st' = (log st ++ evs)%list /\
    items r = pulled (values_reported req evs) [].
Proof.
  simpl. rewrite bind_call.
  set (c := fst (eng_call E cstr (p_get_req_verb req) (eng st))).
  set (st1 := mkHost _ _).
  destruct (string_from_ffi E c st1) as [[vb| |] st2] eqn:Hc;
    [ rewrite (bind_Ok E _ _ _ _ _ Hc)
    | rewrite (bind_Raise E _ _ _ _ _ Hc); discriminate
    | rewrite (bind_OutOfFuel E _ _ _ _ Hc); discriminate ].
  apply string_from_ffi_Ok in Hc as [Hc ->].
  rewrite bind_call.
  set (n := fst (eng_call E Z (p_get_req_num_params req) (eng st1))).
  set (st3 := mkHost _ _).
  destruct (for_range E (Z.to_nat n) 0 (pull_param E req) [] st3)
    as [[d| |] st4] eqn:Hloop;
    [ rewrite (bind_Ok E _ _ _ _ _ Hloop)
    | rewrite (bind_Raise E _ _ _ _ _ Hloop); discriminate
    | rewrite (bind_OutOfFuel E _ _ _ _ Hloop); discriminate ].
  unfold ret. intros [= <- <-].
  apply pull_loop_Ok in Hloop as [evs [Hlog [_ [_ ->]]]].
  cbn [verb val_pointer items]. repeat split; auto.
  exists ([Ev (p_get_req_verb req) c;
           Ev (p_get_req_num_params req) n] ++ evs)%list.
  split.
  - rewrite Hlog. unfold st3, st1. cbn [log]. rewrite <- !app_assoc.
    reflexivity.
  - unfold values_reported. rewrite flat_map_app. reflexivity.
Qed.

(** X1: whatever a Request is built from (a dict, another Request, an
    engine handle), the keys of its mapping are distinct: the entries kept
    in insertion order are those of a dict. *)
Theorem X1_request_keys_distinct (E : Engine) (req : RequestSource)
  (r : Request) (st st' : HostState E) :
  Request_init E req st = (Ok r, st') ->
  NoDup (map fst (items r)).
Proof.
  destruct req as [d|r0|p].
  - simpl. unfold ret. intros [= <- _]. simpl.
    apply to_metview_style_keeps_distinct, dict_update_keeps_distinct.
    constructor.
  - simpl. unfold ret. intros [= <- _]. simpl.
    apply to_metview_style_keeps_distinct, dict_update_keeps_distinct.
    constructor.
  - intros H. apply Request_init_handle_Ok in H as [_ [_ [evs [_ ->]]]].
    apply pulled_keeps_distinct. constructor.
Qed.


Lemma metview_item_keys (d : dict) : map fst (map metview_item d) = map fst d.
Proof. rewrite map_map. reflexivity. Qed.



(** X2: a Request built from a mapping with distinct keys is built without
    any foreign call; it retains no handle, its verb is "UNKNOWN" or the
    verb of the Request it is built from, its keys are the keys of the
    mapping in the same order, and every value that is not a bool is kept
    as it is (a list of bools included). *)
Theorem X2_request_from_mapping (E : Engine) (src : RequestSource) (d : dict)
  (st : HostState E) :
  mapping_of src = Some d ->
  NoDup (map fst d) ->
  exists r : Request,
    Request_init E src st = (Ok r, st) /\
    val_pointer r = None /\
    verb r = match src with SrcRequest r0 => verb r0 | _ => "UNKNOWN" end /\
    map fst (items r) = map fst d /\
    (forall k v, In (k, v) d -> (forall b, v <> PyBool b) ->
       dict_get k (items r) = Some v).
Proof.
  intros Hsrc Hnd.
  assert (Hitems : to_metview_style (dict_update [] d) = map metview_item d).
  { rewrite dict_update_distinct by exact Hnd. simpl.
    now apply to_metview_style_distinct. }
  assert (Hvals : forall k v, In (k, v) d -> (forall b, v <> PyBool b) ->
                    dict_get k (map metview_item d) = Some v).
  { intros k v Hin Hb. apply dict_get_In.
    - now rewrite metview_item_keys.
    - apply (in_map metview_item) in Hin. unfold metview_item in Hin at 1.
      simpl in Hin. destruct v; auto. now destruct (Hb b). }
  destruct src as [d0|r0|p]; simpl in Hsrc; try discriminate;
    injection Hsrc as <-; eexists; (split; [reflexivity|]); simpl;
    rewrite Hitems, metview_item_keys; auto.
Qed.

Lemma X2_request_from_mapping_witness :
  exists r : Request,
    Request_init (reference no_functions)
      (SrcDict [("a", PyInt 1); ("b", PyList [PyBool true])])
      (start no_functions) = (Ok r, start no_functions) /\
    verb r = "UNKNOWN" /\
    dict_get "b" (items r) = Some (PyList [PyBool true]).
Proof.
  destruct (X2_request_from_mapping (reference no_functions)
              (SrcDict [("a", PyInt 1); ("b", PyList [PyBool true])])
              [("a", PyInt 1); ("b", PyList [PyBool true])]
              (start no_functions) eq_refl) as [r [Hr [_ [Hv [_ Hget]]]]].
  - simpl. repeat constructor; simpl; intuition discriminate.
  - exists r. split; [exact Hr|]. split; [exact Hv|].
    apply Hget; [simpl; auto|discriminate].
Defined.



Lemma X1_request_keys_distinct_witness :
  NoDup (map fst (items (mkRequest "UNKNOWN" None
                           [("a", PyStr "off"); ("b", PyInt 2)]))).
Proof.
  apply (X1_request_keys_distinct (reference no_functions)
           (SrcDict [("a", PyBool true); ("b", PyInt 2); ("a", PyBool false)])
           _ (start no_functions) (start no_functions)).
  reflexivity.
Defined.

(** ** What the encoder and the decoder call *)

Section Emits.

Variable E : Engine.
Variable P : Event -> bool.

Lemma emits_ret {A : Type} (a : A) : emits E P (ret E a).
Proof. intros st. exists []. simpl. now rewrite app_nil_r. Qed.

Lemma emits_lift {A : Type} (o : Outcome A) : emits E P (lift E o).
Proof. intros st. exists []. simpl. now rewrite app_nil_r. Qed.

Lemma emits_raise {A : Type} (e : PyExn) : emits E P (@raise E A e).
Proof. intros st. exists []. simpl. now rewrite app_nil_r. Qed.

Lemma emits_out_of_fuel {A : Type} : emits E P (@out_of_fuel E A).
Proof. intros st. exists []. simpl. now rewrite app_nil_r. Qed.

Lemma emits_call {R : Type} (c : ffi R) :
  (forall r, P (Ev c r) = true) -> emits E P (call E c).
Proof.
  intros H st. rewrite call_run. simpl. eexists. split; [reflexivity|].
  simpl. now rewrite H.
Qed.

Lemma emits_bind {A B : Type} (m : M E A) (k : A -> M E B) :
  emits E P m -> (forall a, emits E P (k a)) -> emits E P (bind E m k).
Proof.
  intros Hm Hk st. unfold bind. destruct (Hm st) as [evs [Hevs HP]].
  destruct (m st) as [[a| |] st1]; simpl in *; eauto.
  destruct (Hk a st1) as [evs' [Hevs' HP']]. exists (evs ++ evs')%list.
  split; [now rewrite Hevs', Hevs, app_assoc|].
  rewrite forallb_app. now rewrite HP, HP'.
Qed.

Lemma emits_for_each {A : Type} (l : list A) (body : A -> M E unit) :
  (forall x, emits E P (body x)) -> emits E P (for_each E l body).
Proof.
  intros H. induction l as [|x l IH]; simpl.
  - apply emits_ret.
  - apply emits_bind; auto.
Qed.

Lemma emits_for_enumerate {A : Type} (l : list A)
  (body : Z -> A -> M E unit) :
  (forall i x, emits E P (body i x)) ->
  forall i, emits E P (for_enumerate E i l body).
Proof.
  intros H. induction l as [|x l IH]; simpl; intros i.
  - apply emits_ret.
  - apply emits_bind; auto.
Qed.

Lemma emits_for_acc {A S : Type} (l : list A) (body : A -> S -> M E S) :
  (forall x acc, emits E P (body x acc)) ->
  forall acc, emits E P (for_acc E l body acc).
Proof.
  intros H. induction l as [|x l IH]; simpl; intros acc.
  - apply emits_ret.
  - apply emits_bind; auto.
Qed.

Lemma emits_for_range {S : Type} (body : Z -> S -> M E S) (count : nat) :
  (forall i acc, emits E P (body i acc)) ->
  forall i acc, emits E P (for_range E count i body acc).
Proof.
  intros H. induction count as [|count IH]; simpl; intros i acc.
  - apply emits_ret.
  - apply emits_bind; auto.
Qed.

Lemma emits_string_from_ffi (s : cstr) : emits E P (string_from_ffi E s).
Proof. destruct s; [apply emits_lift | apply emits_raise]. Qed.

End Emits.

Ltac emits_step :=
  first
    [ apply emits_ret | apply emits_raise | apply emits_lift
    | apply emits_out_of_fuel | apply emits_string_from_ffi
    | apply emits_call; intros; reflexivity
    | apply emits_bind; [|intros ?] ].

Lemma emits_push_arg_rec (E : Engine) (fuel : nat) :
  forall n name, emits E encoder_call (push_arg_rec E fuel n name).
Proof.
  induction fuel as [|fuel IH]; intros n name; simpl.
  - apply emits_out_of_fuel.
  - unfold push_arg_body.
    assert (Hreq : forall r : Request,
              emits E encoder_call
                (Request_push_body E (push_arg_rec E fuel) r)).
    { intros r. unfold Request_push_body.
      destruct (truthy (val_pointer r)).
      - destruct (val_pointer r); emits_step.
      - repeat emits_step. apply emits_for_each. intros kv.
        emits_step; [apply IH|emits_step]. }
    assert (Hlist : forall l : list PyVal,
              emits E encoder_call (push_list_body E (push_arg_rec E fuel) l)).
    { intros l. unfold push_list_body. repeat emits_step.
      apply emits_for_enumerate. intros i v.
      emits_step; [apply IH|emits_step]. }
    apply emits_bind; [|intros; apply emits_ret].
    destruct n; auto; try (unfold push_str, push_bytes); repeat emits_step.
    apply Hreq.
Qed.

(** X4: encoding an argument only ever makes calls that build the argument
    stack (pushes, allocation and filling of engine-side requests and
    lists): it never invokes an engine function, fetches a result or
    inspects an engine value, whether it returns or raises. *)
Theorem X4_encoder_only_pushes (E : Engine) (n : PyVal) (name : string)
  (st : HostState E) :
  exists evs,
    log (snd (push_arg E n name st)) = (log st ++ evs)%list /\
    forallb encoder_call evs = true.
Proof. apply (emits_push_arg_rec E (S (depth n)) n name st). Qed.

Lemma emits_pull_param (E : Engine) (req : ptr) (i : Z) (self : dict) :
  emits E decoder_call (pull_param E req i self).
Proof.
  unfold pull_param. repeat emits_step. destruct a1; repeat emits_step.
Qed.

Lemma emits_Request_init_handle (E : Engine) (req : ptr) :
  emits E decoder_call (Request_init E (SrcHandle req)).
Proof.
  simpl. repeat emits_step.
  apply emits_for_range. intros i acc. apply emits_pull_param.
Qed.

Lemma emits_FileBackedValue_init (E : Engine) (val : ptr) :
  emits E decoder_call (FileBackedValue_init E val).
Proof. unfold FileBackedValue_init. repeat emits_step. Qed.

Lemma emits_value_from_metview (E : Engine) (fuel : nat) :
  forall val, emits E decoder_call (value_from_metview E fuel val).
Proof.
  induction fuel as [|fuel IH]; intros val.
  - apply emits_out_of_fuel.
  - change (value_from_metview E (S fuel))
      with (value_from_metview_body E (value_from_metview E fuel)).
    unfold value_from_metview_body.
    emits_step; [emits_step|].
    repeat match goal with
    | |- emits _ _ (if ?b then _ else _) => destruct b
    end;
      repeat emits_step;
      try apply emits_FileBackedValue_init;
      try (apply emits_for_range; intros i acc;
           first [apply emits_pull_param | repeat emits_step; apply IH]).
Qed.

(** X5: decoding a result only ever inspects engine values (type tag,
    number, string, request, list, error message, data path): it never
    pushes, allocates or invokes anything, whatever the fuel and whether it
    returns or raises. *)
Theorem X5_decoder_only_inspects (E : Engine) (fuel : nat) (val : ptr)
  (st : HostState E) :
  exists evs,
    log (snd (value_from_metview E fuel val st)) = (log st ++ evs)%list /\
    forallb decoder_call evs = true.
Proof. apply (emits_value_from_metview E fuel val st). Qed.

(** ** The named call, whatever its arguments *)

Lemma dict_set_keys_same {V : Type} (k : string) (v : V)
  (d : list (string * V)) :
  In k (map fst d) -> map fst (dict_set k v d) = map fst d.
Proof.
  induction d as [|[k0 v0] d IH]; simpl; [tauto|].
  destruct (String.eqb_spec k k0) as [->|Hne]; simpl; [reflexivity|].
  intros [H|H]; [congruence|]. now rewrite IH.
Qed.

Lemma to_metview_style_keys (d : dict) :
  map fst (to_metview_style d) = map fst d.
Proof.
  unfold to_metview_style.
  enough (H : forall src acc,
             (forall kv, In kv src -> In (fst kv) (map fst acc)) ->
             map fst
               (fold_left
                  (fun d kv =>
                     match snd kv with
                     | PyBool v =>
                       dict_set (fst kv) (PyStr (conversion_dict v)) d
                     | _ => d
                     end) src acc) = map fst acc).
  { apply H. intros kv Hin. now apply in_map. }
  induction src as [|[k v] src IH]; simpl; intros acc Hacc; auto.
  assert (Hk : In k (map fst acc)) by (apply (Hacc (k, v)); now left).
  rewrite IH.
  - destruct v; auto. now apply dict_set_keys_same.
  - intros kv Hin. specialize (Hacc kv (or_intror Hin)).
    destruct v; auto. now rewrite dict_set_keys_same.
Qed.

Lemma kwargs_request_length (kwargs : dict) :
  len (to_metview_style (dict_update [] (dict_update [] kwargs))) =
  len (dict_update [] kwargs).
Proof.
  unfold len. f_equal.
  rewrite <- (length_map fst), to_metview_style_keys, length_map.
  rewrite (dict_update_distinct (dict_update [] kwargs) []); [reflexivity|].
  simpl. apply dict_update_keeps_distinct. constructor.
Qed.

Section CallEvents.

Variable E : Engine.

Lemma finishes_for_acc {A S : Type} (l : list A) (body : A -> S -> M E S) :
  (forall x acc, finishes E (body x acc)) ->
  forall acc, finishes E (for_acc E l body acc).
Proof.
  intros H. induction l as [|x l IH]; simpl; intros acc.
  - apply finishes_ret.
  - apply finishes_bind; auto.
Qed.

Lemma emits_push_arg (n : PyVal) (name : string) :
  emits E encoder_call (push_arg E n name).
Proof. apply emits_push_arg_rec. Qed.

Lemma emits_args_loop (name : string) (args : list PyVal) (nargs : Z) :
  emits E encoder_call
    (for_acc E args
       (fun n nargs =>
          bind E (push_arg E n name) (fun a => ret E (nargs + a)))
       nargs).
Proof.
  apply emits_for_acc. intros n acc.
  apply emits_bind; [apply emits_push_arg|intros; apply emits_ret].
Qed.

Lemma finishes_args_loop (name : string) (args : list PyVal) (nargs : Z) :
  finishes E
    (for_acc E args
       (fun n nargs =>
          bind E (push_arg E n name) (fun a => ret E (nargs + a)))
       nargs).
Proof.
  apply finishes_for_acc. intros n acc.
  apply finishes_bind; [apply push_arg_finishes|intros; apply finishes_ret].
Qed.

Lemma emits_dict_to_pushed_args (d : Request) :
  emits E encoder_call (dict_to_pushed_args E d).
Proof.
  unfold dict_to_pushed_args.
  apply emits_bind; [|intros; apply emits_ret].
  apply emits_for_each. intros kv. unfold push_str, push_bytes.
  apply emits_bind; [apply emits_call; reflexivity|intros _].
  apply emits_bind; [apply emits_push_arg|intros; apply emits_ret].
Qed.

Lemma finishes_dict_to_pushed_args (d : Request) :
  finishes E (dict_to_pushed_args E d).
Proof.
  unfold dict_to_pushed_args.
  apply finishes_bind; [|intros; apply finishes_ret].
  apply finishes_for_each. intros kv _. unfold push_str, push_bytes.
  apply finishes_bind; [apply finishes_call|intros _].
  apply finishes_bind; [apply push_arg_finishes|intros; apply finishes_ret].
Qed.

End CallEvents.

(** X6: in a named call the engine function is invoked at most once, as
    the very last foreign call, after calls that only build the argument
    stack, and with the argument count [len(args)] plus twice the number of
    keyword arguments; when encoding an argument raises, the function is not
    invoked at all. *)
Theorem X6_function_invoked_once_last (E : Engine) (name : string)
  (args : list PyVal) (kwargs : dict) (st : HostState E) :
  let run := _call_function E name args kwargs st in
  let count := len args + 2 * len (dict_update [] kwargs) in
  exists evs,
    forallb encoder_call evs = true /\
    ((fst run = Ok tt /\
      log (snd run) =
        (log st ++ evs ++
         [Ev (p_call_function (str_encode name) count) tt])%list) \/
     ((exists e, fst run = Raise e) /\
      log (snd run) = (log st ++ evs)%list)).
Proof.
  cbv zeta. unfold _call_function.
  destruct (dict_get "name" kwargs) as [v|].
  { exists []. split; [reflexivity|]. right. simpl. split; [eauto|].
    now rewrite app_nil_r. }
  set (loop := for_acc E args _ 0).
  destruct (emits_args_loop E name args 0 st) as [evs1 [Hevs1 HP1]].
  fold loop in Hevs1.
  pose proof (finishes_args_loop E name args 0 st) as Hfin1.
  fold loop in Hfin1.
  destruct (loop st) as [[nargs| |] st1] eqn:Hloop;
    [ rewrite (bind_Ok E _ _ _ _ _ Hloop)
    | rewrite (bind_Raise E _ _ _ _ _ Hloop)
    | now destruct Hfin1 ]; simpl in Hevs1.
  2: { exists evs1. split; [exact HP1|]. right. simpl. eauto. }
  apply args_loop_count in Hloop. rewrite Z.add_0_l in Hloop. subst nargs.
  destruct (len (dict_update [] kwargs) >? 0) eqn:Hpos.
  - rewrite !bind_assoc. simpl Request_init. rewrite bind_ret.
    set (r := mkRequest "UNKNOWN" None _).
    destruct (emits_dict_to_pushed_args E r st1) as [evs2 [Hevs2 HP2]].
    pose proof (finishes_dict_to_pushed_args E r st1) as Hfin2.
    rewrite bind_assoc.
    destruct (dict_to_pushed_args E r st1) as [[dn| |] st2] eqn:Hdn;
      [ rewrite (bind_Ok E _ _ _ _ _ Hdn)
      | rewrite (bind_Raise E _ _ _ _ _ Hdn)
      | now destruct Hfin2 ]; simpl in Hevs2.
    + apply dict_to_pushed_args_count in Hdn.
      unfold r in Hdn. cbn [items] in Hdn.
      rewrite kwargs_request_length in Hdn. subst dn.
      rewrite bind_ret, call_run, unit_answer. simpl.
      exists (evs1 ++ evs2)%list. split.
      * rewrite forallb_app. now rewrite HP1, HP2.
      * left. split; [reflexivity|].
        rewrite Hevs2, Hevs1, <- !app_assoc. reflexivity.
    + exists (evs1 ++ evs2)%list. split.
      * rewrite forallb_app. now rewrite HP1, HP2.
      * right. simpl. split; [eauto|].
        rewrite Hevs2, Hevs1, <- !app_assoc. reflexivity.
  - rewrite bind_ret, call_run, unit_answer. simpl.
    assert (Hzero : len (dict_update [] kwargs) = 0).
    { rewrite Z.gtb_ltb in Hpos. apply Z.ltb_ge in Hpos.
      unfold len in *. lia. }
    rewrite Hzero, Z.add_0_r.
    exists evs1. split; [exact HP1|]. left. split; [reflexivity|].
    now rewrite Hevs1, <- app_assoc.
Qed.

(** ** Scalars, as positional and as keyword arguments *)

Section Scalars.

Variable E : Engine.

Lemma call_unit (c : ffi unit) (st : HostState E) :
  call E c st = (Ok tt, after c st).
Proof. rewrite call_run, unit_answer. reflexivity. Qed.

Lemma push_arg_float (x : pyfloat) (name : string) (st : HostState E) :
  push_arg E (PyFloat x) name st = (Ok 1, after (p_push_number x) st).
Proof.
  rewrite push_arg_eq. unfold push_arg_body.
  now rewrite (bind_Ok E _ _ _ _ _ (call_unit _ st)).
Qed.

Lemma push_arg_bool (b : bool) (name : string) (st : HostState E) :
  push_arg E (PyBool b) name st =
  (Ok 1, after (p_push_number (if b then one else zero)) st).
Proof.
  rewrite push_arg_eq. unfold push_arg_body.
  replace (float_of_int (Z.b2z b)) with (Ok (if b then one else zero))
    by (destruct b; vm_compute; reflexivity).
  rewrite bind_assoc, bind_lift_Ok.
  now rewrite (bind_Ok E _ _ _ _ _ (call_unit _ st)).
Qed.

Lemma push_arg_str (s : string) (name : string) (st : HostState E) :
  push_arg E (PyStr s) name st =
  (Ok 1, after (p_push_string (str_encode s)) st).
Proof.
  rewrite push_arg_eq. unfold push_arg_body, push_str, push_bytes.
  now rewrite (bind_Ok E _ _ _ _ _ (call_unit _ st)).
Qed.

End Scalars.

(** X7: a bool is sent differently as a positional and as a keyword
    argument: positionally it is pushed as the number 1.0 or 0.0, as a
    keyword argument (under any keyword but name, which cannot be bound) it
    is pushed, after its name, as the string "on" or "off"; the function is
    then invoked with 3 arguments. *)
Theorem X7_bool_positional_and_keyword (E : Engine) (name k : string)
  (b b' : bool) (st : HostState E) :
  k <> "name" ->
  _call_function E name [PyBool b] [(k, PyBool b')] st =
  (Ok tt,
   after (p_call_function (str_encode name) 3)
     (after (p_push_string (if b' then "on" else "off"))
        (after (p_push_string k)
           (after (p_push_number (if b then one else zero)) st)))).
Proof.
  intros Hk.
  assert (Hn : dict_get "name" [(k, PyBool b')] = None).
  { cbn [dict_get]. destruct (String.eqb_spec "name" k); congruence. }
  unfold _call_function. rewrite Hn. simpl for_acc.
  rewrite !bind_assoc, (bind_Ok E _ _ _ _ _ (push_arg_bool E b name st)).
  rewrite !bind_ret.
  change (dict_update [] [(k, PyBool b')]) with [(k, PyBool b')].
  change (len [(k, PyBool b')] >? 0) with true. cbv iota.
  rewrite !bind_assoc. simpl Request_init. rewrite bind_ret.
  change (dict_update [] [(k, PyBool b')]) with [(k, PyBool b')].
  unfold to_metview_style. simpl fold_left. rewrite String.eqb_refl.
  unfold dict_to_pushed_args. simpl for_each.
  unfold push_str, push_bytes.
  rewrite !bind_assoc, (bind_Ok E _ _ _ _ _ (call_unit E _ _)).
  rewrite !bind_assoc, (bind_Ok E _ _ _ _ _ (push_arg_str E _ _ _)).
  rewrite !bind_ret. simpl.
  rewrite call_unit. unfold conversion_dict, str_encode.
  reflexivity.
Qed.

Lemma X7_bool_positional_and_keyword_witness :
  log (snd (_call_function (reference no_functions) "retrieve"
              [PyBool true] [("interpolate", PyBool true)]
              (start no_functions)))
  = [Ev (p_push_number one) tt; Ev (p_push_string "interpolate") tt;
     Ev (p_push_string "on") tt; Ev (p_call_function "retrieve" 3) tt].
Proof.
  rewrite (X7_bool_positional_and_keyword (reference no_functions) "retrieve"
             "interpolate" true true (start no_functions));
    [reflexivity|discriminate].
Defined.

(** X8: an int is widened to a float before it is pushed: an int that
    fits a double is encoded by exactly the calls of its float, and an int
    too large for a double makes the encoder raise OverflowError without any
    foreign call. *)
Theorem X8_int_widened_or_overflow (E : Engine) (i : Z) (name : string)
  (st : HostState E) :
  (forall x, float_of_int i = Ok x ->
     push_arg E (PyInt i) name st = push_arg E (PyFloat x) name st) /\
  (forall e, float_of_int i = Raise e ->
     push_arg E (PyInt i) name st =
     (Raise (OverflowError "int too large to convert to float"), st)).
Proof.
  split.
  - intros x Hx. rewrite push_arg_float, push_arg_eq.
    unfold push_arg_body. rewrite Hx, bind_assoc, bind_lift_Ok.
    now rewrite (bind_Ok E _ _ _ _ _ (call_unit E _ st)).
  - intros e He. rewrite push_arg_eq. unfold push_arg_body.
    assert (H : float_of_int i =
                Raise (OverflowError "int too large to convert to float")).
    { unfold float_of_int in *.
      destruct (binary_normalize prec emax i 0 false); try discriminate.
      reflexivity. }
    rewrite H. reflexivity.
Qed.

Lemma X8_int_widened_or_overflow_witness :
  let E := reference no_functions in
  push_arg E (PyInt 3) "f" (start no_functions) =
    push_arg E (PyFloat (S754_finite false 6755399441055744 (-51))) "f"
      (start no_functions) /\
  push_arg E (PyInt (2 ^ 1024)) "f" (start no_functions) =
    (Raise (OverflowError "int too large to convert to float"),
     start no_functions).
Proof.
  intros E. split.
  - apply (proj1 (X8_int_widened_or_overflow E 3 "f" (start no_functions))).
    reflexivity.
  - apply (proj2 (X8_int_widened_or_overflow E (2 ^ 1024) "f"
                    (start no_functions))
             (OverflowError "int too large to convert to float")).
    reflexivity.
Defined.

(** ** The argument stack of the reference engine *)

Section Steps.

Variable E : Engine.
Variable Rel : eng_state E -> eng_state E -> Prop.
Hypothesis Rel_refl : forall e, Rel e e.
Hypothesis Rel_trans : forall e1 e2 e3, Rel e1 e2 -> Rel e2 e3 -> Rel e1 e3.

Lemma steps_ret {A : Type} (a : A) : steps E Rel (ret E a).
Proof. intros st. apply Rel_refl. Qed.

Lemma steps_lift {A : Type} (o : Outcome A) : steps E Rel (lift E o).
Proof. intros st. apply Rel_refl. Qed.

Lemma steps_raise {A : Type} (e : PyExn) : steps E Rel (@raise E A e).
Proof. intros st. apply Rel_refl. Qed.

Lemma steps_out_of_fuel {A : Type} : steps E Rel (@out_of_fuel E A).
Proof. intros st. apply Rel_refl. Qed.

Lemma steps_string_from_ffi (s : cstr) : steps E Rel (string_from_ffi E s).
Proof. destruct s; [apply steps_lift | apply steps_raise]. Qed.

Lemma steps_call {R : Type} (c : ffi R) :
  (forall e, Rel e (snd (eng_call E R c e))) -> steps E Rel (call E c).
Proof. intros H st. rewrite call_run. simpl. apply H. Qed.

Lemma steps_bind {A B : Type} (m : M E A) (k : A -> M E B) :
  steps E Rel m -> (forall a, steps E Rel (k a)) -> steps E Rel (bind E m k).
Proof.
  intros Hm Hk st. unfold bind. specialize (Hm st).
  destruct (m st) as [[a| |] st1]; simpl in *; auto.
  eapply Rel_trans; [exact Hm|apply Hk].
Qed.

Lemma steps_for_range {S : Type} (body : Z -> S -> M E S) (count : nat) :
  (forall i acc, steps E Rel (body i acc)) ->
  forall i acc, steps E Rel (for_range E count i body acc).
Proof.
  intros H. induction count as [|count IH]; simpl; intros i acc.
  - apply steps_ret.
  - apply steps_bind; auto.
Qed.

End Steps.

Lemma same_stack_refl (m : Machine) : same_stack m m.
Proof. split; reflexivity. Qed.

Lemma same_stack_trans (m1 m2 m3 : Machine) :
  same_stack m1 m2 -> same_stack m2 m3 -> same_stack m1 m3.
Proof. intros [H1 H2] [H3 H4]. split; congruence. Qed.

Section ReferenceStack.

Variable functions : bytes -> list MvValue -> MvValue.

#[local] Abbreviation R := (reference functions).

Ltac stack_step :=
  first
    [ apply (steps_ret R same_stack same_stack_refl)
    | apply (steps_raise R same_stack same_stack_refl)
    | apply (steps_lift R same_stack same_stack_refl)
    | apply (steps_out_of_fuel R same_stack same_stack_refl)
    | apply (steps_string_from_ffi R same_stack same_stack_refl)
    | apply (steps_call R same_stack); intros e; simpl;
      repeat match goal with
      | |- context [match deref ?m ?p with _ => _ end] => destruct (deref m p)
      end; unfold alloc; simpl; split; reflexivity
    | apply (steps_bind R same_stack same_stack_trans); [|intros ?] ].

Lemma stack_pull_param (req : ptr) (i : Z) (self : dict) :
  steps R same_stack (pull_param R req i self).
Proof.
  unfold pull_param. repeat stack_step. destruct a1; repeat stack_step.
Qed.

(** Decoding leaves the argument stack and the last result of the
    reference engine as they were. *)
Lemma stack_value_from_metview (fuel : nat) :
  forall val, steps R same_stack (value_from_metview R fuel val).
Proof.
  induction fuel as [|fuel IH]; intros val.
  - apply (steps_out_of_fuel R same_stack same_stack_refl).
  - change (value_from_metview R (S fuel))
      with (value_from_metview_body R (value_from_metview R fuel)).
    unfold value_from_metview_body.
    stack_step; [stack_step|].
    repeat match goal with
    | |- steps _ _ (if ?b then _ else _) => destruct b
    end;
      repeat stack_step;
      try (apply (steps_for_range R same_stack same_stack_refl
                    same_stack_trans);
           intros i acc;
           first [apply stack_pull_param | repeat stack_step; apply IH]).
Qed.

End ReferenceStack.

Section ReferenceFrames.

Variable functions : bytes -> list MvValue -> MvValue.

#[local] Abbreviation R := (reference functions).

Lemma store_stack (p : ptr) (v : MvValue) (m : Machine) :
  stack (store p v m) = stack m.
Proof. unfold store. now destruct (p <=? 0). Qed.

Lemma pop_stack (m : Machine) : stack (snd (pop m)) = tl (stack m).
Proof. unfold pop. destruct (stack m) eqn:H; simpl; [now rewrite H|reflexivity]. Qed.

Lemma set_from_pop_stack (r : ptr) (k : bytes) (m : Machine) :
  stack (snd (machine_call functions unit (p_set_request_value_from_pop r k) m))
  = tl (stack m).
Proof.
  simpl. rewrite <- pop_stack. destruct (pop m) as [v m']. simpl.
  destruct (deref m' r); simpl; try reflexivity. apply store_stack.
Qed.

Lemma add_from_pop_stack (l : ptr) (i : Z) (m : Machine) :
  stack (snd (machine_call functions unit (p_add_value_from_pop_to_list l i) m))
  = tl (stack m).
Proof.
  simpl. rewrite <- pop_stack. destruct (pop m) as [v m']. simpl.
  destruct (deref m' l); simpl; try reflexivity. apply store_stack.
Qed.

(** Pushing then popping into an engine-side container leaves the stack as
    it was. *)
Lemma push_then_pop (g : PyVal -> string -> M R Z) (v : PyVal) (nm : string)
  (c : ffi unit) (st : HostState R) :
  (exists st' x, g v nm st = (Ok 1, st') /\
                 stack (eng st') = x :: stack (eng st)) ->
  (forall m, stack (snd (machine_call functions unit c m)) = tl (stack m)) ->
  exists st',
    bind R (g v nm) (fun _ => call R c) st = (Ok tt, st') /\
    stack (eng st') = stack (eng st).
Proof.
  intros [st1 [x [Hrun Hstack]]] Hc.
  rewrite (bind_Ok R _ _ _ _ _ Hrun), call_unit.
  eexists. split; [reflexivity|].
  unfold after. cbn [eng eng_call reference]. now rewrite Hc, Hstack.
Qed.

Lemma for_each_keeps_stack {A : Type} (l : list A) (body : A -> M R unit) :
  (forall x st, In x l ->
     exists st', body x st = (Ok tt, st') /\
                 stack (eng st') = stack (eng st)) ->
  forall st, exists st',
    for_each R l body st = (Ok tt, st') /\ stack (eng st') = stack (eng st).
Proof.
  induction l as [|x l IH]; simpl; intros H st; [eexists; split; reflexivity|].
  destruct (H x st (or_introl eq_refl)) as [st1 [H1 Hs1]].
  rewrite (bind_Ok R _ _ _ _ _ H1).
  destruct (IH (fun y s Hy => H y s (or_intror Hy)) st1) as [st2 [H2 Hs2]].
  exists st2. split; [exact H2|congruence].
Qed.

Lemma for_enumerate_keeps_stack {A : Type} (l : list A)
  (body : Z -> A -> M R unit) :
  (forall i x st, In x l ->
     exists st', body i x st = (Ok tt, st') /\
                 stack (eng st') = stack (eng st)) ->
  forall i st, exists st',
    for_enumerate R i l body st = (Ok tt, st') /\
    stack (eng st') = stack (eng st).
Proof.
  induction l as [|x l IH]; simpl; intros H i st;
    [eexists; split; reflexivity|].
  destruct (H i x st (or_introl eq_refl)) as [st1 [H1 Hs1]].
  rewrite (bind_Ok R _ _ _ _ _ H1).
  destruct (IH (fun j y s Hy => H j y s (or_intror Hy)) (i + 1) st1)
    as [st2 [H2 Hs2]].
  exists st2. split; [exact H2|congruence].
Qed.

Lemma push_one (k : nat) :
  forall (n : PyVal) (name : string) (st : HostState R),
  (depth n < k)%nat -> encodable n = true ->
  exists st' x,
    push_arg R n name st = (Ok 1, st') /\
    stack (eng st') = x :: stack (eng st).
Proof.
  induction k as [|k IH]; intros n name st Hk Hn; [lia|].
  rewrite push_arg_eq. unfold push_arg_body.
  assert (Hpush : forall c : ffi unit,
            (forall m, exists x,
               stack (snd (machine_call functions unit c m)) = x :: stack m) ->
            exists st' x,
              bind R (call R c) (fun _ => ret R 1) st = (Ok 1, st') /\
              stack (eng st') = x :: stack (eng st)).
  { intros c Hc. rewrite (bind_Ok R _ _ _ _ _ (call_unit R c st)).
    destruct (Hc (eng st)) as [x Hx]. eexists. exists x.
    split; [reflexivity|exact Hx]. }
  assert (Hreq : forall r : Request,
            (truthy (val_pointer r) = false ->
             forall kv, In kv (items r) ->
               (depth (snd kv) < k)%nat /\ encodable (snd kv) = true) ->
            exists st' x,
              bind R (Request_push_body R (push_arg R) r) (fun _ => ret R 1) st
              = (Ok 1, st') /\
              stack (eng st') = x :: stack (eng st)).
  { intros r Hr. unfold Request_push_body.
    destruct (truthy (val_pointer r)) eqn:Ht.
    - destruct (val_pointer r) as [p|]; [|discriminate].
      apply Hpush. intros m. simpl. eauto.
    - rewrite !bind_assoc, bind_call. cbv beta. rewrite !bind_assoc.
      cbn [eng_call reference machine_call alloc fst snd].
      match goal with |- context [bind R (for_each R ?l0 ?b) _ ?s] =>
        destruct (for_each_keeps_stack l0 b) with (st := s)
          as [st2 [H2 Hs2]]
      end.
      { intros kv s Hin. apply push_then_pop.
        - destruct (Hr eq_refl kv Hin). now apply IH.
        - apply set_from_pop_stack. }
      rewrite (bind_Ok R _ _ _ _ _ H2).
      rewrite (bind_Ok R _ _ _ _ _ (call_unit R _ st2)).
      eexists. eexists. split; [reflexivity|].
      unfold after. cbn [eng eng_call reference machine_call snd push stack].
      rewrite Hs2. reflexivity. }
  assert (Hlist : forall l : list PyVal,
            (forall v, In v l -> (depth v < k)%nat /\ encodable v = true) ->
            exists st' x,
              bind R (push_list_body R (push_arg R) l) (fun _ => ret R 1) st
              = (Ok 1, st') /\
              stack (eng st') = x :: stack (eng st)).
  { intros l Hl. unfold push_list_body.
    rewrite !bind_assoc, bind_call. cbv beta. rewrite !bind_assoc.
    cbn [eng_call reference machine_call alloc fst snd].
    match goal with |- context [bind R (for_enumerate R ?i0 ?l0 ?b) _ ?s] =>
      destruct (for_enumerate_keeps_stack l0 b) with (i := i0) (st := s)
        as [st2 [H2 Hs2]]
    end.
    { intros i v s Hin. apply push_then_pop.
      - destruct (Hl v Hin). now apply IH.
      - apply add_from_pop_stack. }
    rewrite (bind_Ok R _ _ _ _ _ H2).
    rewrite (bind_Ok R _ _ _ _ _ (call_unit R _ st2)).
    eexists. eexists. split; [reflexivity|].
    unfold after. cbn [eng eng_call reference machine_call snd push stack].
    rewrite Hs2. reflexivity. }
  destruct n; simpl in Hn; try discriminate;
    try (apply Hpush; intros m; simpl; eauto).
  - destruct (float_of_int i) eqn:Hi; try discriminate.
    rewrite bind_assoc, bind_lift_Ok. apply Hpush. intros m. simpl. eauto.
  - replace (float_of_int (Z.b2z b)) with (Ok (if b then one else zero))
      by (destruct b; vm_compute; reflexivity).
    rewrite bind_assoc, bind_lift_Ok. apply Hpush. intros m. simpl. eauto.
  - apply Hreq. intros Ht kv Hin.
    rewrite Ht in Hn. simpl in Hn. rewrite forallb_forall in Hn.
    split; [|now apply Hn].
    apply max_depth_In in Hin. unfold max_depth in Hin. simpl in Hk. lia.
  - rewrite bind_assoc. simpl Request_init. rewrite bind_ret.
    apply Hreq. simpl. intros _ kv Hin. split.
    + apply Request_items_depth in Hin. unfold max_depth in Hin.
      simpl in Hk. lia.
    + now apply (encodable_items d).
  - apply Hlist. intros v Hin. rewrite forallb_forall in Hn.
    split; [|now apply Hn].
    apply list_depth_In in Hin. simpl in Hk. lia.
  - apply Hlist. intros v Hin. rewrite forallb_forall in Hn.
    split; [|now apply Hn].
    apply list_depth_In in Hin. simpl in Hk. lia.
Qed.

End ReferenceFrames.

(** X9: on the reference engine, encoding a value the encoder accepts,
    however deeply nested, leaves exactly one more frame on the argument
    stack: the frames pushed for the entries of a request or the elements of
    a list are all consumed into the engine-side container. *)
Theorem X9_one_frame_per_argument
  (functions : bytes -> list MvValue -> MvValue) (n : PyVal) (name : string)
  (st : HostState (reference functions)) :
  encodable n = true ->
  exists st' x,
    push_arg (reference functions) n name st = (Ok 1, st') /\
    stack (eng st') = x :: stack (eng st).
Proof. intros H. apply (push_one functions (S (depth n))); [lia|exact H]. Qed.

Lemma X9_one_frame_per_argument_witness :
  let n := PyDict [("grid", PyList [PyInt 2; PyTuple [PyStr "a"; PyBool true]]);
                   ("area", PyDict [("n", PyFloat one)])] in
  exists st' x,
    push_arg (reference no_functions) n "f" (start no_functions) = (Ok 1, st') /\
    stack (eng st') = [x].
Proof.
  intros n.
  apply (X9_one_frame_per_argument no_functions n "f" (start no_functions)).
  reflexivity.
Defined.

Section ReferenceCall.

Variable functions : bytes -> list MvValue -> MvValue.

#[local] Abbreviation R := (reference functions).

(** The loop of [_call_function] over the positional arguments pushes one
    frame per argument, the first argument deepest. *)
Lemma args_loop_frames (Q : PyVal -> MvValue -> Prop) (name : string)
  (args : list PyVal) :
  (forall n (st : HostState R), In n args ->
     exists st' x,
       push_arg R n name st = (Ok 1, st') /\
       stack (eng st') = x :: stack (eng st) /\ Q n x) ->
  forall (nargs : Z) (st : HostState R),
  exists st' frames,
    for_acc R args
      (fun n nargs =>
         bind R (push_arg R n name) (fun a => ret R (nargs + a)))
      nargs st = (Ok (nargs + len args), st') /\
    stack (eng st') = (rev frames ++ stack (eng st))%list /\
    Forall2 Q args frames.
Proof.
  unfold len.
  induction args as [|n args IH]; simpl for_acc; intros H nargs st.
  - exists st, []. unfold ret. simpl. rewrite Z.add_0_r. auto.
  - destruct (H n st (or_introl eq_refl)) as [st1 [x [H1 [Hs1 HQ]]]].
    rewrite bind_assoc, (bind_Ok R _ _ _ _ _ H1), bind_ret.
    destruct (IH (fun m s Hm => H m s (or_intror Hm)) (nargs + 1) st1)
      as [st2 [frames [H2 [Hs2 HQ2]]]].
    exists st2, (x :: frames). split; [|split].
    + etransitivity; [exact H2|]. f_equal. f_equal. simpl List.length. lia.
    + rewrite Hs2, Hs1. simpl. now rewrite <- app_assoc.
    + now constructor.
Qed.

(** Pushing the pairs of the keyword arguments pushes two frames a pair. *)
Lemma kwargs_frames (d : Request) :
  forallb (fun kv => encodable (snd kv)) (items d) = true ->
  forall st : HostState R,
  exists st' frames,
    dict_to_pushed_args R d st = (Ok (2 * len (items d)), st') /\
    stack (eng st') = (frames ++ stack (eng st))%list /\
    len frames = 2 * len (items d).
Proof.
  intros Hd st. unfold dict_to_pushed_args. rewrite forallb_forall in Hd.
  enough (H : exists st' frames,
             for_each R (items d)
               (fun kv =>
                  bind R (push_str R (fst kv))
                    (fun _ => bind R (push_arg R (snd kv) "NONE")
                                (fun _ => ret R tt))) st = (Ok tt, st') /\
             stack (eng st') = (frames ++ stack (eng st))%list /\
             len frames = 2 * len (items d)).
  { destruct H as [st' [frames [H [Hs Hl]]]].
    rewrite (bind_Ok R _ _ _ _ _ H). exists st', frames. auto. }
  revert st. induction (items d) as [|[k v] l IH]; intros st.
  - exists st, []. simpl. auto.
  - simpl for_each. unfold push_str, push_bytes.
    rewrite !bind_assoc, (bind_Ok R _ _ _ _ _ (call_unit R _ st)).
    destruct (push_one functions (S (depth v)) v "NONE"
                (after (p_push_string (str_encode k)) st))
      as [st1 [x [H1 Hs1]]]; [lia|apply (Hd (k, v)); now left|].
    cbn [fst snd].
    rewrite !bind_assoc, (bind_Ok R _ _ _ _ _ H1), !bind_ret.
    destruct IH with (st := st1) as [st2 [frames [H2 [Hs2 Hl2]]]].
    { intros kv Hin. apply Hd. now right. }
    exists st2, (frames ++ [x; MvString (str_encode k)])%list.
    split; [exact H2|]. split.
    + rewrite Hs2, Hs1. unfold after. simpl. now rewrite <- app_assoc.
    + unfold len in *. rewrite length_app. simpl List.length. lia.
Qed.

Lemma skipn_frames (frames s : list MvValue) (count : Z) :
  len frames = count -> skipn (Z.to_nat count) (frames ++ s) = s.
Proof.
  unfold len. intros <-. rewrite Nat2Z.id, skipn_app, skipn_all, Nat.sub_diag.
  reflexivity.
Qed.

Lemma firstn_frames (frames s : list MvValue) (count : Z) :
  len frames = count -> firstn (Z.to_nat count) (frames ++ s) = frames.
Proof.
  unfold len. intros <-. rewrite Nat2Z.id, firstn_app, firstn_all, Nat.sub_diag.
  simpl. now rewrite app_nil_r.
Qed.

Lemma encodable_kwargs (kwargs : dict) :
  forallb (fun kv => encodable (snd kv)) kwargs = true ->
  forallb (fun kv => encodable (snd kv))
    (to_metview_style (dict_update [] (dict_update [] kwargs))) = true.
Proof.
  intros H. apply forallb_forall. intros kv Hin.
  apply (encodable_items (dict_update [] kwargs)); [|exact Hin].
  apply forallb_forall. intros kv' Hin'.
  destruct (dict_update_In _ _ _ Hin') as [[]|H'].
  rewrite forallb_forall in H. now apply H.
Qed.

Lemma call_function_frames (name : string) (args : list PyVal)
  (kwargs : dict) (st : HostState R) :
  dict_get "name" kwargs = None ->
  forallb encodable args = true ->
  forallb (fun kv => encodable (snd kv)) kwargs = true ->
  exists st' frames,
    _call_function R name args kwargs st = (Ok tt, st') /\
    stack (eng st') = stack (eng st) /\
    result (eng st') = functions (str_encode name) frames /\
    len frames = len args + 2 * len (dict_update [] kwargs).
Proof.
  intros Hname Hargs Hkw. unfold _call_function. rewrite Hname.
  destruct (args_loop_frames (fun _ _ => True) name args) with
    (nargs := 0) (st := st) as [st1 [fa [H1 [Hs1 HQ]]]].
  { intros n s Hin.
    destruct (push_one functions (S (depth n)) n name s) as [s' [x [Hp Hx]]];
      [lia|rewrite forallb_forall in Hargs; now apply Hargs|].
    exists s', x. auto. }
  assert (Hfa : len fa = len args).
  { unfold len. f_equal. symmetry. eapply Forall2_length. exact HQ. }
  rewrite (bind_Ok R _ _ _ _ _ H1). rewrite Z.add_0_l.
  destruct (len (dict_update [] kwargs) >? 0) eqn:Hpos.
  - rewrite !bind_assoc. simpl Request_init. rewrite bind_ret.
    set (r := mkRequest "UNKNOWN" None _).
    destruct (kwargs_frames r) with (st := st1) as [st2 [fk [H2 [Hs2 Hl2]]]].
    { unfold r. cbn [items]. now apply encodable_kwargs. }
    rewrite bind_assoc, (bind_Ok R _ _ _ _ _ H2), bind_ret, call_unit.
    unfold r in *. cbn [items] in *. rewrite kwargs_request_length in *.
    exists (after (p_call_function (str_encode name)
                     (len args + 2 * len (dict_update [] kwargs))) st2),
           (rev (fk ++ rev fa)).
    split; [reflexivity|].
    assert (Hlen : len (fk ++ rev fa) =
                   len args + 2 * len (dict_update [] kwargs)).
    { unfold len in *. rewrite length_app, length_rev. lia. }
    unfold after. cbn [eng eng_call reference machine_call snd stack result].
    rewrite Hs2, Hs1, app_assoc.
    rewrite (skipn_frames _ _ _ Hlen), (firstn_frames _ _ _ Hlen).
    repeat split. unfold len in *. rewrite length_rev. exact Hlen.
  - rewrite bind_ret, call_unit.
    assert (Hzero : len (dict_update [] kwargs) = 0).
    { rewrite Z.gtb_ltb in Hpos. apply Z.ltb_ge in Hpos.
      unfold len in *. lia. }
    exists (after (p_call_function (str_encode name) (len args)) st1), fa.
    split; [reflexivity|].
    assert (Hlen : len (rev fa) = len args).
    { unfold len in *. now rewrite length_rev. }
    unfold after. cbn [eng eng_call reference machine_call snd stack result].
    rewrite Hs1.
    rewrite (skipn_frames _ _ _ Hlen), (firstn_frames _ _ _ Hlen).
    rewrite rev_involutive. repeat split. rewrite Hzero. lia.
Qed.

End ReferenceCall.

(** X10: on the reference engine, a named call whose arguments the encoder
    accepts, none of them a keyword argument called name, pushes exactly as
    many frames as the argument count it then gives the engine: the function
    is applied to that many values and the argument stack is left as it was
    found. *)
Theorem X10_call_consumes_what_it_pushes
  (functions : bytes -> list MvValue -> MvValue) (name : string)
  (args : list PyVal) (kwargs : dict) (st : HostState (reference functions)) :
  dict_get "name" kwargs = None ->
  forallb encodable args = true ->
  forallb (fun kv => encodable (snd kv)) kwargs = true ->
  exists st' frames,
    _call_function (reference functions) name args kwargs st = (Ok tt, st') /\
    stack (eng st') = stack (eng st) /\
    result (eng st') = functions (str_encode name) frames /\
    len frames = len args + 2 * len (dict_update [] kwargs).
Proof. apply call_function_frames. Qed.

Lemma X10_call_consumes_what_it_pushes_witness :
  exists st' frames,
    _call_function (reference no_functions) "retrieve"
      [PyStr "z"; PyList [PyInt 1; PyInt 2]]
      [("grid", PyTuple [PyInt 2; PyInt 2]); ("interpolate", PyBool true)]
      (start no_functions) = (Ok tt, st') /\
    stack (eng st') = [] /\
    result (eng st') = no_functions "retrieve" frames /\
    len frames = 6.
Proof.
  apply (X10_call_consumes_what_it_pushes no_functions "retrieve"
           [PyStr "z"; PyList [PyInt 1; PyInt 2]]
           [("grid", PyTuple [PyInt 2; PyInt 2]); ("interpolate", PyBool true)]
           (start no_functions)); reflexivity.
Defined.

(** ** A whole call on the reference engine *)

Section ReferenceMake.

Variable functions : bytes -> list MvValue -> MvValue.

#[local] Abbreviation R := (reference functions).

Lemma wire_frames (args : list PyVal) (frames : list MvValue) :
  Forall2 (fun n x => x = wire n) args frames -> frames = map wire args.
Proof. induction 1; simpl; congruence. Qed.

(** A call with plain positional arguments comes down to decoding the
    value the engine function gives for the encoded arguments. *)
Lemma make_plain_run (name : string) (args : list PyVal)
  (st : HostState R) :
  forallb plain args = true ->
  exists (st3 : HostState R) (p : ptr),
    (forall fuel,
       make R fuel name args [] st = value_from_metview R fuel p st3) /\
    valid (eng st3) p /\
    deref (eng st3) p = functions (str_encode name) (map wire args) /\
    stack (eng st3) = stack (eng st) /\
    exists evs,
      log st3 =
      (log st ++ evs ++
       [Ev (p_call_function (str_encode name) (len args)) tt;
        Ev p_result_as_value p])%list.
Proof.
  intros Hargs. rewrite forallb_forall in Hargs.
  destruct (args_loop_frames functions (fun n x => x = wire n) name args)
    with (nargs := 0) (st := st) as [st1 [fa [H1 [Hs1 HQ]]]].
  { intros n s Hin.
    destruct (push_plain functions (S (depth n)) n name s)
      as [s' [Hp [Hx _]]]; [lia|now apply Hargs|].
    exists s', (wire n). auto. }
  apply wire_frames in HQ. subst fa.
  destruct (grows_args_loop R name args 0 st) as [evs Hevs].
  rewrite H1 in Hevs. simpl snd in Hevs.
  assert (Hlen : len (rev (map wire args)) = len args).
  { unfold len. now rewrite length_rev, length_map. }
  assert (Hcall : _call_function R name args [] st =
                  (Ok tt, after (p_call_function (str_encode name) (len args))
                            st1)).
  { unfold _call_function. cbn [dict_get].
    rewrite (bind_Ok R _ _ _ _ _ H1).
    simpl. now rewrite bind_ret, call_unit. }
  eexists. eexists. split; [|split; [|split; [|split]]].
  - intros fuel. unfold make.
    rewrite (bind_Ok R _ _ _ _ _ Hcall), bind_call. reflexivity.
  - unfold valid, after, len.
    cbn [eng eng_call reference machine_call alloc fst snd heap].
    unfold len. rewrite length_app. simpl List.length. lia.
  - unfold after.
    cbn [eng eng_call reference machine_call alloc fst snd heap result].
    etransitivity;
      [apply (deref_middle _ (heap (eng st1)) []); reflexivity|].
    rewrite Hs1, (firstn_frames _ _ _ Hlen), rev_involutive. reflexivity.
  - unfold after.
    cbn [eng eng_call reference machine_call alloc fst snd stack].
    rewrite Hs1. apply (skipn_frames _ _ _ Hlen).
  - exists evs. unfold after. cbn [log]. rewrite Hevs, <- !app_assoc.
    reflexivity.
Qed.

End ReferenceMake.

(** X11: on the reference engine a binding called with plain positional
    arguments gives the engine function exactly the encoded arguments, in
    the order they were passed, and returns the decoding of the function's
    value; the argument stack is left as it was found. *)
Theorem X11_binding_round_trip
  (functions : bytes -> list MvValue -> MvValue) (name : string)
  (args : list PyVal) (st : HostState (reference functions)) :
  forallb plain args = true ->
  let v := functions (str_encode name) (map wire args) in
  wf_value v = true ->
  exists pv st',
    make (reference functions) (S (mv_depth v)) name args [] st = (Ok pv, st') /\
    decoded v pv /\
    stack (eng st') = stack (eng st).
Proof.
  intros Hargs v Hwf.
  destruct (make_plain_run functions name args st Hargs)
    as [st3 [p [Hrun [Hvalid [Hderef [Hstack _]]]]]].
  destruct (decode_reference functions (S (mv_depth v)) v p st3)
    as [pv [st' [Hdec [Hpv _]]]]; auto.
  exists pv, st'. rewrite Hrun. split; [exact Hdec|]. split; [exact Hpv|].
  destruct (stack_value_from_metview functions (S (mv_depth v)) p st3)
    as [Hs _].
  rewrite Hdec in Hs. simpl in Hs. congruence.
Qed.

Lemma X11_binding_round_trip_witness :
  exists st',
    make (reference arithmetic) 1 "+" [PyInt 2; PyInt 3] []
      (start arithmetic) =
    (Ok (PyFloat (S754_finite false 5629499534213120 (-50))), st').
Proof.
  destruct (X11_binding_round_trip arithmetic "+" [PyInt 2; PyInt 3]
              (start arithmetic) eq_refl eq_refl)
    as [pv [st' [Hrun [Hpv _]]]].
  exists st'. etransitivity; [exact Hrun|]. f_equal. f_equal.
  assert (Hv : arithmetic (str_encode "+") (map wire [PyInt 2; PyInt 3]) =
               MvNumber (S754_finite false 5629499534213120 (-50)))
    by (vm_compute; reflexivity).
  rewrite Hv in Hpv.
  destruct pv; simpl in Hpv; try contradiction. now subst.
Defined.

(** X12: on the reference engine, when the engine function called by a
    binding gives an error value with a message, the binding raises
    "Metview error: " followed by the message; when it gives a value of a
    kind outside the fixed tag set, the binding raises the
    unhandled-return-type error.  Nothing is returned in either case. *)
Theorem X12_binding_surfaces_engine_error
  (functions : bytes -> list MvValue -> MvValue) (name : string)
  (args : list PyVal) (fuel : nat) (st : HostState (reference functions)) :
  forallb plain args = true ->
  let v := functions (str_encode name) (map wire args) in
  (forall msg, v = MvError (Some msg) -> utf8_wf (byte_values msg) = true ->
     fst (make (reference functions) (S fuel) name args [] st) =
     Raise (Exception ("Metview error: " ++ msg))) /\
  (forall tag, v = MvOther tag -> ~ 0 <= tag <= 9 ->
     fst (make (reference functions) (S fuel) name args [] st) =
     Raise (Exception "value_from_metview got an unhandled return type")).
Proof.
  intros Hargs v.
  destruct (make_plain_run functions name args st Hargs)
    as [st3 [p [Hrun [Hvalid [Hderef _]]]]].
  fold v in Hderef. split.
  - intros msg Hv Hmsg. rewrite Hrun.
    change (value_from_metview (reference functions) (S fuel))
      with (value_from_metview_body (reference functions)
              (value_from_metview (reference functions) fuel)).
    unfold value_from_metview_body. rewrite bind_call.
    cbn [eng_call reference machine_call fst snd eng].
    rewrite Hderef, Hv. cbn [tag_of]. eval_tags.
    rewrite bind_call. cbn [eng_call reference machine_call fst snd eng].
    rewrite Hderef, Hv.
    rewrite (bind_Ok _ _ _ _ _ _ (string_from_ffi_text functions msg _ Hmsg)).
    reflexivity.
  - intros tag Hv Htag. rewrite Hrun.
    rewrite unhandled_tag; [reflexivity|].
    cbn [eng_call reference machine_call fst snd eng].
    rewrite Hderef, Hv. exact Htag.
Qed.

Lemma X12_binding_surfaces_engine_error_witness :
  fst (make (reference arithmetic) 1 "+" [PyInt 2; PyStr "x"] []
         (start arithmetic)) =
  Raise (Exception "Metview error: bad parameter").
Proof.
  apply (proj1 (X12_binding_surfaces_engine_error arithmetic "+"
                  [PyInt 2; PyStr "x"] 0 (start arithmetic) eq_refl)
           "bad parameter"); reflexivity.
Defined.

(** ** Handles through the decoder and back *)

Lemma push_arg_request_handle (E : Engine) (r : Request) (rp : ptr)
  (name : string) (st : HostState E) :
  val_pointer r = Some rp -> rp <> NULL ->
  push_arg E (PyRequest r) name st = (Ok 1, after (p_push_request rp) st).
Proof.
  intros Hr Hnull. rewrite push_arg_eq.
  unfold push_arg_body, Request_push_body. rewrite Hr. simpl truthy.
  apply Z.eqb_neq in Hnull. rewrite Hnull. simpl negb. cbv iota.
  now rewrite (bind_Ok E _ _ _ _ _ (call_unit E _ st)).
Qed.

(** X13: a Request decoded from an engine result retains the request
    handle the engine gave for that result, and pushing the decoded Request
    again is the single foreign call that forwards this handle, whatever was
    pulled into its mapping. *)
Theorem X13_request_handle_round_trip (E : Engine) (fuel : nat) (val : ptr)
  (st st' : HostState E) (pv : PyVal) :
  fst (eng_call E Z (p_value_type val) (eng st)) = 3 ->
  value_from_metview E (S fuel) val st = (Ok pv, st') ->
  exists (r : Request) (rp : ptr),
    pv = PyRequest r /\
    val_pointer r = Some rp /\
    In (Ev (p_value_as_request val) rp) (log st') /\
    (rp <> NULL ->
     forall name st2,
       push_arg E pv name st2 = (Ok 1, after (p_push_request rp) st2)).
Proof.
  intros Htag.
  change (value_from_metview E (S fuel))
    with (value_from_metview_body E (value_from_metview E fuel)).
  unfold value_from_metview_body.
  rewrite bind_call, Htag. eval_tags. rewrite bind_call. cbn [eng].
  set (rp := fst (eng_call E ptr (p_value_as_request val) _)).
  set (st2 := mkHost _ _).
  intros H. apply bind_inv_Ok in H as [r [st3 [Hinit Hret]]].
  unfold ret in Hret. injection Hret as <- <-.
  apply Request_init_handle_Ok in Hinit as [Hptr [_ [evs [Hlog _]]]].
  exists r, rp. repeat split; auto.
  - rewrite Hlog. unfold st2. cbn [log].
    apply in_or_app. left. apply in_or_app. right. now left.
  - intros Hnull name st4. now apply push_arg_request_handle.
Qed.

Lemma X13_request_handle_round_trip_witness :
  let E := reference no_functions in
  let st := @mkHost E []
              (mkMachine
                 [MvRequest (Some "RETRIEVE")
                    [("PARAM", MvString "t"); ("GRID", MvNil)]] [] MvNil) in
  exists (r : Request) (rp : ptr),
    fst (value_from_metview E 1 1 st) = Ok (PyRequest r) /\
    val_pointer r = Some rp /\
    (rp <> NULL ->
     forall name st2,
       push_arg E (PyRequest r) name st2 =
       (Ok 1, after (p_push_request rp) st2)).
Proof.
  intros E st.
  destruct (X13_request_handle_round_trip E 0 1 st
              (snd (value_from_metview E 1 1 st))
              (PyRequest (mkRequest "RETRIEVE" (Some 1) [("PARAM", PyStr "t")]))
              eq_refl eq_refl) as [r [rp [Hpv [Hptr [_ Hpush]]]]].
  exists r, rp. rewrite <- Hpv. split; [reflexivity|]. split; [exact Hptr|].
  exact Hpush.
Defined.

(** X14: a file-backed value (fieldset, bufr, geopoints, netcdf) decoded
    from an engine result keeps the handle it was decoded from and the data
    path the engine gave for it, and pushing it again is the single foreign
    call that forwards that handle. *)
Theorem X14_file_backed_round_trip (E : Engine) (fuel : nat) (val : ptr)
  (st st' : HostState E) (pv : PyVal) :
  let rt := fst (eng_call E Z (p_value_type val) (eng st)) in
  rt = 2 \/ rt = 4 \/ rt = 5 \/ rt = 7 ->
  value_from_metview E (S fuel) val st = (Ok pv, st') ->
  exists f : FileBackedValue,
    pv = file_backed rt f /\
    fb_val_pointer f = val /\
    In (Ev (p_data_path val) (Some (url f))) (log st') /\
    forall name st2,
      push_arg E pv name st2 = (Ok 1, after (p_push_value val) st2).
Proof.
  intros rt Hrt.
  change (value_from_metview E (S fuel))
    with (value_from_metview_body E (value_from_metview E fuel)).
  unfold value_from_metview_body. rewrite bind_call. fold rt.
  set (st1 := mkHost _ _).
  assert (Hfile : forall (mk : FileBackedValue -> PyVal),
            (forall f name st2,
               push_arg E (mk f) name st2 =
               (Ok 1, after (p_push_value (fb_val_pointer f)) st2)) ->
            bind E (FileBackedValue_init E val) (fun f => ret E (mk f)) st1
            = (Ok pv, st') ->
            exists f, pv = mk f /\ fb_val_pointer f = val /\
              In (Ev (p_data_path val) (Some (url f))) (log st') /\
              forall name st2,
                push_arg E pv name st2 = (Ok 1, after (p_push_value val) st2)).
  { intros mk Hmk H. apply bind_inv_Ok in H as [f [st2 [Hinit Hret]]].
    unfold ret in Hret. injection Hret as <- <-.
    unfold FileBackedValue_init in Hinit. rewrite bind_call in Hinit.
    apply bind_inv_Ok in Hinit as [u [st3 [Hu Hret]]].
    apply string_from_ffi_Ok in Hu as [Hu ->].
    unfold ret in Hret. injection Hret as <- <-.
    eexists. split; [reflexivity|]. cbn [fb_val_pointer url log].
    split; [reflexivity|]. split.
    - apply in_or_app. right. rewrite <- Hu. now left.
    - intros name st4. apply Hmk. }
  assert (Hpush : forall (mk : FileBackedValue -> PyVal),
            (forall f g name, push_arg_body E g (mk f) name =
               bind E (call E (p_push_value (fb_val_pointer f)))
                 (fun _ => ret E 1)) ->
            forall f name st2,
              push_arg E (mk f) name st2 =
              (Ok 1, after (p_push_value (fb_val_pointer f)) st2)).
  { intros mk Hmk f name st2. rewrite push_arg_eq, Hmk.
    now rewrite (bind_Ok E _ _ _ _ _ (call_unit E _ st2)). }
  unfold file_backed.
  destruct Hrt as [Hrt|[Hrt|[Hrt|Hrt]]]; rewrite Hrt; eval_tags;
    apply Hfile; apply Hpush; reflexivity.
Qed.

Lemma X14_file_backed_round_trip_witness :
  let E := reference no_functions in
  let st := @mkHost E [] (mkMachine [MvGeopoints (Some "/tmp/a.gpt")] [] MvNil) in
  exists f : FileBackedValue,
    fst (value_from_metview E 1 1 st) = Ok (PyGeopoints f) /\
    fb_val_pointer f = 1 /\
    forall name st2,
      push_arg E (PyGeopoints f) name st2 = (Ok 1, after (p_push_value 1) st2).
Proof.
  intros E st.
  destruct (X14_file_backed_round_trip E 0 1 st
              (snd (value_from_metview E 1 1 st))
              (PyGeopoints (mkFileBacked 1 "/tmp/a.gpt")))
    as [f [Hpv [Hptr [_ Hpush]]]].
  - right. right. left. reflexivity.
  - reflexivity.
  - exists f. change (file_backed _ f) with (PyGeopoints f) in Hpv.
    rewrite <- Hpv. split; [reflexivity|]. split; [exact Hptr|]. exact Hpush.
Defined.

(** ** A list with an element that does not decode *)

Section ReferenceListFailure.

Variable functions : bytes -> list MvValue -> MvValue.

#[local] Abbreviation R := (reference functions).

Lemma for_range_split {S : Type} (body : Z -> S -> M R S) (a b : nat) :
  forall (i : Z) (acc : S) (st : HostState R),
  for_range R (a + b) i body acc st =
  bind R (for_range R a i body acc)
    (fun acc' => for_range R b (i + Z.of_nat a) body acc') st.
Proof.
  induction a as [|a IH]; intros i acc st.
  - simpl. rewrite bind_ret, Z.add_0_r. reflexivity.
  - simpl for_range. rewrite bind_assoc. apply bind_ext; [reflexivity|].
    intros acc' st'. rewrite IH. apply bind_ext; [reflexivity|].
    intros acc'' st''. f_equal. lia.
Qed.

(** The loop of [list_from_metview] over some of the elements. *)
Lemma list_loop_prefix (g : ptr -> M R PyVal) (p : ptr)
  (elems : list MvValue) :
  forall (mid done tail : list MvValue) (acc : list PyVal)
    (st : HostState R),
  (forall (v : MvValue) (q : ptr) (st : HostState R),
     In v mid -> valid (eng st) q -> deref (eng st) q = v ->
     exists pv st',
       g q st = (Ok pv, st') /\
       exists hs, heap (eng st') = (heap (eng st) ++ hs)%list) ->
  elems = (done ++ mid ++ tail)%list ->
  valid (eng st) p ->
  deref (eng st) p = MvList elems ->
  exists acc' st',
    for_range R (List.length mid) (len done)
      (fun i result =>
         bind R (call R (p_list_element_as_value p i)) (fun mval =>
         bind R (g mval) (fun v => ret R (result ++ [v])%list)))
      acc st = (Ok acc', st') /\
    exists hs, heap (eng st') = (heap (eng st) ++ hs)%list.
Proof.
  induction mid as [|v mid IH]; intros done tail acc st Hg Helems Hvalid Hderef.
  - exists acc, st. split; [reflexivity|]. exists []. now rewrite app_nil_r.
  - simpl for_range. rewrite bind_assoc, bind_call.
    cbn [eng_call reference machine_call fst snd eng].
    rewrite Hderef. unfold alloc. cbn [fst snd].
    replace (Z.to_nat (len done)) with (List.length done)
      by (unfold len; lia).
    replace (nth (List.length done) elems MvNil) with v
      by (rewrite Helems; symmetry; apply nth_middle).
    set (st1 := mkHost _ _).
    destruct (Hg v (len (heap (eng st)) + 1) st1)
      as [pv [st2 [Hrun [hs2 Hheap2]]]].
    { now left. }
    { unfold valid, st1, len. cbn [eng heap]. rewrite length_app. simpl. lia. }
    { apply (deref_middle _ (heap (eng st)) [] v). reflexivity. }
    rewrite bind_assoc, (bind_Ok R _ _ _ _ _ Hrun), bind_ret.
    assert (Hext : heap (eng st2) = (heap (eng st) ++ v :: hs2)%list).
    { rewrite Hheap2. unfold st1. cbn [eng heap]. now rewrite <- app_assoc. }
    destruct (IH (done ++ [v])%list tail (acc ++ [pv])%list st2)
      as [acc' [st' [Hloop [hs Hheap]]]].
    { intros w q s Hin. apply Hg. now right. }
    { rewrite Helems, <- app_assoc. reflexivity. }
    { eapply valid_extends; eauto. }
    { rewrite (deref_extends _ _ _ _ Hext Hvalid). exact Hderef. }
    exists acc', st'.
    replace (len done + 1) with (len (done ++ [v]))
      by (unfold len; rewrite length_app; simpl; lia).
    split; [exact Hloop|].
    exists (v :: hs2 ++ hs)%list. rewrite Hheap, Hext, <- app_assoc.
    reflexivity.
Qed.

(** When the elements before [bad] decode and [bad] makes the decoder
    raise, decoding the list raises the same exception. *)
Lemma list_element_failure (fuel : nat) (p : ptr)
  (done rest : list MvValue) (bad : MvValue) (e : PyExn)
  (st : HostState R) :
  forallb wf_value done = true ->
  (forall v, In v done -> (mv_depth v <= fuel)%nat) ->
  (forall (q : ptr) (s : HostState R),
     deref (eng s) q = bad ->
     exists s', value_from_metview R (S fuel) q s = (Raise e, s')) ->
  valid (eng st) p ->
  deref (eng st) p = MvList (done ++ bad :: rest) ->
  fst (value_from_metview R (S (S fuel)) p st) = Raise e.
Proof.
  intros Hwf Hdepth Hbad Hvalid Hderef.
  change (value_from_metview R (S (S fuel)))
    with (value_from_metview_body R (value_from_metview R (S fuel))).
  unfold value_from_metview_body. rewrite bind_call.
  cbn [eng_call reference machine_call fst snd eng].
  rewrite Hderef. cbn [tag_of]. eval_tags.
  rewrite bind_call. cbn [eng_call reference machine_call fst snd eng].
  rewrite Hderef. unfold list_from_metview_body.
  rewrite !bind_assoc, bind_call.
  cbn [eng_call reference machine_call fst snd eng].
  rewrite Hderef. cbv beta.
  replace (Z.to_nat (len (done ++ bad :: rest)))
    with (List.length done + S (List.length rest))%nat
    by (unfold len; rewrite Nat2Z.id, length_app; reflexivity).
  erewrite (bind_ext R); [|apply for_range_split|intros; reflexivity].
  rewrite bind_assoc.
  rewrite forallb_forall in Hwf.
  match goal with |- context [bind R (for_range R _ _ _ _) _ ?s] =>
    destruct (list_loop_prefix (value_from_metview R (S fuel)) p
                (done ++ bad :: rest) done [] (bad :: rest) [] s)
      as [acc' [st1 [Hloop [hs Hheap]]]]
  end; auto.
  { intros v q s Hin Hq Hdq.
    destruct (decode_reference functions (S fuel) v q s)
      as [pv [s' [Hrun [_ Hhs]]]]; auto.
    - specialize (Hdepth v Hin). lia.
    - eauto. }
  change (len (@nil MvValue)) with 0 in Hloop.
  rewrite (bind_Ok R _ _ _ _ _ Hloop).
  cbn [for_range]. rewrite !bind_assoc, bind_call.
  cbn [eng_call reference machine_call fst snd eng].
  assert (Hderef1 : deref (eng st1) p = MvList (done ++ bad :: rest)).
  { rewrite (deref_extends _ _ _ _ Hheap); [exact Hderef|exact Hvalid]. }
  rewrite Hderef1. unfold alloc. cbn [fst snd].
  replace (Z.to_nat (0 + Z.of_nat (List.length done)))
    with (List.length done) by lia.
  rewrite nth_middle. cbv beta. rewrite !bind_assoc.
  match goal with |- context [bind R (value_from_metview R (S fuel) ?q) _ ?s] =>
    destruct (Hbad q s) as [s' Hraise]
  end.
  { apply (deref_middle _ (heap (eng st1)) [] bad). reflexivity. }
  rewrite (bind_Raise R _ _ _ _ _ Hraise). reflexivity.
Qed.

Lemma decode_unknown_tag (fuel : nat) (tag : Z) (q : ptr)
  (s : HostState R) :
  ~ 0 <= tag <= 9 ->
  deref (eng s) q = MvOther tag ->
  exists s',
    value_from_metview R (S fuel) q s =
    (Raise (Exception "value_from_metview got an unhandled return type"), s').
Proof.
  intros Htag Hderef. rewrite unhandled_tag; [eauto|].
  cbn [eng_call reference machine_call fst snd eng].
  rewrite Hderef. exact Htag.
Qed.

Lemma decode_error_value (fuel : nat) (msg : bytes) (q : ptr)
  (s : HostState R) :
  utf8_wf (byte_values msg) = true ->
  deref (eng s) q = MvError (Some msg) ->
  exists s',
    value_from_metview R (S fuel) q s =
    (Raise (Exception ("Metview error: " ++ msg)), s').
Proof.
  intros Hmsg Hderef.
  change (value_from_metview R (S fuel))
    with (value_from_metview_body R (value_from_metview R fuel)).
  unfold value_from_metview_body. rewrite bind_call.
  cbn [eng_call reference machine_call fst snd eng].
  rewrite Hderef. cbn [tag_of]. eval_tags.
  rewrite bind_call. cbn [eng_call reference machine_call fst snd eng].
  rewrite Hderef.
  rewrite (bind_Ok _ _ _ _ _ _ (string_from_ffi_text functions msg _ Hmsg)).
  eexists. reflexivity.
Qed.

End ReferenceListFailure.

(** X15: on the reference engine, an element that does not decode defeats
    the whole list: when the elements before it are well formed and it is a
    value of a kind outside the fixed tag set, decoding the list raises the
    unhandled-return-type error; when it is an error value, decoding the
    list raises "Metview error: " followed by its message.  No partial list
    is returned. *)
Theorem X15_list_element_failure
  (functions : bytes -> list MvValue -> MvValue) (fuel : nat) (p : ptr)
  (done rest : list MvValue) (bad : MvValue)
  (st : HostState (reference functions)) :
  forallb wf_value done = true ->
  (forall v, In v done -> (mv_depth v <= fuel)%nat) ->
  valid (eng st) p ->
  deref (eng st) p = MvList (done ++ bad :: rest) ->
  (forall tag, bad = MvOther tag -> ~ 0 <= tag <= 9 ->
     fst (value_from_metview (reference functions) (S (S fuel)) p st) =
     Raise (Exception "value_from_metview got an unhandled return type")) /\
  (forall msg, bad = MvError (Some msg) -> utf8_wf (byte_values msg) = true ->
     fst (value_from_metview (reference functions) (S (S fuel)) p st) =
     Raise (Exception ("Metview error: " ++ msg))).
Proof.
  intros Hwf Hdepth Hvalid Hderef. split.
  - intros tag -> Htag.
    apply (list_element_failure functions fuel p done rest (MvOther tag));
      auto.
    intros q s Hq. exact (decode_unknown_tag functions fuel tag q s Htag Hq).
  - intros msg -> Hmsg.
    apply (list_element_failure functions fuel p done rest
             (MvError (Some msg))); auto.
    intros q s Hq. exact (decode_error_value functions fuel msg q s Hmsg Hq).
Qed.

Lemma X15_list_element_failure_witness :
  let E := reference no_functions in
  let st := @mkHost E []
              (mkMachine
                 [MvList [MvNumber one; MvList [MvString "a"];
                          MvError (Some "bad parameter"); MvNumber two]]
                 [] MvNil) in
  fst (value_from_metview E 3 1 st) =
  Raise (Exception "Metview error: bad parameter").
Proof.
  intros E st.
  assert (Hd : forall v, In v [MvNumber one; MvList [MvString "a"]] ->
                 (mv_depth v <= 1)%nat).
  { intros v [<-|[<-|[]]]; simpl; lia. }
  assert (Hv : valid (eng st) 1).
  { unfold valid, len. simpl. lia. }
  apply (proj2 (X15_list_element_failure no_functions 1 1
                  [MvNumber one; MvList [MvString "a"]] [MvNumber two]
                  (MvError (Some "bad parameter")) st eq_refl Hd Hv eq_refl)
           "bad parameter" eq_refl eq_refl).
Defined.

(** ** Dicts and Requests on the reference engine *)

Lemma distinct_NoDup (l : list string) : distinct l = true -> NoDup l.
Proof.
  induction l as [|k l IH]; simpl; intros H; constructor.
  - apply andb_prop in H as [H _]. intros Hin.
    apply negb_true_iff in H.
    assert (Hex : existsb (String.eqb k) l = true).
    { apply existsb_exists. exists k. split; [exact Hin|apply String.eqb_refl]. }
    congruence.
  - apply andb_prop in H as [_ H]. auto.
Qed.

Lemma wire_metview_value (v : PyVal) :
  wire_value (metview_value v) =
  match v with
  | PyBool b => MvString (str_encode (conversion_dict b))
  | _ => wire_value v
  end.
Proof. destruct v; reflexivity. Qed.

Lemma structured_metview_value (v : PyVal) :
  structured v = true -> structured (metview_value v) = true.
Proof. destruct v; auto. Qed.

Lemma depth_metview_value (v : PyVal) :
  (depth (metview_value v) <= depth v)%nat.
Proof. destruct v; simpl; lia. Qed.

Section ReferenceRequests.

Variable functions : bytes -> list MvValue -> MvValue.

#[local] Abbreviation R := (reference functions).

(** The loop of [push_list] over structured elements still to add. *)
Lemma push_list_loop_structured (g : PyVal -> string -> M R Z)
  (h0 : list MvValue) (rest : list PyVal) :
  (forall v name st, In v rest ->
     exists st', g v name st = (Ok 1, st') /\ pushes (wire_value v) st st') ->
  forall (done : list MvValue) (hs : list MvValue) (st : HostState R),
  heap (eng st) =
    (h0 ++ MvList (done ++ repeat MvNil (List.length rest)) :: hs)%list ->
  exists (st' : HostState R) (hs' : list MvValue),
    for_enumerate R (len done) rest
      (fun i val =>
         bind R (g val "NONE")
           (fun _ => call R (p_add_value_from_pop_to_list (len h0 + 1) i)))
      st = (Ok tt, st') /\
    heap (eng st') = (h0 ++ MvList (done ++ map wire_value rest) :: hs')%list /\
    stack (eng st') = stack (eng st) /\
    result (eng st') = result (eng st).
Proof.
  induction rest as [|v rest IH]; intros Hg done hs st Hheap.
  - exists st, hs. simpl in *. auto.
  - destruct (Hg v "NONE" st (or_introl eq_refl))
      as [st1 [Hrun [Hstack [Hres [hs1 Hheap1]]]]].
    simpl for_enumerate.
    rewrite bind_assoc, (bind_Ok R _ _ _ _ _ Hrun), bind_call.
    cbn [eng_call reference machine_call fst snd eng].
    unfold pop. rewrite Hstack.
    rewrite Hheap in Hheap1. rewrite <- app_assoc in Hheap1.
    simpl in Hheap1.
    set (m1 := mkMachine (heap (eng st1)) (stack (eng st)) (result (eng st1))).
    rewrite (deref_middle m1 h0 (hs ++ hs1) _ Hheap1).
    cbn [fst snd].
    rewrite (store_middle m1 h0 (hs ++ hs1) _ _ Hheap1).
    subst m1.
    cbn [stack result].
    replace (Z.to_nat (len done)) with (List.length done)
      by (unfold len; lia).
    rewrite list_set_middle.
    match goal with |- context [for_enumerate R _ rest ?b ?s] =>
      destruct (IH (fun v name st H => Hg v name st (or_intror H))
                  (done ++ [wire_value v])%list (hs ++ hs1)%list s)
        as [st' [hs' [Hloop [Hh [Hs Hr]]]]]
    end.
    { cbn [eng heap]. rewrite <- app_assoc. reflexivity. }
    exists st', hs'.
    replace (len done + 1) with (len (done ++ [wire_value v]))
      by (unfold len; rewrite length_app; simpl; lia).
    rewrite Hloop. rewrite <- app_assoc in Hh. simpl in Hh.
    cbn [eng stack result] in Hs, Hr. rewrite Hres in Hr. auto.
Qed.

(** The loop of [Request.push] over the entries still to bind. *)
Lemma push_request_loop (g : PyVal -> string -> M R Z) (h0 : list MvValue)
  (vb : cstr) (rest : dict) :
  (forall kv name st, In kv rest ->
     exists st', g (snd kv) name st = (Ok 1, st') /\
                 pushes (wire_value (snd kv)) st st') ->
  forall (done : list (bytes * MvValue)) (hs : list MvValue)
    (st : HostState R),
  NoDup (map fst done ++ map fst rest) ->
  heap (eng st) = (h0 ++ MvRequest vb done :: hs)%list ->
  exists (st' : HostState R) (hs' : list MvValue),
    for_each R rest
      (fun kv =>
         bind R (g (snd kv) "NONAME")
           (fun _ =>
              call R (p_set_request_value_from_pop (len h0 + 1)
                        (str_encode (fst kv)))))
      st = (Ok tt, st') /\
    heap (eng st') =
      (h0 ++ MvRequest vb
               (done ++ map (fun kv => (str_encode (fst kv),
                                        wire_value (snd kv))) rest)
          :: hs')%list /\
    stack (eng st') = stack (eng st) /\
    result (eng st') = result (eng st).
Proof.
  induction rest as [|[k v] rest IH]; intros Hg done hs st Hnd Hheap.
  - exists st, hs. simpl. rewrite app_nil_r. auto.
  - destruct (Hg (k, v) "NONAME" st (or_introl eq_refl))
      as [st1 [Hrun [Hstack [Hres [hs1 Hheap1]]]]].
    simpl for_each. cbn [fst snd] in *.
    rewrite bind_assoc, (bind_Ok R _ _ _ _ _ Hrun), bind_call.
    cbn [eng_call reference machine_call fst snd eng].
    unfold pop. rewrite Hstack.
    rewrite Hheap in Hheap1. rewrite <- app_assoc in Hheap1.
    simpl in Hheap1.
    set (m1 := mkMachine (heap (eng st1)) (stack (eng st)) (result (eng st1))).
    rewrite (deref_middle m1 h0 (hs ++ hs1) _ Hheap1).
    cbn [fst snd].
    rewrite (store_middle m1 h0 (hs ++ hs1) _ _ Hheap1).
    subst m1. cbn [stack result].
    assert (Hk : ~ In k (map fst done)).
    { simpl in Hnd. apply NoDup_remove_2 in Hnd. intros Hin. apply Hnd.
      apply in_or_app. now left. }
    unfold str_encode at 1. rewrite (dict_set_fresh _ _ _ Hk).
    match goal with |- context [for_each R rest ?b ?s] =>
      destruct (IH (fun kv name st H => Hg kv name st (or_intror H))
                  (done ++ [(k, wire_value v)])%list (hs ++ hs1)%list s)
        as [st' [hs' [Hloop [Hh [Hs Hr]]]]]
    end.
    { rewrite map_app. simpl. rewrite <- app_assoc. exact Hnd. }
    { cbn [eng heap]. reflexivity. }
    exists st', hs'. split; [exact Hloop|].
    rewrite <- app_assoc in Hh. simpl in Hh.
    cbn [eng stack result] in Hs, Hr. rewrite Hres in Hr. auto.
Qed.

Lemma push_request_structured (g : PyVal -> string -> M R Z) (r : Request)
  (st : HostState R) :
  truthy (val_pointer r) = false ->
  NoDup (map fst (items r)) ->
  (forall kv name st, In kv (items r) ->
     exists st', g (snd kv) name st = (Ok 1, st') /\
                 pushes (wire_value (snd kv)) st st') ->
  exists st',
    Request_push_body R g r st = (Ok tt, st') /\
    pushes (MvRequest (Some (str_encode (verb r)))
              (map (fun kv => (str_encode (fst kv), wire_value (snd kv)))
                 (items r))) st st'.
Proof.
  intros Ht Hnd Hg. unfold Request_push_body. rewrite Ht.
  rewrite bind_call.
  cbn [eng_call reference machine_call alloc fst snd].
  match goal with |- context [bind R (for_each R _ ?b) _ ?s] =>
    destruct (push_request_loop g (heap (eng st))
                (Some (str_encode (verb r))) (items r) Hg [] [] s)
      as [st1 [hs1 [Hloop [Hh [Hs Hr]]]]]
  end.
  { exact Hnd. }
  { reflexivity. }
  rewrite (bind_Ok R _ _ _ _ _ Hloop).
  rewrite call_run. cbn [eng_call reference machine_call fst snd eng].
  eexists. split; [reflexivity|].
  simpl in Hh. unfold pushes. cbn [eng stack result heap push].
  rewrite (deref_middle _ _ _ _ Hh), Hs, Hr, Hh. cbn [eng stack result].
  repeat split. eexists. reflexivity.
Qed.

(** Pushing a structured value leaves its engine value on top of the
    stack. *)
Lemma push_structured (k : nat) :
  forall (n : PyVal) (name : string) (st : HostState R),
  (depth n < k)%nat -> structured n = true ->
  exists st',
    push_arg R n name st = (Ok 1, st') /\ pushes (wire_value n) st st'.
Proof.
  induction k as [|k IH]; intros n name st Hk Hn; [lia|].
  rewrite push_arg_eq. unfold push_arg_body.
  assert (Hnum : forall x,
            exists st',
              bind R (call R (p_push_number x)) (fun _ => ret R 1) st
              = (Ok 1, st') /\ pushes (MvNumber x) st st').
  { intros x. rewrite bind_call. eexists. split; [reflexivity|].
    unfold pushes. simpl. repeat split. exists []. now rewrite app_nil_r. }
  assert (Hlist : forall l,
            (forall v, In v l -> (depth v < k)%nat /\ structured v = true) ->
            exists st',
              bind R (push_list_body R (push_arg R) l) (fun _ => ret R 1) st
              = (Ok 1, st') /\ pushes (MvList (map wire_value l)) st st').
  { intros l Hl. unfold push_list_body. rewrite bind_assoc, bind_call.
    cbn [eng_call reference machine_call alloc fst snd].
    rewrite bind_assoc.
    match goal with |- context [bind R (for_enumerate R _ l ?b) _ ?s] =>
      destruct (push_list_loop_structured (push_arg R) (heap (eng st)) l)
        with (done := @nil MvValue) (hs := @nil MvValue) (st := s)
        as [st1 [hs1 [Hloop [Hh [Hs Hr]]]]]
    end.
    { intros v nm st0 Hin. destruct (Hl v Hin). now apply IH. }
    { cbn [eng heap]. simpl. unfold len. now rewrite Nat2Z.id. }
    change (len (@nil MvValue)) with 0 in Hloop.
    rewrite (bind_Ok R _ _ _ _ _ Hloop).
    rewrite bind_call. cbn [eng_call reference machine_call fst snd eng].
    eexists. split; [reflexivity|].
    simpl in Hh. unfold pushes. cbn [eng stack result heap push].
    rewrite (deref_middle _ _ _ _ Hh), Hs, Hr, Hh. cbn [eng stack result].
    repeat split. eexists. reflexivity. }
  assert (Hreq : forall r : Request,
            truthy (val_pointer r) = false ->
            NoDup (map fst (items r)) ->
            (forall kv, In kv (items r) ->
               (depth (snd kv) < k)%nat /\ structured (snd kv) = true) ->
            exists st',
              bind R (Request_push_body R (push_arg R) r) (fun _ => ret R 1) st
              = (Ok 1, st') /\
              pushes (MvRequest (Some (str_encode (verb r)))
                        (map (fun kv => (str_encode (fst kv),
                                         wire_value (snd kv))) (items r)))
                st st').
  { intros r Ht Hnd Hr.
    destruct (push_request_structured (push_arg R) r st Ht Hnd)
      as [st' [Hrun Hp]].
    - intros kv nm st0 Hin. destruct (Hr kv Hin). now apply IH.
    - rewrite (bind_Ok R _ _ _ _ _ Hrun). exists st'.
      split; [reflexivity|exact Hp]. }
  destruct n; simpl in Hn; try discriminate.
  - apply Hnum.
  - unfold wire_value, number_of.
    destruct (float_of_int i) eqn:Hi; try discriminate.
    rewrite bind_assoc, bind_lift_Ok. apply Hnum.
  - unfold wire_value, number_of.
    replace (float_of_int (Z.b2z b)) with (Ok (if b then one else zero))
      by (destruct b; vm_compute; reflexivity).
    rewrite bind_assoc, bind_lift_Ok. apply Hnum.
  - unfold push_str, push_bytes. rewrite bind_call. eexists.
    split; [reflexivity|].
    unfold pushes. simpl. repeat split. exists []. now rewrite app_nil_r.
  - apply andb_prop in Hn as [Hn Hvals]. apply andb_prop in Hn as [Ht Hd].
    apply negb_true_iff in Ht. apply distinct_NoDup in Hd.
    rewrite forallb_forall in Hvals.
    apply Hreq; auto. intros kv Hin. split; [|now apply Hvals].
    apply max_depth_In in Hin. unfold max_depth in Hin. simpl in Hk. lia.
  - apply andb_prop in Hn as [Hd Hvals]. apply distinct_NoDup in Hd.
    rewrite forallb_forall in Hvals.
    rewrite bind_assoc. simpl Request_init. rewrite bind_ret.
    rewrite dict_update_distinct by exact Hd. simpl app.
    rewrite to_metview_style_distinct by exact Hd.
    destruct (Hreq (mkRequest "UNKNOWN" None (map metview_item d)))
      as [st' [Hrun Hp]]; auto.
    + simpl. now rewrite metview_item_keys.
    + simpl. intros kv Hin. apply in_map_iff in Hin as [[k0 v0] [<- Hin]].
      simpl. split.
      * pose proof (depth_metview_value v0).
        apply max_depth_In in Hin. unfold max_depth in Hin.
        simpl in Hin, Hk. lia.
      * apply structured_metview_value. now apply (Hvals (k0, v0)).
    + exists st'. split; [exact Hrun|].
      simpl in Hp. rewrite map_map in Hp. simpl in Hp.
      erewrite map_ext in Hp; [exact Hp|].
      intros [k0 v0]. simpl. now rewrite wire_metview_value.
  - apply Hlist. intros v Hin. rewrite forallb_forall in Hn.
    split; [|now apply Hn].
    apply list_depth_In in Hin. simpl in Hk. lia.
  - apply Hlist. intros v Hin. rewrite forallb_forall in Hn.
    split; [|now apply Hn].
    apply list_depth_In in Hin. simpl in Hk. lia.
Qed.

End ReferenceRequests.

(** ** A call with structured arguments on the reference engine *)

Lemma pulled_text (rest : dict) :
  forall done : dict,
  NoDup (map fst done ++ map fst rest) ->
  (forall kv, In kv rest -> exists s, snd kv = PyStr s) ->
  pulled
    (map (fun kv => (str_encode (fst kv),
                     match snd kv with
                     | PyStr s => Some (str_encode s)
                     | _ => None
                     end)) rest) done
  = (done ++ rest)%list.
Proof.
  unfold pulled.
  induction rest as [|[k v] rest IH]; intros done Hnd Hs; simpl.
  - now rewrite app_nil_r.
  - destruct (Hs (k, v) (or_introl eq_refl)) as [s Hv]. simpl in Hv. subst v.
    unfold pull at 2. cbn [fst snd]. unfold str_encode at 1 2.
    assert (Hk : ~ In k (map fst done)).
    { simpl in Hnd. apply NoDup_remove_2 in Hnd. intros Hin. apply Hnd.
      apply in_or_app. now left. }
    rewrite (dict_set_fresh _ _ _ Hk), IH.
    + now rewrite <- app_assoc.
    + rewrite map_app. simpl. rewrite <- app_assoc. exact Hnd.
    + intros kv Hin. apply Hs. now right.
Qed.

Lemma request_items_text (its : dict) :
  NoDup (map fst its) ->
  (forall kv, In kv its -> exists s, snd kv = PyStr s) ->
  request_items
    (map (fun kv => (str_encode (fst kv), wire_value (snd kv))) its) = its.
Proof.
  intros Hnd Hs. unfold request_items. rewrite map_map. cbn [fst].
  erewrite map_ext_in.
  - apply (pulled_text its []); auto.
  - intros [k v] Hin. cbn [fst snd]. f_equal.
    destruct (Hs (k, v) Hin) as [s Hv]. simpl in Hv. subst v.
    unfold req_value.
    rewrite (dict_get_In (str_encode k) (MvString (str_encode s))).
    + reflexivity.
    + rewrite map_map. cbn [fst]. exact Hnd.
    + apply in_map_iff. exists (k, PyStr s). auto.
Qed.

Lemma textual_structured (r : Request) :
  textual r = true -> structured (PyRequest r) = true.
Proof.
  unfold textual. intros H. apply andb_prop in H as [H Hv].
  apply andb_prop in H as [H Hd]. apply andb_prop in H as [Ht _].
  simpl. rewrite Ht, Hd. simpl. apply forallb_forall. intros kv Hin.
  rewrite forallb_forall in Hv. specialize (Hv kv Hin).
  apply andb_prop in Hv as [_ Hv]. destruct (snd kv); auto; discriminate.
Qed.

Lemma textual_wf (r : Request) :
  textual r = true -> wf_value (wire_value (PyRequest r)) = true.
Proof.
  unfold textual. intros H. apply andb_prop in H as [H Hv].
  apply andb_prop in H as [H _]. apply andb_prop in H as [_ Hverb].
  simpl. rewrite Hverb. simpl. apply forallb_forall.
  intros kv' Hin. apply in_map_iff in Hin as [kv [<- Hin]].
  rewrite forallb_forall in Hv. specialize (Hv kv Hin).
  apply andb_prop in Hv as [Hk Hv]. cbn [fst snd]. rewrite Hk. simpl.
  destruct (snd kv); try discriminate. exact Hv.
Qed.

Lemma flat_map_metview_item (l : dict) :
  flat_map (fun kv => [MvString (str_encode (fst kv)); wire_value (snd kv)])
    (map metview_item l)
  = flat_map (fun kv => [MvString (str_encode (fst kv));
                         wire_value (metview_value (snd kv))]) l.
Proof.
  induction l as [|[k v] l IH]; simpl; [reflexivity|]. now rewrite IH.
Qed.

Section ReferenceStructuredCall.

Variable functions : bytes -> list MvValue -> MvValue.

#[local] Abbreviation R := (reference functions).

Lemma wire_value_frames (args : list PyVal) (frames : list MvValue) :
  Forall2 (fun n x => x = wire_value n) args frames ->
  frames = map wire_value args.
Proof. induction 1; simpl; congruence. Qed.

(** The loop of [dict_to_pushed_args]: the name, then the value, of each
    keyword argument. *)
Lemma kwargs_loop_structured (l : dict) :
  (forall kv, In kv l -> structured (snd kv) = true) ->
  forall st : HostState R,
  exists st',
    for_each R l
      (fun kv =>
         bind R (push_str R (fst kv))
           (fun _ => bind R (push_arg R (snd kv) "NONE")
                       (fun _ => ret R tt))) st = (Ok tt, st') /\
    stack (eng st') =
      (rev (flat_map (fun kv => [MvString (str_encode (fst kv));
                                 wire_value (snd kv)]) l)
       ++ stack (eng st))%list.
Proof.
  induction l as [|[k v] l IH]; intros Hl st.
  - exists st. simpl. auto.
  - simpl for_each. unfold push_str, push_bytes.
    rewrite !bind_assoc, (bind_Ok R _ _ _ _ _ (call_unit R _ st)).
    destruct (push_structured functions (S (depth v)) v "NONE"
                (after (p_push_string (str_encode k)) st))
      as [st1 [H1 [Hs1 _]]]; [lia|apply (Hl (k, v)); now left|].
    cbn [fst snd].
    rewrite !bind_assoc, (bind_Ok R _ _ _ _ _ H1), !bind_ret.
    destruct (IH (fun kv H => Hl kv (or_intror H)) st1) as [st2 [H2 Hs2]].
    exists st2. split; [exact H2|].
    rewrite Hs2, Hs1. unfold after. simpl. rewrite <- !app_assoc.
    reflexivity.
Qed.

Lemma call_function_structured (name : string) (args : list PyVal)
  (kwargs : dict) (st : HostState R) :
  dict_get "name" kwargs = None ->
  forallb structured args = true ->
  distinct (map fst kwargs) = true ->
  forallb (fun kv => structured (snd kv)) kwargs = true ->
  exists st',
    _call_function R name args kwargs st = (Ok tt, st') /\
    stack (eng st') = stack (eng st) /\
    result (eng st') = functions (str_encode name) (call_frames args kwargs).
Proof.
  intros Hname Hargs Hd Hkw. apply distinct_NoDup in Hd.
  rewrite forallb_forall in Hargs, Hkw.
  destruct (args_loop_frames functions (fun n x => x = wire_value n) name args)
    with (nargs := 0) (st := st) as [st1 [fa [H1 [Hs1 HQ]]]].
  { intros n s Hin.
    destruct (push_structured functions (S (depth n)) n name s)
      as [s' [Hp [Hx _]]]; [lia|now apply Hargs|].
    exists s', (wire_value n). auto. }
  apply wire_value_frames in HQ. subst fa.
  assert (Hmerge : dict_update [] kwargs = kwargs).
  { now apply (dict_update_distinct kwargs []). }
  unfold _call_function. rewrite Hname.
  rewrite (bind_Ok R _ _ _ _ _ H1), Z.add_0_l.
  cbv zeta. rewrite !Hmerge.
  destruct (len kwargs >? 0) eqn:Hpos.
  - rewrite !bind_assoc. simpl Request_init. rewrite bind_ret, Hmerge.
    rewrite (to_metview_style_distinct _ Hd).
    unfold dict_to_pushed_args. cbn [items].
    destruct (kwargs_loop_structured (map metview_item kwargs))
      with (st := st1) as [st2 [H2 Hs2]].
    { intros kv Hin. apply in_map_iff in Hin as [[k0 v0] [<- Hin]].
      apply structured_metview_value. now apply (Hkw (k0, v0)). }
    rewrite !bind_assoc, (bind_Ok R _ _ _ _ _ H2), !bind_ret, call_unit.
    eexists. split; [reflexivity|].
    rewrite flat_map_metview_item in Hs2.
    set (fk := flat_map _ kwargs) in *.
    assert (Hlen : len (rev fk ++ rev (map wire_value args)) =
                   len args + 2 * len (map metview_item kwargs)).
    { unfold len. rewrite length_app, !length_rev, !length_map.
      subst fk. clear. induction kwargs as [|kv l IH]; simpl; lia. }
    unfold after. cbn [eng eng_call reference machine_call snd stack result].
    rewrite Hs2, Hs1, app_assoc.
    rewrite (skipn_frames _ _ _ Hlen), (firstn_frames _ _ _ Hlen).
    split; [reflexivity|].
    unfold call_frames. fold fk.
    now rewrite rev_app_distr, !rev_involutive.
  - rewrite bind_ret, call_unit.
    assert (Hnil : kwargs = []).
    { rewrite Z.gtb_ltb in Hpos. apply Z.ltb_ge in Hpos.
      destruct kwargs; [reflexivity|]. unfold len in Hpos. simpl in Hpos.
      lia. }
    subst kwargs. eexists. split; [reflexivity|].
    assert (Hlen : len (rev (map wire_value args)) = len args).
    { unfold len. now rewrite length_rev, length_map. }
    unfold after. cbn [eng eng_call reference machine_call snd stack result].
    rewrite Hs1.
    rewrite (skipn_frames _ _ _ Hlen), (firstn_frames _ _ _ Hlen).
    split; [reflexivity|].
    unfold call_frames. simpl. now rewrite rev_involutive, app_nil_r.
Qed.

(** A call with structured arguments comes down to decoding the value the
    engine function gives for the frames of the call. *)
Lemma make_structured_run (name : string) (args : list PyVal)
  (kwargs : dict) (st : HostState R) :
  dict_get "name" kwargs = None ->
  forallb structured args = true ->
  distinct (map fst kwargs) = true ->
  forallb (fun kv => structured (snd kv)) kwargs = true ->
  exists (st3 : HostState R) (p : ptr),
    (forall fuel,
       make R fuel name args kwargs st = value_from_metview R fuel p st3) /\
    valid (eng st3) p /\
    deref (eng st3) p = functions (str_encode name) (call_frames args kwargs) /\
    stack (eng st3) = stack (eng st).
Proof.
  intros Hname Hargs Hd Hkw.
  destruct (call_function_structured name args kwargs st Hname Hargs Hd Hkw)
    as [st1 [Hcall [Hs Hr]]].
  eexists. eexists. split; [|split; [|split]].
  - intros fuel. unfold make.
    rewrite (bind_Ok R _ _ _ _ _ Hcall), bind_call. reflexivity.
  - unfold valid, len.
    cbn [eng eng_call reference machine_call alloc fst snd heap].
    unfold len. rewrite length_app. simpl List.length. lia.
  - cbn [eng eng_call reference machine_call alloc fst snd heap result].
    etransitivity;
      [apply (deref_middle _ (heap (eng st1)) []); reflexivity|].
    exact Hr.
  - cbn [eng eng_call reference machine_call alloc fst snd stack].
    exact Hs.
Qed.

End ReferenceStructuredCall.

(** X16: on the reference engine, a named call whose arguments are
    structured values and whose keyword names are distinct, none of them
    name, applies the engine function to exactly these frames, in this
    order: the positional arguments as encoded, then, for each keyword
    argument, its name as a string and its value, a bool value as "on" or
    "off"; a dict is a request of verb "UNKNOWN".  The argument stack is
    left as found. *)
Theorem X16_call_frames
  (functions : bytes -> list MvValue -> MvValue) (name : string)
  (args : list PyVal) (kwargs : dict) (st : HostState (reference functions)) :
  dict_get "name" kwargs = None ->
  forallb structured args = true ->
  distinct (map fst kwargs) = true ->
  forallb (fun kv => structured (snd kv)) kwargs = true ->
  exists st',
    _call_function (reference functions) name args kwargs st = (Ok tt, st') /\
    stack (eng st') = stack (eng st) /\
    result (eng st') = functions (str_encode name) (call_frames args kwargs).
Proof.
  intros Hname Hargs Hd Hkw.
  destruct (call_function_structured functions name args kwargs st
              Hname Hargs Hd Hkw)
    as [st' [Hrun [Hs Hr]]].
  exists st'. auto.
Qed.

Lemma X16_call_frames_witness :
  exists st',
    _call_function (reference arguments_given) "retrieve"
      [PyDict [("levelist", PyList [PyInt 1; PyInt 2]); ("expand", PyBool true)]]
      [("grid", PyTuple [PyInt 2; PyInt 2]); ("interpolate", PyBool false)]
      (start arguments_given) = (Ok tt, st') /\
    stack (eng st') = [] /\
    result (eng st') =
      MvList
        [MvRequest (Some "UNKNOWN")
           [("levelist", MvList [MvNumber one; MvNumber two]);
            ("expand", MvString "on")];
         MvString "grid"; MvList [MvNumber two; MvNumber two];
         MvString "interpolate"; MvString "off"].
Proof.
  apply (X16_call_frames arguments_given "retrieve"
           [PyDict [("levelist", PyList [PyInt 1; PyInt 2]);
                    ("expand", PyBool true)]]
           [("grid", PyTuple [PyInt 2; PyInt 2]);
            ("interpolate", PyBool false)]
           (start arguments_given)); reflexivity.
Defined.

(** X17: on the reference engine, a Request built on the host side whose
    verb, keys and values are text survives a trip through the engine: a
    binding whose engine function gives back its argument returns a Request
    with the same verb and the same items in the same order, now holding
    the engine's handle. *)
Theorem X17_request_round_trip
  (functions : bytes -> list MvValue -> MvValue) (name : string)
  (r : Request) (st : HostState (reference functions)) :
  textual r = true ->
  functions (str_encode name) [wire_value (PyRequest r)]
  = wire_value (PyRequest r) ->
  exists r' st',
    make (reference functions) 1 name [PyRequest r] [] st
    = (Ok (PyRequest r'), st') /\
    verb r' = verb r /\ items r' = items r /\ val_pointer r' <> None.
Proof.
  intros Hr Hf.
  destruct (make_structured_run functions name [PyRequest r] [] st)
    as [st3 [p [Hrun [Hvalid [Hderef _]]]]].
  { reflexivity. }
  { cbn [forallb]. rewrite (textual_structured r Hr). reflexivity. }
  { reflexivity. }
  { reflexivity. }
  change (call_frames [PyRequest r] []) with [wire_value (PyRequest r)]
    in Hderef.
  rewrite Hf in Hderef.
  destruct (decode_reference functions 1 (wire_value (PyRequest r)) p st3)
    as [pv [st' [Hdec [Hpv _]]]];
    [simpl; lia|now apply textual_wf|exact Hvalid|exact Hderef|].
  simpl wire_value in Hpv.
  destruct pv; simpl in Hpv; try contradiction.
  destruct Hpv as [Hverb [Hptr Hitems]].
  exists r0, st'. rewrite Hrun. split; [exact Hdec|].
  split; [unfold str_encode in Hverb; congruence|]. split; [|exact Hptr].
  rewrite Hitems. apply request_items_text.
  - apply distinct_NoDup.
    unfold textual in Hr. apply andb_prop in Hr as [Hr _].
    apply andb_prop in Hr as [_ Hr]. exact Hr.
  - intros kv Hin. unfold textual in Hr. apply andb_prop in Hr as [_ Hr].
    rewrite forallb_forall in Hr. specialize (Hr kv Hin).
    apply andb_prop in Hr as [_ Hr].
    destruct (snd kv); try discriminate. eauto.
Qed.

Lemma X17_request_round_trip_witness :
  exists r' st',
    make (reference first_argument) 1 "identity"
      [PyRequest (mkRequest "RETRIEVE" None
                    [("param", PyStr "2t"); ("interpolate", PyStr "on")])]
      [] (start first_argument)
    = (Ok (PyRequest r'), st') /\
    verb r' = "RETRIEVE" /\
    items r' = [("param", PyStr "2t"); ("interpolate", PyStr "on")] /\
    val_pointer r' <> None.
Proof.
  apply (X17_request_round_trip first_argument "identity"
           (mkRequest "RETRIEVE" None
              [("param", PyStr "2t"); ("interpolate", PyStr "on")])
           (start first_argument)); reflexivity.
Defined.

(** ** Subscripting a fieldset *)

(** X18: on the reference engine, subscripting a fieldset with the int
    [index] applies the engine function "[]" to the engine value at the
    fieldset's handle and the number [index + 1], and decodes what it
    gives: the index sent is one-based and a negative index is not wrapped.
    When [index + 1] does not fit a double, OverflowError is raised after
    the fieldset was pushed: its frame is left on the argument stack. *)
Theorem X18_fieldset_subscript
  (functions : bytes -> list MvValue -> MvValue) (fuel : nat)
  (self : FileBackedValue) (index : Z) (st : HostState (reference functions)) :
  (forall x : pyfloat,
     float_of_int (index + 1) = Ok x ->
     exists (st3 : HostState (reference functions)) (p : ptr),
       Fieldset_getitem (reference functions) fuel self index st
       = value_from_metview (reference functions) fuel p st3 /\
       deref (eng st3) p
       = functions (str_encode "[]")
           [deref (eng st) (fb_val_pointer self); MvNumber x] /\
       stack (eng st3) = stack (eng st)) /\
  (forall e : PyExn,
     float_of_int (index + 1) = Raise e ->
     exists st' : HostState (reference functions),
       Fieldset_getitem (reference functions) fuel self index st
       = (Raise e, st') /\
       stack (eng st')
       = deref (eng st) (fb_val_pointer self) :: stack (eng st)).
Proof.
  assert (Hself : push_arg (reference functions) (PyFieldset self) "[]" st
                  = (Ok 1, after (p_push_value (fb_val_pointer self)) st)).
  { rewrite push_arg_eq. unfold push_arg_body.
    now rewrite (bind_Ok _ _ _ _ _ _ (call_unit _ _ st)). }
  unfold Fieldset_getitem, python_to_mv_index, subset, make. split.
  - intros x Hx.
    rewrite (bind_Ok _ _ _ _ _ _
               (call_function_two _ "[]" _ _ _ _ _ Hself
                  (push_arg_int _ _ _ _ _ Hx))).
    rewrite bind_call. eexists. eexists. split; [reflexivity|].
    cbn [eng eng_call reference machine_call alloc fst snd heap stack result
         after push].
    split; [|reflexivity].
    etransitivity; [eapply (deref_middle _ _ []); reflexivity|].
    reflexivity.
  - intros e He. unfold _call_function. cbn [dict_get]. simpl for_acc.
    assert (Hidx : forall s,
              push_arg (reference functions) (PyInt (index + 1)) "[]" s
              = (Raise e, s)).
    { intros s. rewrite push_arg_eq. unfold push_arg_body, bind, lift.
      now rewrite He. }
    rewrite !bind_assoc, (bind_Ok _ _ _ _ _ _ Hself), bind_ret.
    rewrite !bind_assoc, (bind_Raise _ _ _ _ _ _ (Hidx _)).
    eexists. split; [reflexivity|]. reflexivity.
Qed.

Lemma X18_fieldset_subscript_witness :
  exists (st3 : HostState (reference arguments_given)) (p : ptr),
    Fieldset_getitem (reference arguments_given) 2
      (mkFileBacked 1 "/tmp/a.grib") (-1)
      (@mkHost (reference arguments_given) []
         (mkMachine [MvFieldset (Some "/tmp/a.grib")] [] MvNil))
    = value_from_metview (reference arguments_given) 2 p st3 /\
    deref (eng st3) p
    = MvList [MvFieldset (Some "/tmp/a.grib"); MvNumber zero] /\
    stack (eng st3) = [].
Proof.
  apply (proj1 (X18_fieldset_subscript arguments_given 2
                  (mkFileBacked 1 "/tmp/a.grib") (-1)
                  (@mkHost (reference arguments_given) []
                     (mkMachine [MvFieldset (Some "/tmp/a.grib")] [] MvNil)))
           zero).
  reflexivity.
Defined.

(** ** A call that fails half way *)

Section FailedCall.

Variable functions : bytes -> list MvValue -> MvValue.

#[local] Abbreviation R := (reference functions).

Lemma for_acc_app {A S : Type} (body : A -> S -> M R S) (l1 l2 : list A) :
  forall (acc : S) (st : HostState R),
  for_acc R (l1 ++ l2) body acc st
  = bind R (for_acc R l1 body acc) (fun a => for_acc R l2 body a) st.
Proof.
  induction l1 as [|x l1 IH]; intros acc st; simpl.
  - now rewrite bind_ret.
  - rewrite bind_assoc. apply bind_ext; [reflexivity|].
    intros a s. apply IH.
Qed.

Lemma failed_call_frames (name : string) (before rest : list PyVal)
  (bad : PyVal) (kwargs : dict) (st : HostState R) :
  dict_get "name" kwargs = None ->
  forallb structured before = true ->
  supported bad = false ->
  exists st' : HostState R,
    _call_function R name (before ++ bad :: rest) kwargs st
    = (Raise (TypeError "Cannot push this type of argument to Metview: "
                (py_type bad)), st') /\
    stack (eng st') = (rev (map wire_value before) ++ stack (eng st))%list.
Proof.
  intros Hname Hb Hbad. rewrite forallb_forall in Hb.
  destruct (args_loop_frames functions
              (fun n x => x = wire_value n) name before)
    with (nargs := 0) (st := st) as [st1 [fa [H1 [Hs1 HQ]]]].
  { intros n s Hin.
    destruct (push_structured functions (S (depth n)) n name s)
      as [s' [Hp [Hx _]]]; [lia|now apply Hb|].
    exists s', (wire_value n). auto. }
  apply wire_value_frames in HQ. subst fa.
  exists st1. split; [|exact Hs1].
  unfold _call_function. rewrite Hname.
  erewrite (bind_ext R); [|apply for_acc_app|intros; reflexivity].
  rewrite !bind_assoc, (bind_Ok R _ _ _ _ _ H1).
  simpl for_acc. rewrite !bind_assoc.
  assert (Hpush : push_arg R bad name st1
                  = (Raise (TypeError
                              "Cannot push this type of argument to Metview: "
                              (py_type bad)), st1)).
  { rewrite push_arg_eq. destruct bad; simpl in Hbad; try discriminate;
      reflexivity. }
  now rewrite (bind_Raise R _ _ _ _ _ Hpush).
Qed.

End FailedCall.

(** X19: on the reference engine, a binding called without a keyword
    argument called name fails on the first positional argument the encoder
    does not support, with the TypeError that names the argument's class,
    and nothing is cleaned up: the frames of the arguments before it are
    left on the argument stack, the last pushed on top. *)
Theorem X19_failed_call_leaves_frames
  (functions : bytes -> list MvValue -> MvValue) (fuel : nat) (name : string)
  (before rest : list PyVal) (bad : PyVal) (kwargs : dict)
  (st : HostState (reference functions)) :
  dict_get "name" kwargs = None ->
  forallb structured before = true ->
  supported bad = false ->
  exists st' : HostState (reference functions),
    make (reference functions) fuel name (before ++ bad :: rest) kwargs st
    = (Raise (TypeError "Cannot push this type of argument to Metview: "
                (py_type bad)), st') /\
    stack (eng st') = (rev (map wire_value before) ++ stack (eng st))%list.
Proof.
  intros Hname Hb Hbad.
  destruct (failed_call_frames functions name before rest bad kwargs st
              Hname Hb Hbad) as [st' [Hrun Hstack]].
  exists st'. split; [|exact Hstack].
  unfold make. now rewrite (bind_Raise _ _ _ _ _ _ Hrun).
Qed.

Lemma X19_failed_call_leaves_frames_witness :
  exists st' : HostState (reference no_functions),
    make (reference no_functions) 1 "retrieve"
      [PyStr "z"; PyInt 2; PyNone; PyInt 3] [] (start no_functions)
    = (Raise (TypeError "Cannot push this type of argument to Metview: "
                "NoneType"), st') /\
    stack (eng st') = [MvNumber two; MvString "z"].
Proof.
  apply (X19_failed_call_leaves_frames no_functions 1 "retrieve"
           [PyStr "z"; PyInt 2] [PyInt 3] PyNone [] (start no_functions));
    reflexivity.
Defined.

(** ** The plotting front end *)

(** X20: after [setoutput] was called, plotting goes to the notebook exactly
    when 'jupyter' was among the arguments and a notebook is available,
    even when the engine call of [setoutput] raised; whether a notebook is
    available is never changed.  With 'jupyter' among the arguments nothing
    is sent to the engine, whatever the other arguments are. *)
Theorem X20_setoutput_selects_branch (E : Engine) (fuel : nat)
  (args : list PyVal) (s : Session E) :
  let run := setoutput E fuel args s in
  (plot_to_jupyter (plot (snd run)) && jupyter_available (plot (snd run))
   = existsb is_jupyter args && jupyter_available (plot s))%bool /\
  jupyter_available (plot (snd run)) = jupyter_available (plot s) /\
  (existsb is_jupyter args = true ->
   fst run = Ok tt /\ host (snd run) = host s) /\
  (existsb is_jupyter args = false ->
   host (snd run) = snd (make E fuel "setoutput" args [] (host s))).
Proof.
  cbv zeta. unfold setoutput.
  destruct (existsb is_jupyter args) eqn:Hj.
  - destruct (jupyter_available (plot s)) eqn:Ha; cbn [fst snd plot host
      plot_to_jupyter jupyter_available]; rewrite ?Ha;
      repeat split; try discriminate; auto using andb_false_r.
  - destruct (make E fuel "setoutput" args [] (host s)) as [[v|e|] h];
      cbn [fst snd plot host plot_to_jupyter jupyter_available];
      repeat split; try discriminate; auto.
Qed.

Lemma X20_setoutput_selects_branch_witness :
  fst (setoutput (reference no_functions) 1
         [PyStr "jupyter"; PyStr "ignored"]
         (@mkSession (reference no_functions) (mkPlot false false) []
            (start no_functions))) = Ok tt /\
  host (snd (setoutput (reference no_functions) 1
               [PyStr "jupyter"; PyStr "ignored"]
               (@mkSession (reference no_functions) (mkPlot false false) []
                  (start no_functions)))) = start no_functions.
Proof.
  destruct (X20_setoutput_selects_branch (reference no_functions) 1
              [PyStr "jupyter"; PyStr "ignored"]
              (@mkSession (reference no_functions) (mkPlot false false) []
                 (start no_functions)))
    as [_ [_ [H _]]].
  exact (H eq_refl).
Defined.

Section ReferencePlot.

Variable functions : bytes -> list MvValue -> MvValue.

#[local] Abbreviation R := (reference functions).

(** Decoding a well-formed request gives the Request that holds its
    address, and leaves the machine as it is. *)
Lemma decode_request_handle (fuel : nat) (p : ptr) (vb : bytes)
  (params : list (bytes * MvValue)) (st : HostState R) :
  wf_value (MvRequest (Some vb) params) = true ->
  deref (eng st) p = MvRequest (Some vb) params ->
  exists st',
    value_from_metview R (S fuel) p st
    = (Ok (PyRequest (mkRequest vb (Some p) (request_items params))), st') /\
    eng st' = eng st.
Proof.
  intros Hwf Hderef.
  change (value_from_metview R (S fuel))
    with (value_from_metview_body R (value_from_metview R fuel)).
  unfold value_from_metview_body. rewrite bind_call.
  cbn [eng_call reference machine_call fst snd eng].
  rewrite Hderef. cbn [tag_of]. eval_tags.
  rewrite bind_call. cbn [eng_call reference machine_call fst snd eng].
  rewrite Hderef.
  match goal with |- context [bind R (Request_init R _) _ ?s] =>
    destruct (Request_init_reference functions p vb params s Hwf Hderef)
      as [st' [Hrun He]]
  end.
  rewrite (bind_Ok R _ _ _ _ _ Hrun). exists st'. split; [reflexivity|].
  exact He.
Qed.

(** A call whose first argument is a Request that holds an address and
    whose other arguments are structured. *)
Lemma call_function_held_first (name : string) (r : Request) (p : ptr)
  (args : list PyVal) (st : HostState R) :
  val_pointer r = Some p -> valid (eng st) p ->
  forallb structured args = true ->
  exists st',
    _call_function R name (PyRequest r :: args) [] st = (Ok tt, st') /\
    stack (eng st') = stack (eng st) /\
    result (eng st')
    = functions (str_encode name) (deref (eng st) p :: map wire_value args).
Proof.
  intros Hr Hvalid Hargs. rewrite forallb_forall in Hargs.
  assert (Hnull : p <> NULL) by (unfold valid, NULL in *; lia).
  pose proof (push_arg_request_handle R r p name st Hr Hnull) as Hfirst.
  destruct (args_loop_frames functions (fun n x => x = wire_value n) name args)
    with (nargs := 1) (st := after (p_push_request p) st)
    as [st1 [fa [H1 [Hs1 HQ]]]].
  { intros n s Hin.
    destruct (push_structured functions (S (depth n)) n name s)
      as [s' [Hp [Hx _]]]; [lia|now apply Hargs|].
    exists s', (wire_value n). auto. }
  apply wire_value_frames in HQ. subst fa.
  unfold _call_function. cbn [dict_get]. simpl for_acc.
  rewrite !bind_assoc, (bind_Ok R _ _ _ _ _ Hfirst), bind_ret.
  rewrite ?bind_assoc, (bind_Ok R _ _ _ _ _ H1).
  simpl. rewrite bind_ret, call_unit.
  eexists. split; [reflexivity|].
  assert (Hlen : len (rev (map wire_value args) ++ [deref (eng st) p])
                 = 1 + len args).
  { unfold len. rewrite length_app, length_rev, length_map.
    simpl List.length. lia. }
  unfold after in *.
  cbn [eng eng_call reference machine_call snd stack result push] in *.
  rewrite Hs1.
  change (rev (map wire_value args) ++ deref (eng st) p :: stack (eng st))%list
    with (rev (map wire_value args) ++ [deref (eng st) p] ++ stack (eng st))%list.
  rewrite app_assoc.
  rewrite (skipn_frames _ _ _ Hlen), (firstn_frames _ _ _ Hlen).
  split; [reflexivity|].
  now rewrite rev_app_distr, rev_involutive.
Qed.

Lemma plot_output_type_run
  (jupyter_branch : list PyVal -> M R PyVal)
  (foreign_output_type :
     string -> list PyVal -> dict -> M R (LookupExn + PyVal))
  (fuel : nat) (self : Plot)
  (args : list PyVal) (kwargs : dict) (t name : string) (vb : bytes)
  (params : list (bytes * MvValue)) (st : HostState R) :
  dict_get "self" kwargs = None ->
  (plot_to_jupyter self && jupyter_available self)%bool = false ->
  dict_get "output_type" kwargs = Some (PyStr t) ->
  output_function t = Some name ->
  structured (PyDict (dict_pop "output_type" kwargs)) = true ->
  forallb structured args = true ->
  functions (str_encode name)
    [wire_value (PyDict (dict_pop "output_type" kwargs))]
  = MvRequest (Some vb) params ->
  wf_value (MvRequest (Some vb) params) = true ->
  exists (st3 : HostState R) (p : ptr),
    Plot_call R jupyter_branch foreign_output_type (S fuel) self args kwargs
      st
    = bind R (value_from_metview R (S fuel) p) (fun r => ret R (inr r)) st3 /\
    deref (eng st3) p
    = functions (str_encode "plot")
        (MvRequest (Some vb) params :: map wire_value args) /\
    stack (eng st3) = stack (eng st).
Proof.
  intros Hself Hmode Hkw Hname Hrest Hargs Hout Hwf.
  unfold Plot_call. rewrite Hself, Hmode, Hkw, Hname.
  destruct (make_structured_run functions name
              [PyDict (dict_pop "output_type" kwargs)] [] st)
    as [st1 [p1 [Hrun1 [Hvalid1 [Hderef1 Hstack1]]]]].
  { reflexivity. }
  { cbn [forallb]. now rewrite Hrest. }
  { reflexivity. }
  { reflexivity. }
  change (call_frames [PyDict (dict_pop "output_type" kwargs)] [])
    with [wire_value (PyDict (dict_pop "output_type" kwargs))] in Hderef1.
  rewrite Hout in Hderef1.
  destruct (decode_request_handle fuel p1 vb params st1 Hwf Hderef1)
    as [st2 [Hdec Heng]].
  rewrite (bind_Ok R _ _ _ _ _
             (eq_trans (Hrun1 (S fuel)) Hdec)).
  set (r := mkRequest vb (Some p1) (request_items params)).
  destruct (call_function_held_first "plot" r p1 args st2)
    as [st3 [Hcall [Hstack3 Hres3]]]; [reflexivity|now rewrite Heng|exact Hargs|].
  unfold make at 1.
  rewrite !bind_assoc, (bind_Ok R _ _ _ _ _ Hcall), ?bind_assoc, bind_call.
  eexists. eexists. split; [reflexivity|].
  cbn [eng eng_call reference machine_call alloc fst snd heap stack result].
  split.
  - etransitivity;
      [apply (deref_middle _ (heap (eng st3)) []); reflexivity|].
    rewrite Hres3, Heng, Hderef1. reflexivity.
  - now rewrite Hstack3, Heng.
Qed.

End ReferencePlot.

(** X22: on the reference engine, outside the notebook, [plot] called
    without a keyword argument called self and with an 'output_type' of
    "png" or "ps" in any case of letters is two engine calls chained: the output function of that name is applied to one
    request of verb "UNKNOWN" made of the other keyword arguments, and,
    when it gives a well-formed request, "plot" is applied to that very
    request followed by the positional arguments; what "plot" gives is
    decoded and returned, and the argument stack is left as found. *)
Theorem X22_plot_output_type
  (functions : bytes -> list MvValue -> MvValue)
  (jupyter_branch : list PyVal -> M (reference functions) PyVal)
  (foreign_output_type :
     string -> list PyVal -> dict ->
     M (reference functions) (LookupExn + PyVal))
  (fuel : nat) (self : Plot) (args : list PyVal) (kwargs : dict)
  (t name : string) (vb : bytes) (params : list (bytes * MvValue))
  (st : HostState (reference functions)) :
  dict_get "self" kwargs = None ->
  (plot_to_jupyter self && jupyter_available self)%bool = false ->
  dict_get "output_type" kwargs = Some (PyStr t) ->
  (lower t = "png" /\ name = "png_output" \/
   lower t = "ps" /\ name = "ps_output") ->
  structured (PyDict (dict_pop "output_type" kwargs)) = true ->
  forallb structured args = true ->
  functions (str_encode name)
    [wire_value (PyDict (dict_pop "output_type" kwargs))]
  = MvRequest (Some vb) params ->
  wf_value (MvRequest (Some vb) params) = true ->
  exists (st3 : HostState (reference functions)) (p : ptr),
    Plot_call (reference functions) jupyter_branch foreign_output_type
      (S fuel) self args kwargs st
    = bind (reference functions)
        (value_from_metview (reference functions) (S fuel) p)
        (fun r => ret (reference functions) (inr r)) st3 /\
    deref (eng st3) p
    = functions (str_encode "plot")
        (MvRequest (Some vb) params :: map wire_value args) /\
    stack (eng st3) = stack (eng st).
Proof.
  intros Hself Hmode Hkw Ht Hrest Hargs Hout Hwf.
  apply (plot_output_type_run functions jupyter_branch foreign_output_type
           fuel self args kwargs t name vb params st); auto.
  unfold output_function. cbv zeta.
  destruct Ht as [[-> ->]|[-> ->]]; reflexivity.
Qed.

Lemma X22_plot_output_type_witness :
  exists (st3 : HostState (reference first_argument)) (p : ptr),
    Plot_call (reference first_argument) (fun _ => ret _ PyNone)
      (fun _ _ _ => ret _ (inl KeyError)) 1
      (mkPlot false false) [PyStr "data"]
      [("output_type", PyStr "PNG"); ("output_name", PyStr "map")]
      (start first_argument)
    = bind (reference first_argument)
        (value_from_metview (reference first_argument) 1 p)
        (fun r => ret (reference first_argument) (inr r)) st3 /\
    deref (eng st3) p
    = MvRequest (Some "UNKNOWN") [("output_name", MvString "map")] /\
    stack (eng st3) = [].
Proof.
  apply (X22_plot_output_type first_argument (fun _ => ret _ PyNone)
           (fun _ _ _ => ret _ (inl KeyError)) 0
           (mkPlot false false) [PyStr "data"]
           [("output_type", PyStr "PNG"); ("output_name", PyStr "map")]
           "PNG" "png_output" "UNKNOWN" [("output_name", MvString "map")]
           (start first_argument));
    try reflexivity.
  left. split; reflexivity.
Defined.

(** ** Notebook detection *)

Lemma answers_cached (probes : list (option bool)) (b : bool) :
  answers probes (Some b) = repeat b (List.length probes).
Proof.
  induction probes as [|probe rest IH]; simpl; [reflexivity|].
  now rewrite IH.
Qed.

(** X23: the answer of [is_ipython_active] is settled by the first call:
    however the environment changes afterwards, every later call repeats
    the first answer without probing, and that answer is False when the
    first probe raised. *)
Theorem X23_ipython_answer_cached (probe : option bool)
  (later : list (option bool)) :
  answers (probe :: later) None
  = repeat (match probe with Some b => b | None => false end)
      (S (List.length later)).
Proof.
  simpl. now rewrite answers_cached.
Qed.

(** ** Operators of the file-backed classes *)

Section ReferenceOperators.

Variable functions : bytes -> list MvValue -> MvValue.

#[local] Abbreviation R := (reference functions).

Lemma push_arg_handle (n : PyVal) (p : ptr) (name : string)
  (st : HostState R) :
  handle n = Some p ->
  push_arg R n name st = (Ok 1, after (p_push_value p) st).
Proof.
  intros H. rewrite push_arg_eq. unfold push_arg_body.
  destruct n; try discriminate; injection H as <-;
    now rewrite (bind_Ok R _ _ _ _ _ (call_unit R _ st)).
Qed.

Lemma push_operand (n : PyVal) (name : string) (st : HostState R) :
  handle n <> None \/ structured n = true ->
  exists st',
    push_arg R n name st = (Ok 1, st') /\
    stack (eng st') = operand (eng st) n :: stack (eng st).
Proof.
  unfold operand. intros H. destruct (handle n) as [p|] eqn:Hn.
  - exists (after (p_push_value p) st).
    split; [now apply push_arg_handle|reflexivity].
  - destruct H as [H|H]; [congruence|].
    destruct (push_structured functions (S (depth n)) n name st)
      as [st' [Hrun [Hs _]]]; [lia|exact H|].
    exists st'. auto.
Qed.

Lemma method_on_engine (fuel : nat) (self other : PyVal) (m : Method)
  (name : string) (st : HostState R) :
  engine_function self m = Some name ->
  handle other <> None \/ structured other = true ->
  exists (run : M R PyVal) (st3 : HostState R) (p : ptr),
    call_method R fuel self m other = Some run /\
    run st = value_from_metview R fuel p st3 /\
    deref (eng st3) p
    = functions (str_encode name)
        [operand (eng st) self; operand (eng st) other] /\
    stack (eng st3) = stack (eng st).
Proof.
  intros Hm Hother. unfold call_method. rewrite Hm.
  assert (Hself : exists h, handle self = Some h).
  { destruct self; try discriminate; simpl; eauto. }
  destruct Hself as [h Hh].
  pose proof (push_arg_handle self h name st Hh) as H1.
  destruct (push_operand other name (after (p_push_value h) st) Hother)
    as [st2 [H2 Hs2]].
  assert (Hsame : operand (eng (after (p_push_value h) st)) other
                  = operand (eng st) other).
  { unfold operand. destruct (handle other); reflexivity. }
  rewrite Hsame in Hs2.
  eexists. eexists. eexists. split; [reflexivity|].
  unfold make.
  rewrite (bind_Ok R _ _ _ _ _ (call_function_two R name _ _ _ _ _ H1 H2)).
  rewrite bind_call. split; [reflexivity|].
  cbn [eng eng_call reference machine_call alloc fst snd heap stack result].
  rewrite Hs2. unfold after.
  cbn [eng eng_call reference machine_call snd stack push firstn skipn rev
       app Z.to_nat Pos.to_nat Pos.iter_op Nat.add].
  split; [|reflexivity].
  etransitivity; [eapply (deref_middle _ _ []); reflexivity|].
  unfold operand. rewrite Hh. reflexivity.
Qed.

End ReferenceOperators.

(** X24: on the reference engine, an operator or [filter] applied to a
    fieldset, geopoints or netcdf value that defines it is the engine
    function of the operator's symbol applied to two frames, [self] first:
    the engine value at the handle of [self], and [other] as the engine
    value at its handle when it is file-backed too, as its encoding when it
    is a structured value.  What the function gives is decoded and
    returned, and the argument stack is left as found. *)
Theorem X24_operator_on_engine
  (functions : bytes -> list MvValue -> MvValue) (fuel : nat)
  (self other : PyVal) (m : Method) (name : string)
  (st : HostState (reference functions)) :
  engine_function self m = Some name ->
  handle other <> None \/ structured other = true ->
  exists (run : M (reference functions) PyVal)
    (st3 : HostState (reference functions)) (p : ptr),
    call_method (reference functions) fuel self m other = Some run /\
    run st = value_from_metview (reference functions) fuel p st3 /\
    deref (eng st3) p
    = functions (str_encode name)
        [operand (eng st) self; operand (eng st) other] /\
    stack (eng st3) = stack (eng st).
Proof.
  intros Hm Hother.
  destruct (method_on_engine functions fuel self other m name st Hm Hother)
    as [run [st3 [p [Hcall [Hrun [Hderef Hstack]]]]]].
  exists run, st3, p. auto.
Qed.

Lemma X24_operator_on_engine_witness :
  exists (run : M (reference arguments_given) PyVal)
    (st3 : HostState (reference arguments_given)) (p : ptr),
    call_method (reference arguments_given) 2
      (PyFieldset (mkFileBacked 1 "/tmp/a.grib")) __sub__ (PyInt 2)
    = Some run /\
    run (@mkHost (reference arguments_given) []
           (mkMachine [MvFieldset (Some "/tmp/a.grib")] [] MvNil))
    = value_from_metview (reference arguments_given) 2 p st3 /\
    deref (eng st3) p
    = MvList [MvFieldset (Some "/tmp/a.grib"); MvNumber two] /\
    stack (eng st3) = [].
Proof.
  apply (X24_operator_on_engine arguments_given 2
           (PyFieldset (mkFileBacked 1 "/tmp/a.grib")) (PyInt 2) __sub__ "-"
           (@mkHost (reference arguments_given) []
              (mkMachine [MvFieldset (Some "/tmp/a.grib")] [] MvNil))
           eq_refl).
  right. reflexivity.
Defined.

(** ** What a call pushes, step by step *)

Section Pushed.

Variable E : Engine.



Lemma pairs_loop_bound (r : ptr) (its : dict) :
  forall st st' : HostState E,
  for_each E its
    (fun kv =>
       bind E (push_arg E (snd kv) "NONAME")
         (fun _ =>
            call E (p_set_request_value_from_pop r (str_encode (fst kv)))))
    st = (Ok tt, st') <->
  pairs_bound E r its st st'.
Proof.
  induction its as [|kv its IH]; intros st st'; simpl for_each;
    simpl pairs_bound.
  - unfold ret. split; [now intros [= <-]|now intros ->].
  - rewrite bind_assoc. split.
    + intros H. apply bind_inv_Ok in H as [a [st1 [Hp H]]].
      rewrite (bind_Ok E _ _ _ _ _ (call_unit E _ st1)) in H.
      pose proof (push_arg_returns_one E _ _ _ _ _ Hp) as ->.
      exists st1. split; [exact Hp|now apply IH].
    + intros [st1 [Hp Hrest]].
      rewrite (bind_Ok E _ _ _ _ _ Hp).
      rewrite (bind_Ok E _ _ _ _ _ (call_unit E _ st1)). now apply IH.
Qed.


End Pushed.




(** ** Request.push, step by step *)

(** C4: a Request that retains a non-null engine handle is pushed by one
    foreign call that forwards the handle, whatever its mapping holds.  A
    Request without one is pushed by allocating a fresh engine-side request,
    then, pair after pair in the order of the mapping, encoding the value
    and binding it under its key, and finally pushing the fresh request:
    the push returns exactly when all these steps do, and it does whenever
    every value is of a kind the encoder accepts.  On the reference engine
    the frame it leaves is the request made of the pairs, each value as
    encoded. *)
Theorem C4_request_push_forwards_handle (E : Engine) (self : Request)
  (st : HostState E) :
  (forall p : ptr,
     val_pointer self = Some p -> p <> NULL ->
     Request_push E self st =
     (Ok tt,
      mkHost (log st ++ [Ev (p_push_request p) tt])
             (snd (eng_call E unit (p_push_request p) (eng st))))) /\
  (truthy (val_pointer self) = false ->
   let r := fst (eng_call E ptr (p_new_request (str_encode (verb self)))
                   (eng st)) in
   let st0 :=
     mkHost (log st ++ [Ev (p_new_request (str_encode (verb self))) r])
            (snd (eng_call E ptr (p_new_request (str_encode (verb self)))
                    (eng st))) in
   forall st' : HostState E,
     Request_push E self st = (Ok tt, st') <->
     exists st2 : HostState E,
       pairs_bound E r (items self) st0 st2 /\
       st' = after (p_push_request r) st2) /\
  (forallb (fun kv => encodable (snd kv)) (items self) = true ->
   exists st' : HostState E, Request_push E self st = (Ok tt, st')) /\
  (forall (functions : bytes -> list MvValue -> MvValue)
     (s : HostState (reference functions)),
     structured (PyRequest self) = true ->
     exists s' : HostState (reference functions),
       Request_push (reference functions) self s = (Ok tt, s') /\
       stack (eng s') =
       MvRequest (Some (str_encode (verb self)))
         (map (fun kv => (str_encode (fst kv), wire_value (snd kv)))
            (items self))
       :: stack (eng s)).
Proof.
  unfold Request_push. split; [|split; [|split]].
  - intros p Hp Hnull. unfold Request_push_body. rewrite Hp. simpl.
    apply Z.eqb_neq in Hnull. rewrite Hnull. simpl.
    rewrite call_run, unit_answer. reflexivity.
  - intros Hfalse. cbv zeta. intros st'.
    unfold Request_push_body. rewrite Hfalse, bind_call. split.
    + intros H. apply bind_inv_Ok in H as [[] [st2 [Hloop H]]].
      apply pairs_loop_bound in Hloop.
      rewrite call_unit in H. injection H as <-.
      exists st2. auto.
    + intros [st2 [Hloop ->]]. apply pairs_loop_bound in Hloop.
      now rewrite (bind_Ok E _ _ _ _ _ Hloop), call_unit.
  - intros Hvals. apply Request_push_body_total.
    intros _ kv name st0 Hin. rewrite forallb_forall in Hvals.
    destruct (push_arg_total E (S (depth (snd kv))) (snd kv) name st0)
      as [st1 H1]; [lia|now apply Hvals|].
    eauto.
  - intros functions s Hs. simpl in Hs.
    apply andb_prop in Hs as [Hs Hvals]. apply andb_prop in Hs as [Ht Hd].
    apply negb_true_iff in Ht. apply distinct_NoDup in Hd.
    rewrite forallb_forall in Hvals.
    destruct (push_request_structured functions
                (push_arg (reference functions)) self s Ht Hd)
      as [s' [Hrun [Hstack _]]].
    { intros kv name s0 Hin.
      apply (push_structured functions (S (depth (snd kv)))); [lia|].
      now apply Hvals. }
    exists s'. auto.
Qed.

Lemma C4_request_push_forwards_handle_witness :
  log (snd (Request_push (reference no_functions)
              (mkRequest "RETRIEVE" (Some 1) [("PARAM", PyStr "t")])
              (@mkHost (reference no_functions) []
                 (mkMachine [MvRequest (Some "RETRIEVE") []] [] MvNil))))
  = [Ev (p_push_request 1) tt] /\
  exists s' : HostState (reference no_functions),
    Request_push (reference no_functions)
      (mkRequest "RETRIEVE" None [("PARAM", PyStr "t"); ("STEP", PyInt 2)])
      (start no_functions) = (Ok tt, s') /\
    stack (eng s') =
    [MvRequest (Some "RETRIEVE")
       [("PARAM", MvString "t"); ("STEP", MvNumber two)]].
Proof.
  split.
  - rewrite (proj1 (C4_request_push_forwards_handle (reference no_functions)
                      (mkRequest "RETRIEVE" (Some 1) [("PARAM", PyStr "t")])
                      (@mkHost (reference no_functions) []
                         (mkMachine [MvRequest (Some "RETRIEVE") []] []
                            MvNil)))
               1 eq_refl);
      [reflexivity|discriminate].
  - apply (proj2 (proj2 (proj2
             (C4_request_push_forwards_handle (reference no_functions)
                (mkRequest "RETRIEVE" None
                   [("PARAM", PyStr "t"); ("STEP", PyInt 2)])
                (start no_functions))))
             no_functions (start no_functions)).
    reflexivity.
Defined.
